(** * Related-content query synthesis of the Confluence / Jira client

    A shallow embedding of the parts of [ConfluenceClient],
    [JiraClient] and the tool server ([index.ts]) that build the
    related-item queries, talk to the remote REST endpoints and
    report errors.

    Strings are sequences of code units; the embedding uses Rocq's
    [string], so a character is a code unit below 256 (the Latin-1
    range).  The regular expressions of the source carry no [u] or [i]
    flag, so they work one code unit at a time. *)

From Stdlib Require Import ZArith Ascii String List Lia Bool.
From stdpp Require Import base option list strings gmap pretty.

Local Open Scope Z_scope.

(** ** JavaScript string primitives used by the clients *)

Module Js.

(** The double quote character, used inside the query templates. *)
Definition dquote : string := String "034"%char "".

(** The part ["${s}"] of a template literal: [s] between two double
    quotes, with nothing escaped. *)
Definition quote (s : string) : string := dquote +:+ s +:+ dquote.

(** [\s]: the white space and line terminator code units below 256,
    that is TAB, LF, VT, FF, CR, SPACE and NO-BREAK SPACE. *)
Definition is_space (c : ascii) : bool :=
  let n := N_of_ascii c in
  ((9 <=? n)%N && (n <=? 13)%N) || (n =? 32)%N || (n =? 160)%N.

(** [\w]: [A-Za-z0-9_]. *)
Definition is_word (c : ascii) : bool :=
  let n := N_of_ascii c in
  ((48 <=? n)%N && (n <=? 57)%N) || ((65 <=? n)%N && (n <=? 90)%N)
  || (n =? 95)%N || ((97 <=? n)%N && (n <=? 122)%N).

(** [s.split(/\s+/)].  [cur] is the substring collected since the end
    of the last separator and [in_sep] tells that the previous code
    unit belonged to a separator: a maximal run of white space is one
    separator.  The substring after the last separator is always
    emitted, so the result is never empty and leading or trailing
    white space yields an empty first or last element. *)
Fixpoint split_ws_go (s cur : string) (in_sep : bool) : list string :=
  match s with
  | EmptyString => [cur]
  | String c r =>
      if is_space c then
        if in_sep then split_ws_go r cur true
        else cur :: split_ws_go r "" true
      else split_ws_go r (cur +:+ String c "") false
  end.

Definition split_ws (s : string) : list string := split_ws_go s "" false.

(** [s.replace(/[^\w\s]/g, '')]: every code unit that is neither a
    word character nor white space is deleted. *)
Fixpoint strip_punct (s : string) : string :=
  match s with
  | EmptyString => EmptyString
  | String c r =>
      if is_word c || is_space c then String c (strip_punct r)
      else strip_punct r
  end.

Fixpoint all_space (s : string) : bool :=
  match s with
  | EmptyString => true
  | String c r => is_space c && all_space r
  end.

Fixpoint all_word (s : string) : bool :=
  match s with
  | EmptyString => true
  | String c r => is_word c && all_word r
  end.

Fixpoint no_space (s : string) : bool :=
  match s with
  | EmptyString => true
  | String c r => negb (is_space c) && no_space r
  end.

(** [xs.join(sep)] on an array of strings. *)
Fixpoint join (sep : string) (xs : list string) : string :=
  match xs with
  | [] => ""
  | [x] => x
  | x :: rest => x +:+ sep +:+ join sep rest
  end.

End Js.

(** ** Keyword extractor

    The same three chained calls occur in [getTopicallyRelatedPages]
    (on [sourcePage.title]) and in [getRelatedIssues] (on
    [issue.fields.summary]):
    [.split(/\s+/).filter(word => word.length > 3)
       .map(word => word.replace(/[^\w\s]/g, ''))]. *)

Definition long_word (word : string) : bool := (3 <? String.length word)%nat.

Definition extractKeywords (text : string) : list string :=
  map Js.strip_punct (List.filter long_word (Js.split_ws text)).

(** The keyword extractor as the specification words it: split the
    text on white space runs, discard the tokens of at most three
    characters, strip every character that is neither a word character
    nor white space from the tokens that survive. *)
Module KeywordSpec.

(** The tokens of a text: its maximal runs of characters that are not
    white space, in the order of the text. *)
Fixpoint tokens_go (cur : option string) (s : string) : list string :=
  match s with
  | EmptyString => option_list cur
  | String c r =>
      if Js.is_space c then option_list cur ++ tokens_go None r
      else tokens_go (Some (default "" cur +:+ String c "")) r
  end.

Definition tokens (text : string) : list string := tokens_go None text.

Definition discard_short (ts : list string) : list string :=
  List.filter (fun t => negb (String.length t <=? 3)%nat) ts.

Definition strip (t : string) : string :=
  string_of_list_ascii
    (List.filter (fun c => Js.is_word c || Js.is_space c) (list_ascii_of_string t)).

Definition keywords (text : string) : list string :=
  map strip (discard_short (tokens text)).

End KeywordSpec.

(** ** Errors, requests and the effect monad

    Every client method is an [async] function that awaits HTTP calls
    one after the other, writes to the console and either returns or
    throws.  [World] records what an observer sees: the requests sent,
    in order, and the lines written with [console.error]. *)

(** The error objects that reach a [catch] block: an axios error that
    carries a [response] (the remote answered with a status outside
    2xx), any other error object (only [message] is read from it), and
    fastmcp's [UserError]. *)
Inductive Error :=
| HttpError (status : Z) (statusText : string)
| PlainError (message : string)
| UserError (message : string).

Inductive ParamValue :=
| PStr (s : string)
| PNum (n : Z).

Record Request := {
  baseURL : string;
  url : string;
  params : list (string * ParamValue)
}.

Record World := {
  requests : list Request;
  console : list string
}.

Definition start_world : World := {| requests := []; console := [] |}.

Inductive Completion (A : Type) :=
| Return (a : A)
| Throw (e : Error).
Arguments Return {A} a.
Arguments Throw {A} e.

Definition Async (A : Type) : Type := World -> Completion A * World.

#[global] Instance async_ret : MRet Async := fun A a w => (Return a, w).

#[global] Instance async_bind : MBind Async := fun A B k m w =>
  match m w with
  | (Return a, w') => k a w'
  | (Throw e, w') => (Throw e, w')
  end.

Definition throw {A} (e : Error) : Async A := fun w => (Throw e, w).

(** [try { body } catch (error) { handler(error) }]. *)
Definition try_catch {A} (body : Async A) (handler : Error -> Async A) : Async A :=
  fun w =>
    match body w with
    | (Return a, w') => (Return a, w')
    | (Throw e, w') => handler e w'
    end.

(** The value of the parameter [k] of a request, if it is sent. *)
Definition param (k : string) (req : Request) : option ParamValue :=
  snd <$> List.find (fun kv => String.eqb (fst kv) k) (params req).

(** What the remote service does with one request. *)
Inductive Reply (A : Type) :=
| Ok2xx (data : A)
| HttpFailure (status : Z) (statusText : string)
| NoResponse (message : string).
Arguments Ok2xx {A} data.
Arguments HttpFailure {A} status statusText.
Arguments NoResponse {A} message.

(** How the promise of a request settles: axios resolves with the body
    of a 2xx reply and rejects otherwise (its default
    [validateStatus]). *)
Definition settle {A} (r : Reply A) : Completion A :=
  match r with
  | Ok2xx data => Return data
  | HttpFailure status statusText => Throw (HttpError status statusText)
  | NoResponse message => Throw (PlainError message)
  end.

(** The world after more requests and more console lines. *)
Definition extend (w : World) (reqs : list Request) (lines : list string) : World :=
  {| requests := requests w ++ reqs; console := console w ++ lines |}.

(** [console.error(line)]. *)
Definition console_error (line : string) : Async unit :=
  fun w => (Return tt, extend w [] [line]).

(** [await this.client.get(url, { params })] followed by
    [response.data]: the request is sent, then the promise settles. *)
Definition http_get {A} (endpoint : Request -> Reply A) (req : Request) : Async A :=
  fun w => (settle (endpoint req), extend w [req] []).

(** [error.message]; an axios error with a response carries axios's
    own message, which the modelled code never reads. *)
Definition error_message (e : Error) : string :=
  match e with
  | HttpError status statusText =>
      "Request failed with status code " +:+ pretty status
  | PlainError message => message
  | UserError message => message
  end.

(** ** Confluence client *)

Module Confluence.

Record Label := { name : string }.
Record LabelArray := { label_results : list Label }.
Record Metadata := { labels : option LabelArray }.

(** The fields of [ConfluencePage] that the modelled code reads. *)
Record Page := {
  id : string;
  status : string;
  title : string;
  body_storage_value : option string;
  metadata : option Metadata
}.

(** [ConfluencePageListResponse]. *)
Record PageList := {
  results : list Page;
  start : Z;
  limit : Z;
  size : Z
}.

Record Client := { domain : string; user : string; token : string }.

Definition clientBaseURL (c : Client) : string :=
  "https://" +:+ domain c +:+ "/wiki/rest/api".

(** The two endpoints of the wiki service that the modelled methods
    call: [GET /content/{id}] and [GET /content/search]. *)
Record Remote := {
  content : Request -> Reply Page;
  content_search : Request -> Reply PageList
}.

(** [private handleError(error: any): never]. *)
Definition handleError {A} (error : Error) : Async A :=
  match error with
  | HttpError status statusText =>
      _ ← console_error ("Error: " +:+ pretty status +:+ " - " +:+ statusText);
      _ ← (if status =? 401 then
             console_error
               "Authentication failed. Please check your email and API token."
           else if status =? 404 then
             console_error
               "Resource not found. Please check your Confluence domain and the requested resource."
           else mret tt);
      throw error
  | _ =>
      _ ← console_error ("An unexpected error occurred: " +:+ error_message error);
      throw error
  end.

(** The lines that one run of [handleError] writes to the console. *)
Definition logLines (error : Error) : list string :=
  match error with
  | HttpError status statusText =>
      ("Error: " +:+ pretty status +:+ " - " +:+ statusText)
      :: (if status =? 401 then
            ["Authentication failed. Please check your email and API token."]
          else if status =? 404 then
            ["Resource not found. Please check your Confluence domain and the requested resource."]
          else [])
  | _ => ["An unexpected error occurred: " +:+ error_message error]
  end.

(** The request of [getPageById]:
    [get(`/content/${pageId}`, { params: { expand: expand.join(',') } })]. *)
Definition pageRequest (c : Client) (pageId : string) (expand : list string)
    : Request :=
  {| baseURL := clientBaseURL c;
     url := "/content/" +:+ pageId;
     params := [("expand", PStr (Js.join "," expand))] |}.

(** [getPageById(pageId, expand = ['body.storage'])]. *)
Definition getPageById (remote : Remote) (c : Client)
    (pageId : string) (expand : option (list string)) : Async Page :=
  let expand := default ["body.storage"] expand in
  try_catch
    (http_get (content remote) (pageRequest c pageId expand))
    handleError.

(** The query built between the two awaits of
    [getTopicallyRelatedPages], as a function of the values it is
    built from. *)
Definition relatedQuery (pageId : string) (keywords : list string)
    (labels : list Label) : string :=
  let relatedQuery := "type = page AND id != " +:+ pageId in
  let relatedQuery :=
    if (0 <? length keywords)%nat then
      let titleTerms :=
        Js.join " OR "
          (map (fun word => "title ~ " +:+ Js.quote word) keywords) in
      relatedQuery +:+ " AND (" +:+ titleTerms +:+ ")"
    else relatedQuery in
  if (0 <? length labels)%nat then
    let labelNames := map name labels in
    let labelTerms :=
      Js.join " OR "
        (map (fun name => "labelText = " +:+ Js.quote name) labelNames) in
    relatedQuery +:+
      (if (0 <? length keywords)%nat then " OR (" +:+ labelTerms +:+ ")"
       else " AND (" +:+ labelTerms +:+ ")")
  else relatedQuery.

(** [sourcePage.metadata?.labels?.results || []]. *)
Definition pageLabels (sourcePage : Page) : list Label :=
  match metadata sourcePage with
  | Some m => match labels m with
              | Some la => label_results la
              | None => []
              end
  | None => []
  end.

(** The search request of [getTopicallyRelatedPages]:
    [get('/content/search', { params: { cql, limit, expand } })]. *)
Definition relatedRequest (c : Client) (relatedQuery : string) (limit : Z)
    (expand : list string) : Request :=
  {| baseURL := clientBaseURL c;
     url := "/content/search";
     params := [("cql", PStr relatedQuery);
                ("limit", PNum limit);
                ("expand", PStr (Js.join "," expand))] |}.

(** [getTopicallyRelatedPages(pageId, limit = 10, expand = ['body.storage'])]. *)
Definition getTopicallyRelatedPages (remote : Remote) (c : Client)
    (pageId : string) (limit : option Z) (expand : option (list string))
    : Async PageList :=
  let limit := default 10 limit in
  let expand := default ["body.storage"] expand in
  try_catch
    (sourcePage ← getPageById remote c pageId (Some ["metadata.labels"]);
     let title := title sourcePage in
     let keywords := extractKeywords title in
     let labels := pageLabels sourcePage in
     let relatedQuery := relatedQuery pageId keywords labels in
     http_get (content_search remote) (relatedRequest c relatedQuery limit expand))
    handleError.

End Confluence.

(** ** Jira client *)

Module Jira.

Record Project := { project_key : string }.
Record IssueType := { name : string }.

(** The members of [issue.fields] that the modelled code reads.
    [summary] and [labels] may be missing from a reply. *)
Record Fields := {
  summary : option string;
  labels : option (list string);
  project : Project;
  issuetype : option IssueType
}.

Record Issue := { key : string; fields : Fields }.

(** [JiraSearchResponse]. *)
Record SearchResponse := {
  issues : list Issue;
  maxResults : Z;
  total : Z;
  startAt : Z
}.

(** A member of the body of a sprint reply, which [getSprintIssues]
    copies member by member. *)
Inductive JValue :=
| JUndefined
| JNum (n : Z)
| JStr (s : string)
| JIssues (l : list Issue).

Record Client := { domain : string; user : string; token : string }.

Definition clientBaseURL (c : Client) : string :=
  "https://" +:+ domain c +:+ "/rest/api/3".

Definition agileBaseURL (c : Client) : string :=
  "https://" +:+ domain c +:+ "/rest/agile/1.0".

(** The endpoints that the modelled methods call: [GET /issue/{key}],
    [GET /search] and [GET /sprint/{id}/issue]. *)
Record Remote := {
  issue : Request -> Reply Issue;
  search : Request -> Reply SearchResponse;
  sprint_issue : Request -> Reply (gmap string JValue)
}.

(** [private handleError(error: any): never]. *)
Definition handleError {A} (error : Error) : Async A :=
  match error with
  | HttpError status statusText =>
      _ ← console_error ("Error: " +:+ pretty status +:+ " - " +:+ statusText);
      _ ← (if status =? 401 then
             console_error
               "Authentication failed. Please check your email and API token."
           else if status =? 403 then
             console_error
               "Permission denied. You do not have access to this resource."
           else if status =? 404 then
             console_error
               "Resource not found. Please check the requested resource exists."
           else mret tt);
      throw error
  | _ =>
      _ ← console_error ("An unexpected error occurred: " +:+ error_message error);
      throw error
  end.

(** The lines that one run of [handleError] writes to the console. *)
Definition logLines (error : Error) : list string :=
  match error with
  | HttpError status statusText =>
      ("Error: " +:+ pretty status +:+ " - " +:+ statusText)
      :: (if status =? 401 then
            ["Authentication failed. Please check your email and API token."]
          else if status =? 403 then
            ["Permission denied. You do not have access to this resource."]
          else if status =? 404 then
            ["Resource not found. Please check the requested resource exists."]
          else [])
  | _ => ["An unexpected error occurred: " +:+ error_message error]
  end.

(** [if (fields && fields.length > 0) params.fields = fields.join(',')]. *)
Definition fieldsParam (fields : option (list string)) : list (string * ParamValue) :=
  match fields with
  | Some (f :: fs) => [("fields", PStr (Js.join "," (f :: fs)))]
  | _ => []
  end.

(** The request of [getIssue]: [get(`/issue/${issueKey}`, { params })]. *)
Definition issueRequest (c : Client) (issueKey : string)
    (fields : option (list string)) : Request :=
  {| baseURL := clientBaseURL c;
     url := "/issue/" +:+ issueKey;
     params := fieldsParam fields |}.

(** [getIssue(issueKey, fields?)]. *)
Definition getIssue (remote : Remote) (c : Client)
    (issueKey : string) (fields : option (list string)) : Async Issue :=
  try_catch
    (http_get (issue remote) (issueRequest c issueKey fields))
    handleError.

(** The request of [searchIssues]: [get('/search', { params })]. *)
Definition searchRequest (c : Client) (jql : string) (startAt maxResults : Z)
    (fields : option (list string)) : Request :=
  {| baseURL := clientBaseURL c;
     url := "/search";
     params := [("jql", PStr jql);
                ("startAt", PNum startAt);
                ("maxResults", PNum maxResults)] ++ fieldsParam fields |}.

(** [searchIssues(jql, startAt = 0, maxResults = 50, fields?)]. *)
Definition searchIssues (remote : Remote) (c : Client)
    (jql : string) (startAt maxResults : option Z)
    (fields : option (list string)) : Async SearchResponse :=
  let startAt := default 0 startAt in
  let maxResults := default 50 maxResults in
  try_catch
    (http_get (search remote) (searchRequest c jql startAt maxResults fields))
    handleError.

(** The [relatedQueries] array of [getRelatedIssues] once the three
    pushes are done. *)
Definition relatedQueries (source : Issue) : list string :=
  let f := fields source in
  ["project = " +:+ project_key (project f)]
  ++ match summary f with
     | Some (String ch rest) =>
         let keywords := extractKeywords (String ch rest) in
         if (0 <? length keywords)%nat then
           let keywordQuery :=
             Js.join " OR "
               (map (fun word => "summary ~ " +:+ Js.quote word) keywords) in
           ["(" +:+ keywordQuery +:+ ")"]
         else []
     | _ => []
     end
  ++ match labels f with
     | Some (l :: ls) =>
         let labelQuery :=
           Js.join " OR "
             (map (fun label => "labels = " +:+ Js.quote label) (l :: ls)) in
         ["(" +:+ labelQuery +:+ ")"]
     | _ => []
     end.

Definition relatedJql (issueKey : string) (source : Issue) : string :=
  "(" +:+ Js.join " OR " (relatedQueries source) +:+ ") AND issuekey != "
      +:+ issueKey +:+ " ORDER BY updated DESC".

(** [getRelatedIssues(issueKey)]. *)
Definition getRelatedIssues (remote : Remote) (c : Client)
    (issueKey : string) : Async (list Issue) :=
  try_catch
    (source ← getIssue remote c issueKey (Some ["summary"; "labels"; "project"]);
     let jql := relatedJql issueKey source in
     searchResult ← searchIssues remote c jql (Some 0) (Some 10) None;
     mret (issues searchResult))
    handleError.

(** [issueTypes.includes(issue.fields.issuetype?.name)]. *)
Definition typeListed (issueTypes : list string) (i : Issue) : bool :=
  match issuetype (fields i) with
  | Some t => existsb (String.eqb (name t)) issueTypes
  | None => false
  end.

(** The request of [getSprintIssues], sent to the agile API:
    [get(`/sprint/${sprintId}/issue`, { baseURL, params })]. *)
Definition sprintRequest (c : Client) (sprintId startAt maxResults : Z) : Request :=
  {| baseURL := agileBaseURL c;
     url := "/sprint/" +:+ pretty sprintId +:+ "/issue";
     params := [("startAt", PNum startAt); ("maxResults", PNum maxResults)] |}.

(** [getSprintIssues(sprintId, startAt = 0, maxResults = 50, issueTypes?)].
    Calling [filter] on a member that is not an array throws a
    [TypeError]. *)
Definition getSprintIssues (remote : Remote) (c : Client)
    (sprintId : Z) (startAt maxResults : option Z)
    (issueTypes : option (list string)) : Async (gmap string JValue) :=
  let startAt := default 0 startAt in
  let maxResults := default 50 maxResults in
  try_catch
    (data ← http_get (sprint_issue remote) (sprintRequest c sprintId startAt maxResults);
     let issues := default JUndefined (data !! "issues") in
     issues ← match issueTypes with
              | Some (t :: ts) =>
                  match issues with
                  | JIssues l =>
                      mret (JIssues (List.filter (typeListed (t :: ts)) l))
                  | JUndefined =>
                      throw (PlainError
                        "Cannot read properties of undefined (reading 'filter')")
                  | _ => throw (PlainError "issues.filter is not a function")
                  end
              | _ => mret issues
              end;
     mret (<["issues" := issues]> data))
    handleError.

End Jira.

(** ** Tool server ([index.ts]) *)

Module Tools.

(** [const handleError = (error: any): never => ...]. *)
Definition handleError {A} (error : Error) : Async A :=
  match error with
  | HttpError status statusText =>
      if status =? 401 then
        throw (UserError
          "Authentication Error: Failed to authenticate with Confluence. Please check your credentials.")
      else if status =? 403 then
        throw (UserError
          "Permission Error: You do not have permission to access this resource in Confluence.")
      else if status =? 404 then
        throw (UserError
          "Not Found Error: The requested Confluence resource could not be found. Please check the provided ID or parameters.")
      else
        throw (UserError
          ("Confluence API Error: " +:+ pretty status +:+ " " +:+ statusText))
  | UserError _ => throw error
  | PlainError message =>
      throw (UserError ("An unexpected error occurred: " +:+ message))
  end.

(** The error that [handleError] throws in place of [error]. *)
Definition rethrown (error : Error) : Error :=
  match error with
  | HttpError status statusText =>
      UserError
        (if status =? 401 then
           "Authentication Error: Failed to authenticate with Confluence. Please check your credentials."
         else if status =? 403 then
           "Permission Error: You do not have permission to access this resource in Confluence."
         else if status =? 404 then
           "Not Found Error: The requested Confluence resource could not be found. Please check the provided ID or parameters."
         else "Confluence API Error: " +:+ pretty status +:+ " " +:+ statusText)
  | UserError _ => error
  | PlainError message => UserError ("An unexpected error occurred: " +:+ message)
  end.

(** [process.env]: the three variables [initAtlassianClient] reads. *)
Record Env := {
  ATLASSIAN_DOMAIN : option string;
  ATLASSIAN_USER : option string;
  ATLASSIAN_TOKEN : option string
}.

(** A variable that is unset or empty is falsy. *)
Definition env_value (v : option string) : option string :=
  match v with
  | Some (String ch rest) => Some (String ch rest)
  | _ => None
  end.

(** The three values, when all of them are set. *)
Definition credentials (env : Env) : option (string * string * string) :=
  match env_value (ATLASSIAN_DOMAIN env), env_value (ATLASSIAN_USER env),
        env_value (ATLASSIAN_TOKEN env) with
  | Some d, Some u, Some t => Some (d, u, t)
  | _, _, _ => None
  end.

(** [initAtlassianClient(type)], yielding the three constructor
    arguments. *)
Definition initAtlassianClient (env : Env) : Async (string * string * string) :=
  match credentials env with
  | Some dut => mret dut
  | None =>
      throw (UserError
        "Please set ATLASSIAN_DOMAIN, ATLASSIAN_USER, and ATLASSIAN_TOKEN in the .env file")
  end.

Record SimplePageResult := {
  id : string;
  status : string;
  title : string;
  content : string
}.

(** The object that the [getRelatedPages] tool serialises. *)
Record RelatedPagesResult := {
  result_content : list SimplePageResult;
  totalCount : Z;
  relatedToPageId : string
}.

(** [args.limit || 10]: an absent limit and the limit 0 are falsy. *)
Definition limitOrDefault (limit : option Z) : Z :=
  match limit with
  | Some n => if n =? 0 then 10 else n
  | None => 10
  end.

(** The [execute] function of the [getRelatedPages] tool, run in a
    process whose client is not yet initialised; the value returned
    is the one handed to [JSON.stringify]. *)
Definition getRelatedPages (remote : Confluence.Remote) (env : Env)
    (pageId : string) (limit : option Z) : Async RelatedPagesResult :=
  try_catch
    ('(d, u, t) ← initAtlassianClient env;
     let client := {| Confluence.domain := d; Confluence.user := u;
                      Confluence.token := t |} in
     pagesResponse ← Confluence.getTopicallyRelatedPages remote client pageId
                       (Some (limitOrDefault limit)) (Some ["body.storage"]);
     let simpleResults :=
       map (fun page =>
              {| id := Confluence.id page;
                 status := Confluence.status page;
                 title := Confluence.title page;
                 content := default "" (Confluence.body_storage_value page) |})
           (Confluence.results pagesResponse) in
     mret {| result_content := simpleResults;
             totalCount := Confluence.size pagesResponse;
             relatedToPageId := pageId |})
    handleError.

(** The [execute] function of the [getRelatedIssues] tool, run in a
    process whose client is not yet initialised. *)
Definition getRelatedIssues (remote : Jira.Remote) (env : Env)
    (issueKey : string) : Async (list Jira.Issue) :=
  try_catch
    ('(d, u, t) ← initAtlassianClient env;
     let jiraClient := {| Jira.domain := d; Jira.user := u; Jira.token := t |} in
     Jira.getRelatedIssues remote jiraClient issueKey)
    handleError.

End Tools.

(** ** The boolean skeleton of the query languages

    CQL and JQL are executed by the remote services.  What the clients
    rely on is their boolean structure: comparisons of a field with a
    value, [AND], [OR] and parentheses.  [Expr] is the syntax tree of
    such an expression and [print] its concrete syntax; [eval] decides
    whether an item satisfies it. *)

Module Query.

Inductive Op :=
| OpEq        (* field = value *)
| OpNe        (* field != value *)
| OpContains. (* field ~ value *)

Record Atom := {
  field : string;
  op : Op;
  value : string;
  quoted : bool
}.

Inductive Expr :=
| EAtom (a : Atom)
| EAnd (l r : Expr)
| EOr (l r : Expr)
| EParen (e : Expr).

Definition print_op (o : Op) : string :=
  match o with
  | OpEq => " = "
  | OpNe => " != "
  | OpContains => " ~ "
  end.

Definition print_atom (a : Atom) : string :=
  field a +:+ print_op (op a) +:+ (if quoted a then Js.quote (value a) else value a).

Fixpoint print (e : Expr) : string :=
  match e with
  | EAtom a => print_atom a
  | EAnd l r => print l +:+ " AND " +:+ print r
  | EOr l r => print l +:+ " OR " +:+ print r
  | EParen e => "(" +:+ print e +:+ ")"
  end.

Definition is_primary (e : Expr) : bool :=
  match e with
  | EAtom _ | EParen _ => true
  | _ => false
  end.

Definition is_or (e : Expr) : bool :=
  match e with
  | EOr _ _ => true
  | _ => false
  end.

(** A tree whose printed form is read back as the same tree both when
    [AND] binds tighter than [OR] and when the operators are taken
    from left to right: every right operand is an atom or a
    parenthesis, and no [OR] without parentheses is an operand of an
    [AND]. *)
Fixpoint plain_reading (e : Expr) : bool :=
  match e with
  | EAtom _ => true
  | EParen e => plain_reading e
  | EAnd l r => plain_reading l && negb (is_or l) && is_primary r && plain_reading r
  | EOr l r => plain_reading l && is_primary r && plain_reading r
  end.

(** An item of the remote service, seen through its fields; a field
    such as the labels holds several values. *)
Definition Item := string -> list string.

Section Semantics.

(** The text match behind [~], of which nothing is assumed. *)
Variable matches : string -> string -> bool.

Definition eval_atom (a : Atom) (it : Item) : bool :=
  match op a with
  | OpEq => existsb (String.eqb (value a)) (it (field a))
  | OpNe => negb (existsb (String.eqb (value a)) (it (field a)))
  | OpContains => existsb (fun text => matches text (value a)) (it (field a))
  end.

Fixpoint eval (e : Expr) (it : Item) : bool :=
  match e with
  | EAtom a => eval_atom a it
  | EAnd l r => eval l it && eval r it
  | EOr l r => eval l it || eval r it
  | EParen e => eval e it
  end.

End Semantics.

(** [e1 OR e2 OR ... OR en], read from left to right. *)
Definition disjunction (first : Expr) (rest : list Expr) : Expr :=
  fold_left EOr rest first.

Definition atom (f : string) (o : Op) (v : string) (q : bool) : Expr :=
  EAtom {| field := f; op := o; value := v; quoted := q |}.

(** The tree of the query of [getTopicallyRelatedPages]. *)
Definition relatedPagesExpr (pageId : string) (keywords : list string)
    (labels : list Confluence.Label) : Expr :=
  let base := EAnd (atom "type" OpEq "page" false) (atom "id" OpNe pageId false) in
  let titled :=
    match keywords with
    | [] => base
    | k :: ks =>
        EAnd base
          (EParen (disjunction (atom "title" OpContains k true)
                     (map (fun word => atom "title" OpContains word true) ks)))
    end in
  match labels with
  | [] => titled
  | l :: ls =>
      let labelled :=
        EParen (disjunction (atom "labelText" OpEq (Confluence.name l) true)
                  (map (fun l => atom "labelText" OpEq (Confluence.name l) true) ls)) in
      match keywords with
      | [] => EAnd titled labelled
      | _ :: _ => EOr titled labelled
      end
  end.

(** The tree of the [WHERE] part of the query of [getRelatedIssues]. *)
Definition relatedIssuesExpr (issueKey : string) (source : Jira.Issue) : Expr :=
  let f := Jira.fields source in
  let keywordClause :=
    match Jira.summary f with
    | Some (String ch rest) =>
        match extractKeywords (String ch rest) with
        | [] => []
        | k :: ks =>
            [EParen (disjunction (atom "summary" OpContains k true)
                       (map (fun word => atom "summary" OpContains word true) ks))]
        end
    | _ => []
    end in
  let labelClause :=
    match Jira.labels f with
    | Some (l :: ls) =>
        [EParen (disjunction (atom "labels" OpEq l true)
                   (map (fun l => atom "labels" OpEq l true) ls))]
    | _ => []
    end in
  EAnd
    (EParen (disjunction
               (atom "project" OpEq (Jira.project_key (Jira.project f)) false)
               (keywordClause ++ labelClause)))
    (atom "issuekey" OpNe issueKey false).

(** A wiki page as an item. *)
Definition pageItem (p : Confluence.Page) : Item :=
  fun f =>
    if String.eqb f "type" then ["page"]
    else if String.eqb f "id" then [Confluence.id p]
    else if String.eqb f "title" then [Confluence.title p]
    else if String.eqb f "labelText" then map Confluence.name (Confluence.pageLabels p)
    else [].

(** An issue as an item. *)
Definition issueItem (i : Jira.Issue) : Item :=
  fun f =>
    if String.eqb f "issuekey" then [Jira.key i]
    else if String.eqb f "project" then [Jira.project_key (Jira.project (Jira.fields i))]
    else if String.eqb f "summary" then
      match Jira.summary (Jira.fields i) with Some s => [s] | None => [] end
    else if String.eqb f "labels" then default [] (Jira.labels (Jira.fields i))
    else [].

End Query.

(** ** Auxiliary definitions of the proofs *)

Definition nonempty_list {X} (l : list X) : bool :=
  match l with
  | [] => false
  | _ :: _ => true
  end.

Definition nonempty (s : string) : bool :=
  match s with
  | EmptyString => false
  | _ => true
  end.

(** The token under construction, if it has a character yet. *)
Definition pending (cur : string) : option string :=
  match cur with
  | EmptyString => None
  | _ => Some cur
  end.

(** ** Concrete inputs *)

Module Demo.

Definition wikiClient : Confluence.Client :=
  {| Confluence.domain := "example.atlassian.net";
     Confluence.user := "dev@example.com";
     Confluence.token := "t0k3n" |}.

Definition env : Tools.Env :=
  {| Tools.ATLASSIAN_DOMAIN := Some "example.atlassian.net";
     Tools.ATLASSIAN_USER := Some "dev@example.com";
     Tools.ATLASSIAN_TOKEN := Some "t0k3n" |}.

Definition oncall : Confluence.Label := {| Confluence.name := "oncall" |}.

(** A page with title keywords and a label. *)
Definition notesPage : Confluence.Page :=
  {| Confluence.id := "123";
     Confluence.status := "current";
     Confluence.title := "meeting notes";
     Confluence.body_storage_value := None;
     Confluence.metadata :=
       Some {| Confluence.labels :=
                 Some {| Confluence.label_results := [oncall] |} |} |}.

(** A page with neither keywords nor labels. *)
Definition blankPage : Confluence.Page :=
  {| Confluence.id := "7";
     Confluence.status := "current";
     Confluence.title := "  ";
     Confluence.body_storage_value := None;
     Confluence.metadata := None |}.

Definition emptyPageList (limit : Z) : Confluence.PageList :=
  {| Confluence.results := [];
     Confluence.start := 0;
     Confluence.limit := limit;
     Confluence.size := 0 |}.

(** A wiki that holds [notesPage] and [blankPage] and whose search
    finds nothing. *)
Definition wiki : Confluence.Remote :=
  {| Confluence.content := fun req =>
       if String.eqb (url req) "/content/123" then Ok2xx notesPage
       else if String.eqb (url req) "/content/7" then Ok2xx blankPage
       else HttpFailure 404 "Not Found";
     Confluence.content_search := fun req =>
       match param "limit" req with
       | Some (PNum n) => Ok2xx (emptyPageList n)
       | _ => HttpFailure 400 "Bad Request"
       end |}.


Definition jiraClient : Jira.Client :=
  {| Jira.domain := "example.atlassian.net";
     Jira.user := "dev@example.com";
     Jira.token := "t0k3n" |}.

Definition mkIssue (key summary : string) (labels : list string) (type : string)
    : Jira.Issue :=
  {| Jira.key := key;
     Jira.fields :=
       {| Jira.summary := Some summary;
          Jira.labels := Some labels;
          Jira.project := {| Jira.project_key := "PROJ" |};
          Jira.issuetype := Some {| Jira.name := type |} |} |}.

Definition loginIssue : Jira.Issue :=
  mkIssue "PROJ-1" "Login page crashes" ["auth"] "Bug".

(** Twelve more issues of the project. *)
Definition otherIssues : list Jira.Issue :=
  map (fun n : nat => mkIssue ("PROJ-" +:+ pretty n) "Login page" [] "Story")
      (seq 2 12).

(** An issue without an issue type. *)
Definition untypedIssue : Jira.Issue :=
  {| Jira.key := "PROJ-20";
     Jira.fields :=
       {| Jira.summary := None;
          Jira.labels := None;
          Jira.project := {| Jira.project_key := "PROJ" |};
          Jira.issuetype := None |} |}.

Definition sprintBody : gmap string Jira.JValue :=
  <["issues" := Jira.JIssues
                  [loginIssue; mkIssue "PROJ-2" "Signup form" [] "Story";
                   untypedIssue; mkIssue "PROJ-3" "Logout link" [] "Bug"]]>
    (<["total" := Jira.JNum 4]>
       (<["startAt" := Jira.JNum 0]> (<["maxResults" := Jira.JNum 50]> ∅))).

(** A tracker that holds [loginIssue], whose search returns the first
    [maxResults] of [otherIssues] and whose sprints all hold
    [sprintBody]. *)
Definition tracker : Jira.Remote :=
  {| Jira.issue := fun req =>
       if String.eqb (url req) "/issue/PROJ-1" then Ok2xx loginIssue
       else HttpFailure 404 "Not Found";
     Jira.search := fun req =>
       match param "maxResults" req with
       | Some (PNum n) =>
           Ok2xx {| Jira.issues := take (Z.to_nat n) otherIssues;
                    Jira.maxResults := n;
                    Jira.total := 12;
                    Jira.startAt := 0 |}
       | _ => HttpFailure 400 "Bad Request"
       end;
     Jira.sprint_issue := fun _ => Ok2xx sprintBody |}.

End Demo.

(** ** Further methods of the Confluence client *)

Module ConfluenceExt.

(** [if (spaceKey)]: the space key when it is given and not empty. *)
Definition givenKey (spaceKey : option string) : option string :=
  match spaceKey with
  | Some (String ch rest) => Some (String ch rest)
  | _ => None
  end.

(** The fields of [ConfluenceAttachment] that the modelled code reads;
    [download] is [attachment?._links?.download]. *)
Record Attachment := {
  attachment_id : string;
  attachment_title : string;
  download : option string
}.

(** What [downloadAttachment] reads of the reply to the download
    request: [response.data] and [response.headers['content-type']]. *)
Record Download := {
  data : string;
  contentType : option string
}.

(** The object that [downloadAttachment] returns. *)
Record Downloaded := {
  downloaded_data : string;
  downloaded_contentType : option string;
  downloaded_filename : string
}.

(** The endpoints of the wiki service: those of the related-page
    operation, [GET /content], [GET /content/{id}] for an attachment
    and the download link of an attachment. *)
Record Remote := {
  wiki : Confluence.Remote;
  content_list : Request -> Reply Confluence.PageList;
  attachment : Request -> Reply Attachment;
  download_link : Request -> Reply Download
}.

(** The query of [getPagesByTitle]. *)
Definition titleQuery (title : string) (spaceKey : option string) : string :=
  let cql := "title ~ " +:+ Js.quote title in
  match givenKey spaceKey with
  | Some key => cql +:+ " AND space = " +:+ Js.quote key
  | None => cql
  end.

(** [getPagesByTitle(title, spaceKey?, expand = ['body.storage'])]. *)
Definition getPagesByTitle (remote : Remote) (c : Confluence.Client)
    (title : string) (spaceKey : option string) (expand : option (list string))
    : Async Confluence.PageList :=
  let expand := default ["body.storage"] expand in
  try_catch
    (http_get (Confluence.content_search (wiki remote))
       {| baseURL := Confluence.clientBaseURL c;
          url := "/content/search";
          params := [("cql", PStr (titleQuery title spaceKey));
                     ("expand", PStr (Js.join "," expand))] |})
    Confluence.handleError.

(** [if (spaceKey) params.spaceKey = spaceKey]. *)
Definition spaceKeyParam (spaceKey : option string) : list (string * ParamValue) :=
  match givenKey spaceKey with
  | Some key => [("spaceKey", PStr key)]
  | None => []
  end.

(** [getRecentlyUpdated(spaceKey?, type = 'page', limit = 25, start = 0,
    expand = [])]. *)
Definition getRecentlyUpdated (remote : Remote) (c : Confluence.Client)
    (spaceKey type : option string) (limit start : option Z)
    (expand : option (list string)) : Async Confluence.PageList :=
  let type := default "page" type in
  let limit := default 25 limit in
  let start := default 0 start in
  let expand := default [] expand in
  try_catch
    (http_get (content_list remote)
       {| baseURL := Confluence.clientBaseURL c;
          url := "/content";
          params := [("type", PStr type);
                     ("limit", PNum limit);
                     ("start", PNum start);
                     ("expand", PStr (Js.join "," expand));
                     ("orderby", PStr "modified")] ++ spaceKeyParam spaceKey |})
    Confluence.handleError.

(** [getContentByLabel(labelName, spaceKey?, limit = 25, start = 0)]. *)
Definition getContentByLabel (remote : Remote) (c : Confluence.Client)
    (labelName : string) (spaceKey : option string) (limit start : option Z)
    : Async Confluence.PageList :=
  let limit := default 25 limit in
  let start := default 0 start in
  try_catch
    (http_get (Confluence.content_search (wiki remote))
       {| baseURL := Confluence.clientBaseURL c;
          url := "/content/search";
          params := [("labelName", PStr labelName);
                     ("limit", PNum limit);
                     ("start", PNum start)] ++ spaceKeyParam spaceKey |})
    Confluence.handleError.

(** The request of [getAttachment]: [get(`/content/${attachmentId}`)]. *)
Definition attachmentRequest (c : Confluence.Client) (attachmentId : string) : Request :=
  {| baseURL := Confluence.clientBaseURL c;
     url := "/content/" +:+ attachmentId;
     params := [] |}.

(** [getAttachment(attachmentId)]. *)
Definition getAttachment (remote : Remote) (c : Confluence.Client)
    (attachmentId : string) : Async Attachment :=
  try_catch
    (http_get (attachment remote) (attachmentRequest c attachmentId))
    Confluence.handleError.

(** The second request of [downloadAttachment]:
    [get(downloadUrl, { responseType: 'arraybuffer' })]. *)
Definition downloadRequest (c : Confluence.Client) (downloadUrl : string) : Request :=
  {| baseURL := Confluence.clientBaseURL c;
     url := downloadUrl;
     params := [] |}.

(** [downloadAttachment(attachmentId)]. *)
Definition downloadAttachment (remote : Remote) (c : Confluence.Client)
    (attachmentId : string) : Async Downloaded :=
  try_catch
    (attachment ← getAttachment remote c attachmentId;
     match givenKey (download attachment) with
     | None => throw (PlainError "Download link not available")
     | Some downloadUrl =>
         response ← http_get (download_link remote) (downloadRequest c downloadUrl);
         mret {| downloaded_data := data response;
                 downloaded_contentType := contentType response;
                 downloaded_filename := attachment_title attachment |}
     end)
    Confluence.handleError.

End ConfluenceExt.

(** ** Further methods of the Jira client *)

Module JiraExt.

(** The fields of [JiraSprint] that the modelled code reads. *)
Record Sprint := {
  sprint_id : Z;
  sprint_name : string;
  sprint_state : string
}.

(** [JiraSprintListResponse]; the tool server allows for a reply
    without [values]. *)
Record SprintList := {
  values : option (list Sprint);
  sprints_total : Z
}.

(** The endpoints of the tracker: those of the related-issue and sprint
    operations and [GET /board/{id}/sprint]. *)
Record Remote := {
  tracker : Jira.Remote;
  board_sprint : Request -> Reply SprintList
}.

(** The request of [getSprints], sent to the agile API:
    [get(`/board/${boardId}/sprint`, { baseURL, params })], where
    [state] is added to [params] when it is given. *)
Definition sprintsRequest (c : Jira.Client) (boardId : Z) (state : option string)
    (startAt maxResults : Z) : Request :=
  {| baseURL := Jira.agileBaseURL c;
     url := "/board/" +:+ pretty boardId +:+ "/sprint";
     params := [("startAt", PNum startAt); ("maxResults", PNum maxResults)]
               ++ match ConfluenceExt.givenKey state with
                  | Some s => [("state", PStr s)]
                  | None => []
                  end |}.

(** [getSprints(boardId, state?, startAt = 0, maxResults = 50)]. *)
Definition getSprints (remote : Remote) (c : Jira.Client) (boardId : Z)
    (state : option string) (startAt maxResults : option Z) : Async SprintList :=
  let startAt := default 0 startAt in
  let maxResults := default 50 maxResults in
  try_catch
    (http_get (board_sprint remote) (sprintsRequest c boardId state startAt maxResults))
    Jira.handleError.

End JiraExt.

(** ** Further tools of the tool server *)

Module ToolsExt.

(** [x || d] on an optional number: an absent number and 0 are falsy. *)
Definition numberOr (d : Z) (x : option Z) : Z :=
  match x with
  | Some n => if n =? 0 then d else n
  | None => d
  end.

(** The [execute] function of the [getSprintIssues] tool, run in a
    process whose client is not yet initialised; the value returned is
    the one handed to [JSON.stringify]. *)
Definition getSprintIssues (remote : Jira.Remote) (env : Tools.Env)
    (sprintId : Z) (startAt maxResults : option Z)
    (issueTypes : option (list string)) : Async (gmap string Jira.JValue) :=
  try_catch
    ('(d, u, t) ← Tools.initAtlassianClient env;
     let jiraClient := {| Jira.domain := d; Jira.user := u; Jira.token := t |} in
     Jira.getSprintIssues remote jiraClient sprintId
       (Some (numberOr 0 startAt)) (Some (numberOr 50 maxResults)) issueTypes)
    Tools.handleError.

(** What the [getActiveSprintIssues] tool hands to [JSON.stringify]:
    [{ error: 'No active sprint found for this board.' }] or
    [{ sprint: activeSprint, issues }]. *)
Inductive ActiveSprintResult :=
| NoActiveSprint (error : string)
| ActiveSprint (sprint : JiraExt.Sprint) (issues : gmap string Jira.JValue).

(** [args.issueTypes && args.issueTypes.length > 0 ? args.issueTypes
    : ['Story', 'Bug']]. *)
Definition issueTypesOrDefault (issueTypes : option (list string)) : list string :=
  match issueTypes with
  | Some (t :: ts) => t :: ts
  | _ => ["Story"; "Bug"]
  end.

(** The [execute] function of the [getActiveSprintIssues] tool. *)
Definition getActiveSprintIssues (remote : JiraExt.Remote) (env : Tools.Env)
    (boardId : Z) (issueTypes : option (list string))
    (startAt maxResults : option Z) : Async ActiveSprintResult :=
  try_catch
    ('(d, u, t) ← Tools.initAtlassianClient env;
     let jiraClient := {| Jira.domain := d; Jira.user := u; Jira.token := t |} in
     sprintsResp ← JiraExt.getSprints remote jiraClient boardId (Some "active")
                     (Some 0) (Some 1);
     match JiraExt.values sprintsResp with
     | Some (activeSprint :: _) =>
         let issueTypes := issueTypesOrDefault issueTypes in
         issues ← Jira.getSprintIssues (JiraExt.tracker remote) jiraClient
                    (JiraExt.sprint_id activeSprint)
                    (Some (numberOr 0 startAt)) (Some (numberOr 50 maxResults))
                    (Some issueTypes);
         mret (ActiveSprint activeSprint issues)
     | _ => mret (NoActiveSprint "No active sprint found for this board.")
     end)
    Tools.handleError.

End ToolsExt.

(** ** [JiraIssueExtractor]: issues and documents as plain text

    A document in the Atlassian Document Format is a tree of nodes.
    The extractor takes it as [any]; the embedding types a node by the
    members that the extractor reads, as the format declares them: the
    level of a heading is a natural number, a member that the code
    tests with [Array.isArray] is an array when it is present, and an
    array of nodes holds no [null]. *)

Module Extractor.

(** The line feed. *)
Definition nl : string := String "010"%char "".

(** A mark of a text node; [href] is [mark.attrs.href]. *)
Record Mark := {
  mark_type : string;
  href : option string
}.

(** The attributes that the extractor reads. *)
Record Attrs := {
  level : option N;
  panelType : option string;
  language : option string;
  filename : option string
}.

#[warnings="-register-all"]
Inductive Node :=
| MkNode (type : string) (text : option string) (marks : option (list Mark))
    (attrs : option Attrs) (content : option (list Node)).

Definition node_type (n : Node) : string :=
  match n with
  | MkNode type _ _ _ _ => type
  end.

Definition node_attrs (n : Node) : option Attrs :=
  match n with
  | MkNode _ _ _ attrs _ => attrs
  end.

Definition node_content (n : Node) : option (list Node) :=
  match n with
  | MkNode _ _ _ _ content => content
  end.

(** A string member in a boolean position: absent and empty are
    falsy. *)
Definition truthy (s : option string) : option string :=
  match s with
  | Some (String ch rest) => Some (String ch rest)
  | _ => None
  end.

(** One round of the [forEach] over the marks of a text node. *)
Definition applyMark (text : string) (mark : Mark) : string :=
  let text :=
    if String.eqb (mark_type mark) "strong" then "**" +:+ text +:+ "**" else text in
  let text :=
    if String.eqb (mark_type mark) "em" then "*" +:+ text +:+ "*" else text in
  let text :=
    if String.eqb (mark_type mark) "code" then "`" +:+ text +:+ "`" else text in
  match String.eqb (mark_type mark) "link", truthy (href mark) with
  | true, Some h => "[" +:+ text +:+ "](" +:+ h +:+ ")"
  | _, _ => text
  end.

(** [extractTextFromNode(node)]. *)
Fixpoint extractTextFromNode (node : Node) : string :=
  match node with
  | MkNode _ _ _ _ None => ""
  | MkNode _ _ _ _ (Some children) =>
      Js.join " "
        (List.filter nonempty
           (map (fun childNode =>
                   match childNode with
                   | MkNode type text marks _ content =>
                       match String.eqb type "text", truthy text with
                       | true, Some text =>
                           fold_left applyMark (default [] marks) text
                       | _, _ =>
                           match content with
                           | Some _ => extractTextFromNode childNode
                           | None => ""
                           end
                       end
                   end)
                children))
  end.

Section Bullet.

(** The prefix of an item of a bullet list.  The literal of the source
    holds code units above 255; only concatenation is applied to it. *)
Variable bullet : string.

(** The [result] array of [extractListContent] for the items from
    position [index] on. *)
Fixpoint listLines (isOrdered : bool) (index : nat) (items : list Node)
    : list string :=
  match items with
  | [] => []
  | listItem :: rest =>
      match String.eqb (node_type listItem) "listItem", node_content listItem with
      | true, Some _ =>
          match extractTextFromNode listItem with
          | EmptyString => []
          | itemContent =>
              [(if isOrdered then pretty (index + 1)%nat +:+ ". " else bullet)
               +:+ itemContent]
          end
      | _, _ => []
      end ++ listLines isOrdered (S index) rest
  end.

(** [extractListContent(listNode)]. *)
Definition extractListContent (listNode : Node) : string :=
  match node_content listNode with
  | None => ""
  | Some items =>
      Js.join nl (listLines (String.eqb (node_type listNode) "orderedList") 0 items)
  end.

(** The [cells] array of one table row. *)
Definition rowCells (row : list Node) : list string :=
  flat_map (fun cell =>
              match String.eqb (node_type cell) "tableCell"
                    || String.eqb (node_type cell) "tableHeader",
                    node_content cell with
              | true, Some _ => [extractTextFromNode cell]
              | _, _ => []
              end)
           row.

(** The [rows] array of [extractTableContent]. *)
Definition tableRows (content : list Node) : list (list string) :=
  flat_map (fun row =>
              match String.eqb (node_type row) "tableRow", node_content row with
              | true, Some cells =>
                  match rowCells cells with
                  | [] => []
                  | c :: cs => [c :: cs]
                  end
              | _, _ => []
              end)
           content.

Definition rowLine (row : list string) : string :=
  "| " +:+ Js.join " | " row +:+ " |".

(** The [result] array of [extractTableContent] for the rows from
    position [index] on. *)
Fixpoint tableLines (index : nat) (rows : list (list string)) : list string :=
  match rows with
  | [] => []
  | row :: rest =>
      rowLine row
      :: match index with
         | O => [rowLine (map (fun _ => "---") row)]
         | S _ => []
         end ++ tableLines (S index) rest
  end.

(** [extractTableContent(tableNode)]. *)
Definition extractTableContent (tableNode : Node) : string :=
  match node_content tableNode with
  | None => ""
  | Some content => Js.join nl (tableLines 0 (tableRows content))
  end.

(** ['#'.repeat(level)]. *)
Fixpoint hashes (level : nat) : string :=
  match level with
  | O => ""
  | S n => "#" +:+ hashes n
  end.

(** [node.attrs?.level || 1]. *)
Definition headingLevel (attrs : option Attrs) : N :=
  match attrs with
  | Some a => match level a with
              | Some 0%N | None => 1%N
              | Some l => l
              end
  | None => 1%N
  end.

(** [s.replace(/\n/g, '\n> ')]. *)
Fixpoint quoteLines (s : string) : string :=
  match s with
  | EmptyString => EmptyString
  | String c r =>
      if Ascii.eqb c "010"%char then nl +:+ "> " +:+ quoteLines r
      else String c (quoteLines r)
  end.

(** [text ? [text] : []]: what a block pushes when its text is not
    empty. *)
Definition pushed (text : string) (block : string) : list string :=
  match text with
  | EmptyString => []
  | _ => [block]
  end.

(** What one top-level node adds to the [result] array of
    [extractADFContent]. *)
Definition blockOf (node : Node) : list string :=
  let type := node_type node in
  let attr {A} (f : Attrs -> option A) : option A := node_attrs node ≫= f in
  if String.eqb type "paragraph" then
    let paragraphText := extractTextFromNode node in
    pushed paragraphText paragraphText
  else if String.eqb type "heading" then
    let headingText := extractTextFromNode node in
    pushed headingText
      (hashes (N.to_nat (headingLevel (node_attrs node))) +:+ " " +:+ headingText)
  else if String.eqb type "bulletList" || String.eqb type "orderedList" then
    let listText := extractListContent node in
    pushed listText listText
  else if String.eqb type "panel" then
    let panelTitle :=
      match truthy (attr panelType) with
      | Some p => "[" +:+ p +:+ "] "
      | None => ""
      end in
    let panelContent := extractTextFromNode node in
    pushed panelContent (panelTitle +:+ panelContent)
  else if String.eqb type "codeBlock" then
    let language :=
      match truthy (attr language) with
      | Some l => "[" +:+ l +:+ "]" +:+ nl
      | None => ""
      end in
    let codeContent := extractTextFromNode node in
    pushed codeContent (language +:+ "```" +:+ nl +:+ codeContent +:+ nl +:+ "```")
  else if String.eqb type "table" then
    let tableContent := extractTableContent node in
    pushed tableContent tableContent
  else if String.eqb type "blockquote" then
    let quoteContent := extractTextFromNode node in
    pushed quoteContent ("> " +:+ quoteLines quoteContent)
  else if String.eqb type "mediaGroup" then
    match node_content node with
    | Some medias =>
        flat_map (fun media =>
                    match String.eqb (node_type media) "media", node_attrs media with
                    | true, Some a =>
                        ["[" +:+ default "Attached file" (truthy (filename a)) +:+ "]"]
                    | _, _ => []
                    end)
                 medias
    | None => []
    end
  else
    match node_content node with
    | Some _ =>
        let defaultText := extractTextFromNode node in
        pushed defaultText defaultText
    | None => []
    end.

(** The [result] array of [extractADFContent]. *)
Definition adfBlocks (content : list Node) : list string :=
  flat_map blockOf content.

(** [extractADFContent(adf)]. *)
Definition extractADFContent (adf : Node) : string :=
  match node_content adf with
  | None => ""
  | Some content => Js.join (nl +:+ nl) (adfBlocks content)
  end.

(** An element of an array-valued custom field: a string, or a value
    with its [name] and [value] members and the text that
    [JSON.stringify] gives for it. *)
Inductive Item :=
| IString (s : string)
| IValue (name value : option string) (json : string).

(** The value of a member of [issue.fields]: [null] or [undefined], an
    object (seen as a node for its [content], with its [name], [value]
    and [displayName]), an array, or a string, number or boolean, given
    by the text that a template literal prints for it. *)
Inductive FieldValue :=
| FNull
| FObject (asNode : Node) (name value displayName : option string)
| FArray (items : list Item)
| FSimple (text : string).

(** The members of [issue.fields] that the extractor reads by name
    ([status] stands for [status?.name], and so on), and the other
    members in the order of [Object.keys]. *)
Record Fields := {
  summary : option string;
  status : option string;
  issuetype : option string;
  assignee : option string;
  reporter : option string;
  description : option Node;
  others : list (string * FieldValue)
}.

Record Issue := {
  key : string;
  fields : option Fields
}.

(** The string that one element of an array-valued field maps to. *)
Definition itemText (item : Item) : string :=
  match item with
  | IString s => s
  | IValue name value json =>
      match truthy name, truthy value with
      | Some n, _ => n
      | None, Some v => v
      | None, None => json
      end
  end.

(** What one custom field adds to the [result] array. *)
Definition customFieldLines (fieldKey : string) (fieldValue : FieldValue)
    : list string :=
  match fieldValue with
  | FNull => []
  | FObject asNode name value displayName =>
      match node_content asNode with
      | Some _ =>
          let extractedText := extractADFContent asNode in
          if Js.all_space extractedText then []
          else [fieldKey +:+ ":"; extractedText]
      | None =>
          match truthy name, truthy value, truthy displayName with
          | Some v, _, _ | None, Some v, _ | None, None, Some v =>
              [fieldKey +:+ ": " +:+ v]
          | None, None, None => []
          end
      end
  | FArray items =>
      match Js.join ", " (List.filter nonempty (map itemText items)) with
      | EmptyString => []
      | values => [fieldKey +:+ ": " +:+ values]
      end
  | FSimple text => [fieldKey +:+ ": " +:+ text]
  end.

(** [Object.keys(fields).filter(field => field.startsWith('customfield_'))],
    each key with its value. *)
Definition customFields (f : Fields) : list (string * FieldValue) :=
  List.filter (fun kv => String.prefix "customfield_" (fst kv)) (others f).

(** The [result] array of [extractIssueDetails] for an issue with
    fields. *)
Definition detailLines (key : string) (f : Fields) : list string :=
  ["Issue Key: " +:+ key;
   "Summary: " +:+ default "No summary" (truthy (summary f));
   "Status: " +:+ default "Unknown" (truthy (status f));
   "Type: " +:+ default "Unknown" (truthy (issuetype f));
   "Assignee: " +:+ default "Unassigned" (truthy (assignee f));
   "Reporter: " +:+ default "Unknown" (truthy (reporter f))]
  ++ match description f with
     | Some adf => [""; "Description:"; extractADFContent adf]
     | None => []
     end
  ++ match customFields f with
     | [] => []
     | cf :: cfs =>
         [""; "Custom Fields:"]
         ++ flat_map (fun kv => customFieldLines (fst kv) (snd kv)) (cf :: cfs)
     end.

(** [extractIssueDetails(issue)]. *)
Definition extractIssueDetails (issue : option Issue) : string :=
  match issue with
  | Some {| key := key; fields := Some f |} => Js.join nl (detailLines key f)
  | _ => "No issue data available"
  end.

End Bullet.

End Extractor.

(** ** Further concrete inputs *)

Module DemoExt.

(** An attachment with a download link and one without. *)
Definition report : ConfluenceExt.Attachment :=
  {| ConfluenceExt.attachment_id := "att1";
     ConfluenceExt.attachment_title := "report.pdf";
     ConfluenceExt.download := Some "/download/attachments/123/report.pdf" |}.

Definition unlinked : ConfluenceExt.Attachment :=
  {| ConfluenceExt.attachment_id := "att2";
     ConfluenceExt.attachment_title := "draft.txt";
     ConfluenceExt.download := Some "" |}.

(** The demo wiki with the two attachments; the file of the first one
    can be downloaded. *)
Definition wiki : ConfluenceExt.Remote :=
  {| ConfluenceExt.wiki := Demo.wiki;
     ConfluenceExt.content_list := fun _ => Ok2xx (Demo.emptyPageList 25);
     ConfluenceExt.attachment := fun req =>
       if String.eqb (url req) "/content/att1" then Ok2xx report
       else if String.eqb (url req) "/content/att2" then Ok2xx unlinked
       else HttpFailure 404 "Not Found";
     ConfluenceExt.download_link := fun req =>
       if String.eqb (url req) "/download/attachments/123/report.pdf" then
         Ok2xx {| ConfluenceExt.data := "%PDF-1.7";
                  ConfluenceExt.contentType := Some "application/pdf" |}
       else HttpFailure 403 "Forbidden" |}.

Definition sprint7 : JiraExt.Sprint :=
  {| JiraExt.sprint_id := 7;
     JiraExt.sprint_name := "Sprint 7";
     JiraExt.sprint_state := "active" |}.

(** The demo tracker, where board 1 has the active sprint 7 and the
    other boards have none. *)
Definition tracker : JiraExt.Remote :=
  {| JiraExt.tracker := Demo.tracker;
     JiraExt.board_sprint := fun req =>
       if String.eqb (url req) "/board/1/sprint" then
         Ok2xx {| JiraExt.values := Some [sprint7]; JiraExt.sprints_total := 1 |}
       else Ok2xx {| JiraExt.values := Some []; JiraExt.sprints_total := 0 |} |}.

(** A tracker whose sprint replies carry no [issues] member. *)
Definition trackerWithoutIssues : Jira.Remote :=
  {| Jira.issue := Jira.issue Demo.tracker;
     Jira.search := Jira.search Demo.tracker;
     Jira.sprint_issue := fun _ => Ok2xx (<["total" := Jira.JNum 0]> ∅) |}.

(** An environment without a token. *)
Definition envWithoutToken : Tools.Env :=
  {| Tools.ATLASSIAN_DOMAIN := Some "example.atlassian.net";
     Tools.ATLASSIAN_USER := Some "dev@example.com";
     Tools.ATLASSIAN_TOKEN := Some "" |}.

Definition textNode (s : string) : Extractor.Node :=
  Extractor.MkNode "text" (Some s) None None None.

Definition block (type : string) (children : list Extractor.Node) : Extractor.Node :=
  Extractor.MkNode type None None None (Some children).

(** An ordered list whose second item has no text. *)
Definition steps : list Extractor.Node :=
  [block "listItem" [block "paragraph" [textNode "build"]];
   block "listItem" [];
   block "listItem" [block "paragraph" [textNode "deploy"]]].

(** A quotation of two lines. *)
Definition quotation : Extractor.Node :=
  block "blockquote" [textNode ("first" +:+ Extractor.nl +:+ "second")].

(** A table with a header row, a row without cells and a data row. *)
Definition table : Extractor.Node :=
  block "table"
    [block "tableRow" [block "tableHeader" [block "paragraph" [textNode "Name"]];
                       block "tableHeader" [block "paragraph" [textNode "Role"]]];
     block "tableRow" [];
     block "tableRow" [block "tableCell" [block "paragraph" [textNode "Ada"]];
                       block "tableCell" []]].

(** The issue of the extractor's test, with two more members. *)
Definition testIssue : Extractor.Issue :=
  {| Extractor.key := "TEST-123";
     Extractor.fields :=
       Some {| Extractor.summary := Some "Test Issue";
               Extractor.status := Some "Open";
               Extractor.issuetype := Some "Story";
               Extractor.assignee := Some "Test User";
               Extractor.reporter := Some "Test Reporter";
               Extractor.description :=
                 Some (block "doc"
                         [block "paragraph" [textNode "This is a test description."]]);
               Extractor.others :=
                 [("priority",
                   Extractor.FObject (Extractor.MkNode "" None None None None)
                     (Some "High") None None);
                  ("customfield_10010", Extractor.FNull)] |} |}.

End DemoExt.

(** ** Reading a query string

    The remote service receives the query as a string.  [lex] cuts the
    string into tokens and [parse] builds the tree of its [WHERE] part:
    [AND] binds tighter than [OR], both associate to the left, and a
    value in double quotes runs to the next double quote.  [satisfies]
    is the answer of the service for one item: the tree that is read
    from the string, evaluated on the item. *)

Module QuerySyntax.

Inductive Token :=
| TLParen
| TRParen
| TAnd
| TOr
| TOp (o : Query.Op)
| TWord (w : string)
| TQuoted (v : string).

Inductive CharClass :=
| CSpace | CLParen | CRParen | CQuote | CEq | CTilde | CBang | CWord.

Definition classify (c : ascii) : CharClass :=
  if Js.is_space c then CSpace
  else if Ascii.eqb c "(" then CLParen
  else if Ascii.eqb c ")" then CRParen
  else if Ascii.eqb c "034" then CQuote
  else if Ascii.eqb c "=" then CEq
  else if Ascii.eqb c "~" then CTilde
  else if Ascii.eqb c "!" then CBang
  else CWord.

(** [AND] and [OR] are the reserved words. *)
Definition wordToken (w : string) : Token :=
  if String.eqb w "AND" then TAnd
  else if String.eqb w "OR" then TOr
  else TWord w.

Inductive LexState :=
| Idle
| InWord (acc : string)
| InQuote (acc : string)
| AfterBang.

(** A backslash between double quotes would start an escape sequence;
    such strings are given no reading. *)
Fixpoint lex (st : LexState) (s : string) : option (list Token) :=
  match s with
  | EmptyString =>
      match st with
      | Idle => Some []
      | InWord acc => Some [wordToken acc]
      | InQuote _ | AfterBang => None
      end
  | String c r =>
      let idle (class : CharClass) :=
        match class with
        | CSpace => lex Idle r
        | CLParen => cons TLParen <$> lex Idle r
        | CRParen => cons TRParen <$> lex Idle r
        | CQuote => lex (InQuote "") r
        | CEq => cons (TOp Query.OpEq) <$> lex Idle r
        | CTilde => cons (TOp Query.OpContains) <$> lex Idle r
        | CBang => lex AfterBang r
        | CWord => lex (InWord (String c "")) r
        end in
      match st with
      | Idle => idle (classify c)
      | InWord acc =>
          match classify c with
          | CWord => lex (InWord (acc +:+ String c "")) r
          | class => cons (wordToken acc) <$> idle class
          end
      | InQuote acc =>
          match classify c with
          | CQuote => cons (TQuoted acc) <$> lex Idle r
          | _ =>
              if Ascii.eqb c "092" then None
              else lex (InQuote (acc +:+ String c "")) r
          end
      | AfterBang =>
          match classify c with
          | CEq => cons (TOp Query.OpNe) <$> lex Idle r
          | _ => None
          end
      end
  end.

Section Parser.

(** The parser of an atom or of an expression in parentheses. *)
Variable primary : list Token -> option (Query.Expr * list Token).

(** [acc AND p AND ...]; [k] bounds the number of operands. *)
Fixpoint and_loop (k : nat) (acc : Query.Expr) (ts : list Token)
    : option (Query.Expr * list Token) :=
  match ts with
  | TAnd :: r =>
      match k with
      | O => None
      | S k =>
          match primary r with
          | Some (e, r') => and_loop k (Query.EAnd acc e) r'
          | None => None
          end
      end
  | _ => Some (acc, ts)
  end.

Definition and_chain (k : nat) (ts : list Token) : option (Query.Expr * list Token) :=
  match primary ts with
  | Some (e, r) => and_loop k e r
  | None => None
  end.

(** [acc OR c OR ...], every operand a chain of [AND]s. *)
Fixpoint or_loop (k : nat) (acc : Query.Expr) (ts : list Token)
    : option (Query.Expr * list Token) :=
  match ts with
  | TOr :: r =>
      match k with
      | O => None
      | S k =>
          match and_chain k r with
          | Some (e, r') => or_loop k (Query.EOr acc e) r'
          | None => None
          end
      end
  | _ => Some (acc, ts)
  end.

Definition expr (k : nat) (ts : list Token) : option (Query.Expr * list Token) :=
  match and_chain k ts with
  | Some (e, r) => or_loop k e r
  | None => None
  end.

End Parser.

(** [n] bounds the depth of the parentheses. *)
Fixpoint primary (n : nat) (ts : list Token) : option (Query.Expr * list Token) :=
  match ts with
  | TLParen :: r =>
      match n with
      | O => None
      | S n =>
          match expr (primary n) (length r) r with
          | Some (e, TRParen :: r') => Some (Query.EParen e, r')
          | _ => None
          end
      end
  | TWord f :: TOp o :: TWord v :: r => Some (Query.atom f o v false, r)
  | TWord f :: TOp o :: TQuoted v :: r => Some (Query.atom f o v true, r)
  | _ => None
  end.

(** The longest expression at the head of the tokens, and the tokens
    after it. *)
Definition parse (ts : list Token) : option (Query.Expr * list Token) :=
  expr (primary (length ts)) (length ts) ts.

(** What may follow the expression: nothing, or [ORDER BY] with a field
    and a direction. *)
Definition ordering (ts : list Token) : bool :=
  match ts with
  | [] => true
  | [TWord o; TWord b; TWord _; TWord d] =>
      String.eqb o "ORDER" && String.eqb b "BY"
      && (String.eqb d "ASC" || String.eqb d "DESC")
  | _ => false
  end.

(** The tree of a query, if the string is one. *)
Definition read (query : string) : option Query.Expr :=
  match lex Idle query with
  | Some ts =>
      match parse ts with
      | Some (tree, rest) => if ordering rest then Some tree else None
      | None => None
      end
  | None => None
  end.

(** Whether an item is among the answers to a query. *)
Definition satisfies (matches : string -> string -> bool) (query : string)
    (it : Query.Item) : option bool :=
  match read query with
  | Some tree => Some (Query.eval matches tree it)
  | None => None
  end.

(** A value that is written without quotes: a word that is not
    reserved. *)
Fixpoint all_plain (s : string) : bool :=
  match s with
  | EmptyString => true
  | String c r =>
      match classify c with
      | CWord => all_plain r
      | _ => false
      end
  end.

Definition bare (s : string) : bool :=
  match s with
  | EmptyString => false
  | _ => all_plain s && negb (String.eqb s "AND") && negb (String.eqb s "OR")
  end.

(** A value that can stand between double quotes as it is: it holds
    neither a double quote nor a backslash. *)
Fixpoint quotable (s : string) : bool :=
  match s with
  | EmptyString => true
  | String c r =>
      negb (Ascii.eqb c "034") && negb (Ascii.eqb c "092") && quotable r
  end.

(** The tokens of a printed tree. *)
Definition atomTokens (a : Query.Atom) : list Token :=
  [TWord (Query.field a); TOp (Query.op a);
   if Query.quoted a then TQuoted (Query.value a) else TWord (Query.value a)].

Fixpoint tokensOf (e : Query.Expr) : list Token :=
  match e with
  | Query.EAtom a => atomTokens a
  | Query.EAnd l r => tokensOf l ++ TAnd :: tokensOf r
  | Query.EOr l r => tokensOf l ++ TOr :: tokensOf r
  | Query.EParen e => TLParen :: tokensOf e ++ [TRParen]
  end.

(** A tree whose atoms print as three tokens. *)
Definition cleanAtom (a : Query.Atom) : bool :=
  bare (Query.field a)
  && (if Query.quoted a then quotable (Query.value a) else bare (Query.value a)).

Fixpoint clean (e : Query.Expr) : bool :=
  match e with
  | Query.EAtom a => cleanAtom a
  | Query.EAnd l r | Query.EOr l r => clean l && clean r
  | Query.EParen e => clean e
  end.

(** A string after which a word ends: the empty string, or one that
    starts with a character that is not part of a word. *)
Definition delimited (s : string) : bool :=
  match s with
  | EmptyString => true
  | String c _ =>
      match classify c with
      | CWord => false
      | _ => true
      end
  end.

(** The depth of the parentheses and the number of operators outside
    them: the fuel that [primary] and the loops need. *)
Fixpoint depth (e : Query.Expr) : nat :=
  match e with
  | Query.EAtom _ => O
  | Query.EAnd l r | Query.EOr l r => Nat.max (depth l) (depth r)
  | Query.EParen e => S (depth e)
  end.

Fixpoint ops (e : Query.Expr) : nat :=
  match e with
  | Query.EAnd l r | Query.EOr l r => S (ops l + ops r)
  | _ => O
  end.

Fixpoint ands (e : Query.Expr) : nat :=
  match e with
  | Query.EAnd l _ => S (ands l)
  | _ => O
  end.

Fixpoint ors (e : Query.Expr) : nat :=
  match e with
  | Query.EOr l _ => S (ors l)
  | _ => O
  end.

(** The token that continues a chain of [AND]s, or an expression. *)
Definition startsWithAnd (ts : list Token) : bool :=
  match ts with
  | TAnd :: _ => true
  | _ => false
  end.

Definition startsWithOr (ts : list Token) : bool :=
  match ts with
  | TOr :: _ => true
  | _ => false
  end.

End QuerySyntax.

(** An issue whose only label closes the quotation and the two
    parentheses that are open, and opens them again: the letter a, a
    double quote, [))OR((labels=], a double quote, the letter b. *)
Definition craftedIssue : Jira.Issue :=
  Demo.mkIssue "PROJ-9" "x"
    [String "a" (String "034" "))OR((labels=") +:+ String "034" "b"]
    "Bug".

(** * Proofs *)

(** ** Facts about strings *)

#[local] Arguments Js.is_space : simpl never.
#[local] Arguments Js.is_word : simpl never.

Lemma app_cons_s (c : ascii) (s1 s2 : string) :
  String c s1 +:+ s2 = String c (s1 +:+ s2).
Proof. reflexivity. Qed.

Lemma app_nil_l_s (s : string) : "" +:+ s = s.
Proof. reflexivity. Qed.

Lemma app_assoc_s (s1 s2 s3 : string) : (s1 +:+ s2) +:+ s3 = s1 +:+ (s2 +:+ s3).
Proof.
  induction s1 as [|c s1 IH]; [reflexivity |].
  now rewrite !app_cons_s, IH.
Qed.

Lemma app_nil_r_s (s : string) : s +:+ "" = s.
Proof.
  induction s as [|c s IH]; [reflexivity |]. now rewrite app_cons_s, IH.
Qed.

Lemma no_space_snoc (s : string) (c : ascii) :
  Js.no_space s = true -> Js.is_space c = false ->
  Js.no_space (s +:+ String c "") = true.
Proof.
  intros Hs Hc. induction s as [|d s IH].
  - rewrite app_nil_l_s. cbn. now rewrite Hc.
  - rewrite app_cons_s. cbn in *.
    apply andb_true_iff in Hs as [Hd Hs]. rewrite Hd. cbn. auto.
Qed.

(** Every element of a split is free of white space. *)
Lemma split_ws_go_no_space (s cur : string) (in_sep : bool) :
  Js.no_space cur = true ->
  Forall (fun t => Js.no_space t = true) (Js.split_ws_go s cur in_sep).
Proof.
  revert cur in_sep. induction s as [|c r IH]; intros cur in_sep Hcur; cbn.
  - constructor; [assumption | constructor].
  - destruct (Js.is_space c) eqn:Hc.
    + destruct in_sep.
      * apply IH. assumption.
      * constructor; [assumption |]. apply IH. reflexivity.
    + apply IH. apply no_space_snoc; assumption.
Qed.

Lemma strip_punct_length (s : string) :
  (String.length (Js.strip_punct s) <= String.length s)%nat.
Proof.
  induction s as [|c r IH]; cbn; [lia |].
  destruct (Js.is_word c || Js.is_space c); cbn; lia.
Qed.

Lemma strip_punct_all_word (s : string) :
  Js.no_space s = true -> Js.all_word (Js.strip_punct s) = true.
Proof.
  induction s as [|c r IH]; cbn; [reflexivity |].
  intros [Hc Hr]%andb_true_iff. apply negb_true_iff in Hc. rewrite Hc, orb_false_r.
  destruct (Js.is_word c) eqn:Hw; cbn; [rewrite Hw; cbn |]; auto.
Qed.

Lemma strip_punct_spec (s : string) : Js.strip_punct s = KeywordSpec.strip s.
Proof.
  unfold KeywordSpec.strip. induction s as [|c r IH]; cbn; [reflexivity |].
  destruct (Js.is_word c || Js.is_space c); cbn; now rewrite IH.
Qed.

Lemma pending_snoc (cur : string) (c : ascii) :
  pending (cur +:+ String c "") = Some (default "" (pending cur) +:+ String c "").
Proof. destruct cur; reflexivity. Qed.

Lemma filter_nonempty_single (cur : string) :
  List.filter nonempty [cur] = option_list (pending cur).
Proof. destruct cur; reflexivity. Qed.

(** The non-empty elements of a split are the tokens of the text. *)
Lemma split_ws_go_tokens (s cur : string) (in_sep : bool) :
  (in_sep = true -> cur = "") ->
  List.filter nonempty (Js.split_ws_go s cur in_sep)
  = KeywordSpec.tokens_go (pending cur) s.
Proof.
  revert cur in_sep. induction s as [|c r IH]; intros cur in_sep Hinv.
  - apply filter_nonempty_single.
  - cbn [Js.split_ws_go KeywordSpec.tokens_go].
    destruct (Js.is_space c) eqn:Hc.
    + destruct in_sep.
      * rewrite (Hinv eq_refl). cbn [pending option_list app].
        apply (IH "" true). reflexivity.
      * change (cur :: Js.split_ws_go r "" true)
          with ([cur] ++ Js.split_ws_go r "" true).
        rewrite List.filter_app, filter_nonempty_single.
        f_equal. apply (IH "" true). reflexivity.
    + rewrite IH by discriminate. now rewrite pending_snoc.
Qed.

Lemma long_word_nonempty (l : list string) :
  List.filter long_word l = List.filter long_word (List.filter nonempty l).
Proof.
  induction l as [|t l IH]; [reflexivity |].
  cbn [List.filter]. destruct t as [|c t]; cbn [nonempty long_word].
  - exact IH.
  - cbn [List.filter]. now rewrite IH.
Qed.

Lemma discard_short_long_word (l : list string) :
  KeywordSpec.discard_short l = List.filter long_word l.
Proof.
  unfold KeywordSpec.discard_short. apply List.filter_ext. intros t.
  unfold long_word.
  destruct (Nat.leb_spec (String.length t) 3), (Nat.ltb_spec 3 (String.length t));
    cbn; first [reflexivity | lia].
Qed.

Lemma extractKeywords_spec (text : string) :
  extractKeywords text = KeywordSpec.keywords text.
Proof.
  unfold extractKeywords, KeywordSpec.keywords, KeywordSpec.tokens, Js.split_ws.
  rewrite discard_short_long_word, long_word_nonempty.
  rewrite (split_ws_go_tokens text "" false) by discriminate.
  apply List.map_ext. apply strip_punct_spec.
Qed.

Lemma tokens_go_all_space (s : string) :
  Js.all_space s = true -> KeywordSpec.tokens_go None s = [].
Proof.
  induction s as [|c r IH]; cbn; [reflexivity |].
  intros [Hc Hr]%andb_true_iff. rewrite Hc. cbn. auto.
Qed.

Lemma extractKeywords_all_space (text : string) :
  Js.all_space text = true -> extractKeywords text = [].
Proof.
  intros H. rewrite extractKeywords_spec.
  unfold KeywordSpec.keywords, KeywordSpec.tokens.
  now rewrite tokens_go_all_space.
Qed.

(** ** Runs of the effectful operations *)

Lemma extend_extend (w : World) (r1 r2 : list Request) (l1 l2 : list string) :
  extend (extend w r1 l1) r2 l2 = extend w (r1 ++ r2) (l1 ++ l2).
Proof. unfold extend; cbn. now rewrite <- !List.app_assoc. Qed.

Lemma bind_run {A B} (m : Async A) (k : A -> Async B) (w : World) :
  (m ≫= k) w = match m w with
               | (Return a, w') => k a w'
               | (Throw e, w') => (Throw e, w')
               end.
Proof. reflexivity. Qed.

Lemma console_error_run (line : string) (w : World) :
  console_error line w = (Return tt, extend w [] [line]).
Proof. reflexivity. Qed.

Lemma throw_run {A} (e : Error) (w : World) : throw (A:=A) e w = (Throw e, w).
Proof. reflexivity. Qed.

Lemma http_get_run {A} (endpoint : Request -> Reply A) (req : Request) (w : World) :
  http_get endpoint req w = (settle (endpoint req), extend w [req] []).
Proof. reflexivity. Qed.

Ltac run_step :=
  rewrite ?bind_run, ?console_error_run, ?throw_run, ?http_get_run, ?extend_extend.

Lemma confluence_handleError_run {A} (e : Error) (w : World) :
  Confluence.handleError (A:=A) e w = (Throw e, extend w [] (Confluence.logLines e)).
Proof.
  destruct e as [status statusText | message | message];
    unfold Confluence.handleError, Confluence.logLines; run_step; try reflexivity.
  destruct (status =? 401); [| destruct (status =? 404)]; run_step; reflexivity.
Qed.

Lemma jira_handleError_run {A} (e : Error) (w : World) :
  Jira.handleError (A:=A) e w = (Throw e, extend w [] (Jira.logLines e)).
Proof.
  destruct e as [status statusText | message | message];
    unfold Jira.handleError, Jira.logLines; run_step; try reflexivity.
  destruct (status =? 401); [| destruct (status =? 403); [| destruct (status =? 404)]];
    run_step; reflexivity.
Qed.

Lemma tools_handleError_run {A} (e : Error) (w : World) :
  Tools.handleError (A:=A) e w = (Throw (Tools.rethrown e), w).
Proof.
  destruct e as [status statusText | message | message];
    unfold Tools.handleError, Tools.rethrown; try reflexivity.
  destruct (status =? 401); [| destruct (status =? 403); [| destruct (status =? 404)]];
    reflexivity.
Qed.

Lemma try_catch_run {A} (body : Async A) (handler : Error -> Async A) (w : World) :
  try_catch body handler w = match body w with
                             | (Return a, w') => (Return a, w')
                             | (Throw e, w') => handler e w'
                             end.
Proof. reflexivity. Qed.

Lemma getPageById_run remote c pageId expand w :
  Confluence.getPageById remote c pageId expand w =
  let req := Confluence.pageRequest c pageId (default ["body.storage"] expand) in
  match settle (Confluence.content remote req) with
  | Return p => (Return p, extend w [req] [])
  | Throw e => (Throw e, extend w [req] (Confluence.logLines e))
  end.
Proof.
  unfold Confluence.getPageById. cbv zeta. rewrite try_catch_run, http_get_run.
  destruct (settle _); [reflexivity |].
  now rewrite confluence_handleError_run, extend_extend.
Qed.

(** The whole run of [getTopicallyRelatedPages]. *)
Lemma getTopicallyRelatedPages_run remote c pageId limit expand w :
  Confluence.getTopicallyRelatedPages remote c pageId limit expand w =
  let fetch := Confluence.pageRequest c pageId ["metadata.labels"] in
  match settle (Confluence.content remote fetch) with
  | Return sourcePage =>
      let search :=
        Confluence.relatedRequest c
          (Confluence.relatedQuery pageId
             (extractKeywords (Confluence.title sourcePage))
             (Confluence.pageLabels sourcePage))
          (default 10 limit) (default ["body.storage"] expand) in
      match settle (Confluence.content_search remote search) with
      | Return r => (Return r, extend w [fetch; search] [])
      | Throw e => (Throw e, extend w [fetch; search] (Confluence.logLines e))
      end
  | Throw e =>
      (Throw e, extend w [fetch] (Confluence.logLines e ++ Confluence.logLines e))
  end.
Proof.
  unfold Confluence.getTopicallyRelatedPages. cbv zeta.
  rewrite try_catch_run, bind_run, getPageById_run. cbv zeta. cbn [default].
  destruct (settle (Confluence.content remote _)) as [p | e].
  - rewrite http_get_run, extend_extend.
    destruct (settle (Confluence.content_search remote _)) as [r | e];
      [reflexivity |].
    now rewrite confluence_handleError_run, extend_extend.
  - now rewrite confluence_handleError_run, extend_extend.
Qed.

Lemma getIssue_run remote c issueKey fields w :
  Jira.getIssue remote c issueKey fields w =
  let req := Jira.issueRequest c issueKey fields in
  match settle (Jira.issue remote req) with
  | Return i => (Return i, extend w [req] [])
  | Throw e => (Throw e, extend w [req] (Jira.logLines e))
  end.
Proof.
  unfold Jira.getIssue. cbv zeta. rewrite try_catch_run, http_get_run.
  destruct (settle _); [reflexivity |].
  now rewrite jira_handleError_run, extend_extend.
Qed.

Lemma searchIssues_run remote c jql startAt maxResults fields w :
  Jira.searchIssues remote c jql startAt maxResults fields w =
  let req := Jira.searchRequest c jql (default 0 startAt) (default 50 maxResults) fields in
  match settle (Jira.search remote req) with
  | Return r => (Return r, extend w [req] [])
  | Throw e => (Throw e, extend w [req] (Jira.logLines e))
  end.
Proof.
  unfold Jira.searchIssues. cbv zeta. rewrite try_catch_run, http_get_run.
  destruct (settle _); [reflexivity |].
  now rewrite jira_handleError_run, extend_extend.
Qed.

(** The whole run of [getRelatedIssues]. *)
Lemma getRelatedIssues_run remote c issueKey w :
  Jira.getRelatedIssues remote c issueKey w =
  let fetch := Jira.issueRequest c issueKey (Some ["summary"; "labels"; "project"]) in
  match settle (Jira.issue remote fetch) with
  | Return source =>
      let search :=
        Jira.searchRequest c (Jira.relatedJql issueKey source) 0 10 None in
      match settle (Jira.search remote search) with
      | Return r => (Return (Jira.issues r), extend w [fetch; search] [])
      | Throw e =>
          (Throw e, extend w [fetch; search] (Jira.logLines e ++ Jira.logLines e))
      end
  | Throw e => (Throw e, extend w [fetch] (Jira.logLines e ++ Jira.logLines e))
  end.
Proof.
  unfold Jira.getRelatedIssues. cbv zeta.
  rewrite try_catch_run, bind_run, getIssue_run. cbv zeta.
  destruct (settle (Jira.issue remote _)) as [source | e].
  - rewrite bind_run, searchIssues_run. cbv zeta. cbn [default].
    destruct (settle (Jira.search remote _)) as [r | e].
    + now rewrite extend_extend.
    + now rewrite extend_extend, jira_handleError_run, extend_extend.
  - now rewrite jira_handleError_run, extend_extend.
Qed.



(** ** Printing and evaluating the query trees *)

Lemma join_cons2 (sep x y : string) (l : list string) :
  Js.join sep (x :: y :: l) = x +:+ sep +:+ Js.join sep (y :: l).
Proof. reflexivity. Qed.

Lemma join_merge (sep a b : string) (l : list string) :
  Js.join sep ((a +:+ sep +:+ b) :: l) = Js.join sep (a :: b :: l).
Proof.
  destruct l as [|c l]; [reflexivity |].
  rewrite !join_cons2. now rewrite !app_assoc_s.
Qed.

Lemma print_disjunction (first : Query.Expr) (rest : list Query.Expr) :
  Query.print (Query.disjunction first rest)
  = Js.join " OR " (Query.print first :: map Query.print rest).
Proof.
  unfold Query.disjunction. revert first.
  induction rest as [|r rest IH]; intros first; [reflexivity |].
  cbn [fold_left map]. rewrite IH. cbn [Query.print]. apply join_merge.
Qed.

Lemma eval_disjunction matches (first : Query.Expr) (rest : list Query.Expr) it :
  Query.eval matches (Query.disjunction first rest) it
  = Query.eval matches first it || existsb (fun e => Query.eval matches e it) rest.
Proof.
  unfold Query.disjunction. revert first.
  induction rest as [|r rest IH]; intros first; cbn [fold_left existsb].
  - now rewrite orb_false_r.
  - rewrite IH. cbn [Query.eval]. now rewrite orb_assoc.
Qed.

Lemma plain_reading_disjunction (first : Query.Expr) (rest : list Query.Expr) :
  Query.plain_reading first = true ->
  forallb (fun e => Query.is_primary e && Query.plain_reading e) rest = true ->
  Query.plain_reading (Query.disjunction first rest) = true.
Proof.
  unfold Query.disjunction. revert first.
  induction rest as [|r rest IH]; intros first Hf Hr; [exact Hf |].
  cbn [fold_left]. cbn [forallb] in Hr.
  apply andb_true_iff in Hr as [[Hp Hr1]%andb_true_iff Hr].
  apply IH; [| exact Hr]. cbn [Query.plain_reading]. now rewrite Hf, Hp, Hr1.
Qed.

Lemma forallb_atoms {X} (f : X -> Query.Atom) (l : list X) :
  forallb (fun e => Query.is_primary e && Query.plain_reading e)
    (map (fun x => Query.EAtom (f x)) l) = true.
Proof. induction l as [|x l IH]; [reflexivity | exact IH]. Qed.

(** The query string of the document variant is the printed form of its
    tree. *)
Lemma relatedQuery_print pageId keywords labels :
  Confluence.relatedQuery pageId keywords labels
  = Query.print (Query.relatedPagesExpr pageId keywords labels).
Proof.
  unfold Confluence.relatedQuery, Query.relatedPagesExpr, Query.atom.
  destruct keywords as [|k ks], labels as [|l ls];
    cbn [length Nat.ltb Nat.leb Query.print]; rewrite ?print_disjunction;
    rewrite ?List.map_map; cbn [map]; unfold Query.print_atom; cbn [Query.field
      Query.op Query.value Query.quoted Query.print_op];
    rewrite ?app_assoc_s; reflexivity.
Qed.

Lemma plain_reading_relatedPagesExpr pageId keywords labels :
  Query.plain_reading (Query.relatedPagesExpr pageId keywords labels) = true.
Proof.
  unfold Query.relatedPagesExpr, Query.atom.
  destruct keywords as [|k ks], labels as [|l ls];
    cbn [Query.plain_reading Query.is_or Query.is_primary negb andb];
    rewrite ?plain_reading_disjunction; auto using forallb_atoms.
Qed.

(** The keywords that [getRelatedIssues] takes from the source issue. *)
Lemma relatedQueries_shape (source : Jira.Issue) :
  let f := Jira.fields source in
  let keywords := match Jira.summary f with
                  | Some s => extractKeywords s
                  | None => []
                  end in
  let labels := default [] (Jira.labels f) in
  Jira.relatedQueries source
  = ["project = " +:+ Jira.project_key (Jira.project f)]
    ++ (if nonempty_list keywords then
          ["(" +:+ Js.join " OR " (map (fun word => "summary ~ " +:+ Js.quote word) keywords) +:+ ")"]
        else [])
    ++ (if nonempty_list labels then
          ["(" +:+ Js.join " OR " (map (fun label => "labels = " +:+ Js.quote label) labels) +:+ ")"]
        else []).
Proof.
  cbv zeta. unfold Jira.relatedQueries.
  destruct (Jira.summary (Jira.fields source)) as [[|ch rest] |],
           (Jira.labels (Jira.fields source)) as [[|l ls] |]; cbn [default nonempty_list];
    try reflexivity;
    destruct (extractKeywords (String ch rest)) as [|k ks]; reflexivity.
Qed.

(** The query string of the issue variant is the printed form of its
    tree, followed by the ordering. *)
Lemma relatedJql_print issueKey source :
  Jira.relatedJql issueKey source
  = Query.print (Query.relatedIssuesExpr issueKey source) +:+ " ORDER BY updated DESC".
Proof.
  unfold Jira.relatedJql, Jira.relatedQueries, Query.relatedIssuesExpr, Query.atom.
  cbn [Query.print]. rewrite print_disjunction.
  destruct (Jira.summary (Jira.fields source)) as [[|ch rest] |],
           (Jira.labels (Jira.fields source)) as [[|l ls] |];
    try destruct (extractKeywords (String ch rest)) as [|k ks];
    cbn [length Nat.ltb Nat.leb app map Query.print]; rewrite ?print_disjunction;
    rewrite ?List.map_map; cbn [map]; unfold Query.print_atom; cbn [Query.field
      Query.op Query.value Query.quoted Query.print_op];
    rewrite ?app_assoc_s; reflexivity.
Qed.

Lemma plain_reading_relatedIssuesExpr issueKey source :
  Query.plain_reading (Query.relatedIssuesExpr issueKey source) = true.
Proof.
  unfold Query.relatedIssuesExpr, Query.atom.
  cbn [Query.plain_reading Query.is_or Query.is_primary negb andb].
  rewrite plain_reading_disjunction; [reflexivity | reflexivity |].
  destruct (Jira.summary (Jira.fields source)) as [[|ch rest] |],
           (Jira.labels (Jira.fields source)) as [[|l ls] |];
    try destruct (extractKeywords (String ch rest)) as [|k ks];
    cbn [app forallb Query.is_primary Query.plain_reading andb];
    rewrite ?plain_reading_disjunction; auto using forallb_atoms.
Qed.

(** *** Who satisfies the synthesized queries *)

(** The issue variant never matches the source issue. *)
Lemma related_issues_exclude_source matches issueKey source (i : Jira.Issue) :
  Jira.key i = issueKey ->
  Query.eval matches (Query.relatedIssuesExpr issueKey source) (Query.issueItem i) = false.
Proof.
  intros <-. unfold Query.relatedIssuesExpr. cbn [Query.eval].
  apply andb_false_iff. right.
  unfold Query.atom, Query.eval_atom, Query.issueItem. cbn.
  now rewrite String.eqb_refl.
Qed.

(** The document variant does not match the source page when only one
    of the two signals is present, or none. *)
Lemma related_pages_exclude_source matches pageId keywords labels (p : Confluence.Page) :
  Confluence.id p = pageId ->
  keywords = [] \/ labels = [] ->
  Query.eval matches (Query.relatedPagesExpr pageId keywords labels) (Query.pageItem p)
  = false.
Proof.
  intros <- Hone.
  assert (Hbase : forall e,
    Query.eval matches
      (Query.EAnd (Query.EAnd (Query.atom "type" Query.OpEq "page" false)
                     (Query.atom "id" Query.OpNe (Confluence.id p) false)) e)
      (Query.pageItem p) = false).
  { intros e. cbn [Query.eval]. apply andb_false_iff. left.
    apply andb_false_iff. right.
    unfold Query.atom, Query.eval_atom, Query.pageItem. cbn.
    now rewrite String.eqb_refl. }
  unfold Query.relatedPagesExpr.
  destruct keywords as [|k ks], labels as [|l ls]; try apply Hbase.
  - cbn [Query.eval]. apply andb_false_iff. right.
    unfold Query.atom, Query.eval_atom, Query.pageItem. cbn.
    now rewrite String.eqb_refl.
  - destruct Hone; discriminate.
Qed.

(** With keywords and labels both present, the label clause is an
    operand of the top-level [OR], and the source page carries its own
    labels. *)
Lemma related_pages_include_source matches pageId k ks l ls (p : Confluence.Page) :
  Confluence.pageLabels p = l :: ls ->
  Query.eval matches (Query.relatedPagesExpr pageId (k :: ks) (l :: ls)) (Query.pageItem p)
  = true.
Proof.
  intros Hl. unfold Query.relatedPagesExpr. cbn [Query.eval].
  apply orb_true_iff. right. rewrite eval_disjunction.
  apply orb_true_iff. left.
  unfold Query.atom. cbn [Query.eval]. unfold Query.eval_atom, Query.pageItem. cbn.
  rewrite Hl. cbn. now rewrite String.eqb_refl.
Qed.

(** C1 (exclusion invariant), at a page with title "meeting notes" and
    the label "oncall": the query sent to the search endpoint is
    [type = page AND id != 123 AND (title ~ "meeting" OR title ~ "notes")
    OR (labelText = "oncall")]; it contains the clause [id != 123], but
    the label clause is an operand of the top-level [OR], so page 123
    itself satisfies the query, whatever the text match [~] does. *)
Theorem C1_source_page_satisfies_own_query :
  let q := Query.relatedPagesExpr "123" ["meeting"; "notes"] [Demo.oncall] in
  (exists w,
     Confluence.getTopicallyRelatedPages Demo.wiki Demo.wikiClient "123" None None
       start_world = (Return (Demo.emptyPageList 10), w)
     /\ map (param "cql") (requests w) = [None; Some (PStr (Query.print q))])
  /\ Query.print q
     = "type = page AND id != 123 AND (title ~ " +:+ Js.quote "meeting"
       +:+ " OR title ~ " +:+ Js.quote "notes" +:+ ") OR (labelText = "
       +:+ Js.quote "oncall" +:+ ")"
  /\ Query.plain_reading q = true
  /\ (exists l r, q = Query.EOr l r
        /\ r = Query.EParen (Query.atom "labelText" Query.OpEq "oncall" true))
  /\ Confluence.id Demo.notesPage = "123"
  /\ forall matches, Query.eval matches q (Query.pageItem Demo.notesPage) = true.
Proof.
  cbv zeta. split; [| split; [| split; [| split; [| split]]]].
  - eexists. split; vm_compute; reflexivity.
  - vm_compute. reflexivity.
  - vm_compute. reflexivity.
  - eexists _, _. split; reflexivity.
  - reflexivity.
  - intros matches. apply related_pages_include_source. reflexivity.
Qed.

(** C2 (broaden versus narrow): with keywords and labels the label
    disjunction is appended with [OR] and is an operand of the top-level
    [OR] of the query; with labels only it is appended with [AND] to the
    base clause.  The two queries of the example are the ones stated. *)
Theorem C2_label_clause_or_with_keywords_and_without :
  (forall pageId k ks l ls,
     Confluence.relatedQuery pageId (k :: ks) (l :: ls)
     = "type = page AND id != " +:+ pageId
       +:+ " AND ("
       +:+ Js.join " OR " (map (fun word => "title ~ " +:+ Js.quote word) (k :: ks))
       +:+ ")" +:+ " OR ("
       +:+ Js.join " OR "
             (map (fun name => "labelText = " +:+ Js.quote name)
                  (map Confluence.name (l :: ls)))
       +:+ ")"
     /\ exists titled labelled,
          Query.relatedPagesExpr pageId (k :: ks) (l :: ls)
          = Query.EOr titled (Query.EParen labelled)
          /\ Query.print labelled
             = Js.join " OR "
                 (map (fun name => "labelText = " +:+ Js.quote name)
                      (map Confluence.name (l :: ls))))
  /\ (forall pageId l ls,
        Confluence.relatedQuery pageId [] (l :: ls)
        = "type = page AND id != " +:+ pageId
          +:+ " AND ("
          +:+ Js.join " OR "
                (map (fun name => "labelText = " +:+ Js.quote name)
                     (map Confluence.name (l :: ls)))
          +:+ ")"
        /\ exists labelled,
             Query.relatedPagesExpr pageId [] (l :: ls)
             = Query.EAnd
                 (Query.EAnd (Query.atom "type" Query.OpEq "page" false)
                    (Query.atom "id" Query.OpNe pageId false))
                 (Query.EParen labelled))
  /\ Confluence.relatedQuery "123" ["meeting"; "notes"] [Demo.oncall]
     = "type = page AND id != 123 AND (title ~ " +:+ Js.quote "meeting"
       +:+ " OR title ~ " +:+ Js.quote "notes" +:+ ") OR (labelText = "
       +:+ Js.quote "oncall" +:+ ")"
  /\ Confluence.relatedQuery "123" [] [Demo.oncall]
     = "type = page AND id != 123 AND (labelText = " +:+ Js.quote "oncall" +:+ ")".
Proof.
  split; [| split; [| split]].
  - intros pageId k ks l ls. split.
    + unfold Confluence.relatedQuery. cbn [length Nat.ltb Nat.leb].
      now rewrite !app_assoc_s.
    + eexists _, _. split; [reflexivity |].
      rewrite print_disjunction, !List.map_map. reflexivity.
  - intros pageId l ls. split.
    + unfold Confluence.relatedQuery. cbn [length Nat.ltb Nat.leb].
      now rewrite !app_assoc_s.
    + eexists. reflexivity.
  - vm_compute. reflexivity.
  - vm_compute. reflexivity.
Qed.

(** C4 (issue variant): the query is the parenthesised disjunction of
    the project clause, the keyword disjunction when the summary yields
    keywords and the label disjunction when the issue has labels, joined
    by [OR]; then [AND issuekey != <key>]; then [ORDER BY updated DESC]. *)
Theorem C4_issue_query_structure :
  (forall issueKey source,
     let f := Jira.fields source in
     let keywords := match Jira.summary f with
                     | Some s => extractKeywords s
                     | None => []
                     end in
     let labels := default [] (Jira.labels f) in
     Jira.relatedJql issueKey source
     = "("
       +:+ Js.join " OR "
             (["project = " +:+ Jira.project_key (Jira.project f)]
              ++ (if nonempty_list keywords then
                    ["(" +:+ Js.join " OR "
                               (map (fun word => "summary ~ " +:+ Js.quote word) keywords)
                         +:+ ")"]
                  else [])
              ++ (if nonempty_list labels then
                    ["(" +:+ Js.join " OR "
                               (map (fun label => "labels = " +:+ Js.quote label) labels)
                         +:+ ")"]
                  else []))
       +:+ ") AND issuekey != " +:+ issueKey +:+ " ORDER BY updated DESC"
     /\ Jira.relatedJql issueKey source
        = Query.print (Query.relatedIssuesExpr issueKey source)
          +:+ " ORDER BY updated DESC"
     /\ Query.plain_reading (Query.relatedIssuesExpr issueKey source) = true
     /\ exists clauses,
          Query.relatedIssuesExpr issueKey source
          = Query.EAnd
              (Query.EParen
                 (Query.disjunction
                    (Query.atom "project" Query.OpEq
                       (Jira.project_key (Jira.project f)) false)
                    clauses))
              (Query.atom "issuekey" Query.OpNe issueKey false))
  /\ Jira.relatedJql "PROJ-1" Demo.loginIssue
     = "(project = PROJ OR (summary ~ " +:+ Js.quote "Login"
       +:+ " OR summary ~ " +:+ Js.quote "page"
       +:+ " OR summary ~ " +:+ Js.quote "crashes"
       +:+ ") OR (labels = " +:+ Js.quote "auth"
       +:+ ")) AND issuekey != PROJ-1 ORDER BY updated DESC".
Proof.
  split.
  - intros issueKey source. cbv zeta. split; [| split; [| split]].
    + unfold Jira.relatedJql. now rewrite relatedQueries_shape.
    + apply relatedJql_print.
    + apply plain_reading_relatedIssuesExpr.
    + eexists. reflexivity.
  - vm_compute. reflexivity.
Qed.

(** C5 (empty-signal fallback): without keywords and without labels the
    query is the base clause alone; a title made of white space only
    (the empty title included) yields no keyword; and for such a source
    page the search request carries exactly the base clause. *)
Theorem C5_empty_signal_fallback :
  (forall pageId,
     Confluence.relatedQuery pageId [] [] = "type = page AND id != " +:+ pageId)
  /\ (forall title, Js.all_space title = true -> extractKeywords title = [])
  /\ (forall remote c pageId limit expand w sourcePage,
        settle (Confluence.content remote
                  (Confluence.pageRequest c pageId ["metadata.labels"]))
        = Return sourcePage ->
        extractKeywords (Confluence.title sourcePage) = [] ->
        Confluence.pageLabels sourcePage = [] ->
        requests (snd (Confluence.getTopicallyRelatedPages remote c pageId limit expand w))
        = requests w
          ++ [Confluence.pageRequest c pageId ["metadata.labels"];
              Confluence.relatedRequest c ("type = page AND id != " +:+ pageId)
                (default 10 limit) (default ["body.storage"] expand)]).
Proof.
  split; [| split].
  - reflexivity.
  - apply extractKeywords_all_space.
  - intros remote c pageId limit expand w sourcePage Hfetch Hkw Hlabels.
    rewrite getTopicallyRelatedPages_run. cbv zeta. rewrite Hfetch, Hkw, Hlabels.
    change (Confluence.relatedQuery pageId [] [])
      with ("type = page AND id != " +:+ pageId).
    destruct (settle (Confluence.content_search remote _)); reflexivity.
Qed.

(** The fallback at the page 7 of the demo wiki, whose title is two
    spaces and which has no label. *)
Lemma C5_empty_signal_fallback_witness :
  extractKeywords (Confluence.title Demo.blankPage) = []
  /\ requests (snd (Confluence.getTopicallyRelatedPages Demo.wiki Demo.wikiClient
                      "7" (Some 5) None start_world))
     = [Confluence.pageRequest Demo.wikiClient "7" ["metadata.labels"];
        Confluence.relatedRequest Demo.wikiClient "type = page AND id != 7" 5
          ["body.storage"]].
Proof.
  split.
  - apply (proj1 (proj2 C5_empty_signal_fallback)). reflexivity.
  - apply (proj2 (proj2 C5_empty_signal_fallback) Demo.wiki Demo.wikiClient "7"
             (Some 5) None start_world Demo.blankPage);
      reflexivity.
Defined.

(** C3, as stated, fails: the length filter runs before the punctuation
    is stripped, so a keyword can be shorter than four characters, and
    even empty. *)
Lemma C3_short_keyword_counterexample :
  extractKeywords "Release (v2) ----" = ["Release"; "v2"; ""]
  /\ ~ (forall text kw, In kw (extractKeywords text) -> (3 < String.length kw)%nat).
Proof.
  split; [reflexivity |].
  intros H. specialize (H "Release (v2) ----" "v2").
  assert (Hin : In "v2" (extractKeywords "Release (v2) ----")) by (right; left; reflexivity).
  specialize (H Hin). cbn in H. lia.
Qed.

(** C3, amended: every keyword is the stripped form of a token of the
    split whose length before stripping exceeds 3; stripping can only
    shorten it, and what is left consists of word characters. *)
Theorem C3_keywords_are_stripped_long_tokens (text kw : string) :
  In kw (extractKeywords text) ->
  exists token,
    In token (Js.split_ws text)
    /\ (3 < String.length token)%nat
    /\ kw = Js.strip_punct token
    /\ (String.length kw <= String.length token)%nat
    /\ Js.all_word kw = true.
Proof.
  unfold extractKeywords. intros Hin.
  apply in_map_iff in Hin as (token & <- & Htok).
  apply filter_In in Htok as [Hsplit Hlong].
  exists token. split; [exact Hsplit |]. split; [now apply Nat.ltb_lt |].
  split; [reflexivity |]. split; [apply strip_punct_length |].
  apply strip_punct_all_word.
  pose proof (split_ws_go_no_space text "" false eq_refl) as Hall.
  rewrite List.Forall_forall in Hall. now apply Hall.
Qed.

(** The keyword "oncall" of the title of the specification's example
    comes from the token "on-call". *)
Lemma C3_keywords_are_stripped_long_tokens_witness :
  exists token,
    In token (Js.split_ws "Oncall tips for on-call engineers")
    /\ (3 < String.length token)%nat
    /\ "oncall" = Js.strip_punct token
    /\ (String.length "oncall" <= String.length token)%nat
    /\ Js.all_word "oncall" = true.
Proof.
  apply (C3_keywords_are_stripped_long_tokens "Oncall tips for on-call engineers" "oncall").
  vm_compute. right; right; left; reflexivity.
Defined.

(** C7 (keyword extractor): the extractor of the code computes the
    three-step function of the specification; a text of white space
    only, the empty text included, yields no keyword; order, duplicates
    and letter case are kept. *)
Theorem C7_keyword_extractor_is_three_step_function :
  (forall text, extractKeywords text = KeywordSpec.keywords text)
  /\ (forall text, Js.all_space text = true -> extractKeywords text = [])
  /\ extractKeywords "" = []
  /\ extractKeywords "Oncall tips for on-call engineers"
     = ["Oncall"; "tips"; "oncall"; "engineers"]
  /\ extractKeywords "plan Plan PLAN plan" = ["plan"; "Plan"; "PLAN"; "plan"].
Proof.
  split; [exact extractKeywords_spec |].
  split; [exact extractKeywords_all_space |].
  repeat split; reflexivity.
Qed.

(** A tab followed by a space yields no keyword. *)
Lemma C7_keyword_extractor_is_three_step_function_witness :
  extractKeywords (String "009"%char " ") = [].
Proof.
  apply (proj1 (proj2 C7_keyword_extractor_is_three_step_function)). reflexivity.
Defined.

(** C6, as stated, fails.  [getRelatedIssues] has no limit argument: on
    a tracker that honours [maxResults] it asks for 10 issues and
    returns 10, so no bound below 10 can be had; and the
    [getRelatedPages] tool turns the limit 0 into 10. *)
Lemma C6_issue_variant_takes_no_limit_counterexample :
  (exists l w,
     Jira.getRelatedIssues Demo.tracker Demo.jiraClient "PROJ-1" start_world
     = (Return l, w)
     /\ map (param "maxResults") (requests w) = [None; Some (PNum 10)]
     /\ length l = 10%nat)
  /\ ~ (forall (N : Z) remote c issueKey w l w',
          Jira.getRelatedIssues remote c issueKey w = (Return l, w') ->
          Z.of_nat (length l) <= N)
  /\ (exists r w,
        Tools.getRelatedPages Demo.wiki Demo.env "123" (Some 0) start_world
        = (Return r, w)
        /\ map (param "limit") (requests w) = [None; Some (PNum 10)]).
Proof.
  split; [| split].
  - eexists _, _. split; [vm_compute; reflexivity |]. split; reflexivity.
  - intros H.
    specialize (H 3 Demo.tracker Demo.jiraClient "PROJ-1" start_world).
    assert (exists l w',
              Jira.getRelatedIssues Demo.tracker Demo.jiraClient "PROJ-1" start_world
              = (Return l, w') /\ length l = 10%nat) as (l & w' & Hrun & Hlen)
      by (eexists _, _; split; [vm_compute; reflexivity | reflexivity]).
    specialize (H l w' Hrun). rewrite Hlen in H. lia.
  - eexists _, _. split; [vm_compute; reflexivity | reflexivity].
Qed.

(** C6, amended: the document variant sends the caller's limit (10 by
    default) and the caller's expand list (joined by commas) with its
    one search request and returns the reply of the remote unchanged,
    without truncating it; the issue variant takes only the key, always asks for 10 results
    from index 0 and returns the issues of the reply. *)
Theorem C6_limit_reaches_search_in_document_variant :
  (forall remote c pageId limit expand w sourcePage,
     settle (Confluence.content remote
               (Confluence.pageRequest c pageId ["metadata.labels"]))
     = Return sourcePage ->
     let run := Confluence.getTopicallyRelatedPages remote c pageId limit expand w in
     exists cql,
       let search :=
         Confluence.relatedRequest c cql (default 10 limit)
           (default ["body.storage"] expand) in
       requests (snd run)
       = requests w ++ [Confluence.pageRequest c pageId ["metadata.labels"]; search]
       /\ param "limit" search = Some (PNum (default 10 limit))
       /\ param "expand" search
          = Some (PStr (Js.join "," (default ["body.storage"] expand)))
       /\ forall r,
            settle (Confluence.content_search remote search) = Return r ->
            fst run = Return r)
  /\ (forall remote c issueKey w source,
        settle (Jira.issue remote
                  (Jira.issueRequest c issueKey (Some ["summary"; "labels"; "project"])))
        = Return source ->
        let run := Jira.getRelatedIssues remote c issueKey w in
        let search := Jira.searchRequest c (Jira.relatedJql issueKey source) 0 10 None in
        requests (snd run)
        = requests w
          ++ [Jira.issueRequest c issueKey (Some ["summary"; "labels"; "project"]);
              search]
        /\ param "startAt" search = Some (PNum 0)
        /\ param "maxResults" search = Some (PNum 10)
        /\ param "fields" search = None
        /\ forall r,
             settle (Jira.search remote search) = Return r ->
             fst run = Return (Jira.issues r)).
Proof.
  split.
  - intros remote c pageId limit expand w sourcePage Hfetch. cbv zeta.
    rewrite getTopicallyRelatedPages_run. cbv zeta. rewrite Hfetch.
    eexists. split; [| split; [| split]].
    + destruct (settle (Confluence.content_search remote _)); reflexivity.
    + reflexivity.
    + reflexivity.
    + intros r Hr. now rewrite Hr.
  - intros remote c issueKey w source Hfetch. cbv zeta.
    rewrite getRelatedIssues_run. cbv zeta. rewrite Hfetch.
    split; [| split; [| split; [| split]]]; try reflexivity.
    + destruct (settle (Jira.search remote _)); reflexivity.
    + intros r Hr. now rewrite Hr.
Qed.

(** With the limit 3 the search request of the demo wiki carries 3. *)
Lemma C6_limit_reaches_search_in_document_variant_witness :
  exists cql,
    requests (snd (Confluence.getTopicallyRelatedPages Demo.wiki Demo.wikiClient
                     "123" (Some 3) None start_world))
    = [Confluence.pageRequest Demo.wikiClient "123" ["metadata.labels"];
       Confluence.relatedRequest Demo.wikiClient cql 3 ["body.storage"]].
Proof.
  destruct (proj1 C6_limit_reaches_search_in_document_variant
              Demo.wiki Demo.wikiClient "123" (Some 3) None start_world
              Demo.notesPage eq_refl) as (cql & Hreq & _).
  exists cql. exact Hreq.
Defined.




(** C9, as stated, fails: the [handleError] of a client throws the very
    error it was given, after writing to the console; and the failed
    fetch of a related-item operation is caught twice inside the client,
    as the doubled console lines show. *)
Lemma C9_client_rethrows_raw_error_counterexample :
  Confluence.handleError (A:=unit) (HttpError 404 "Not Found") start_world
  = (Throw (HttpError 404 "Not Found"),
     {| requests := [];
        console :=
          ["Error: 404 - Not Found";
           "Resource not found. Please check your Confluence domain and the requested resource."] |})
  /\ Jira.handleError (A:=unit) (PlainError "socket hang up") start_world
     = (Throw (PlainError "socket hang up"),
        {| requests := [];
           console := ["An unexpected error occurred: socket hang up"] |})
  /\ Confluence.getTopicallyRelatedPages Demo.wiki Demo.wikiClient "999" None None
       start_world
     = (Throw (HttpError 404 "Not Found"),
        {| requests := [Confluence.pageRequest Demo.wikiClient "999" ["metadata.labels"]];
           console :=
             ["Error: 404 - Not Found";
              "Resource not found. Please check your Confluence domain and the requested resource.";
              "Error: 404 - Not Found";
              "Resource not found. Please check your Confluence domain and the requested resource."] |}).
Proof. split; [| split]; vm_compute; reflexivity. Qed.

(** C9, amended: the [handleError] of either client writes its
    classified lines to the console and throws the error it was given;
    the [handleError] of the tool server throws a [UserError] whose
    message names the cause: authentication for 401, permission for 403,
    not found for 404, status and status text for any other status, the
    message of an error without response; a [UserError] passes as it
    is. *)
Theorem C9_clients_log_and_tools_classify :
  (forall e w,
     Confluence.handleError (A:=unit) e w
     = (Throw e, extend w [] (Confluence.logLines e)))
  /\ (forall e w,
        Jira.handleError (A:=unit) e w = (Throw e, extend w [] (Jira.logLines e)))
  /\ (forall statusText,
        Confluence.logLines (HttpError 403 statusText)
        = ["Error: 403 - " +:+ statusText]
        /\ Jira.logLines (HttpError 403 statusText)
           = ["Error: 403 - " +:+ statusText;
              "Permission denied. You do not have access to this resource."])
  /\ (forall statusText w,
        Tools.handleError (A:=unit) (HttpError 401 statusText) w
        = (Throw (UserError
             "Authentication Error: Failed to authenticate with Confluence. Please check your credentials."),
           w))
  /\ (forall statusText w,
        Tools.handleError (A:=unit) (HttpError 403 statusText) w
        = (Throw (UserError
             "Permission Error: You do not have permission to access this resource in Confluence."),
           w))
  /\ (forall statusText w,
        Tools.handleError (A:=unit) (HttpError 404 statusText) w
        = (Throw (UserError
             "Not Found Error: The requested Confluence resource could not be found. Please check the provided ID or parameters."),
           w))
  /\ (forall status statusText w,
        status <> 401 -> status <> 403 -> status <> 404 ->
        Tools.handleError (A:=unit) (HttpError status statusText) w
        = (Throw (UserError
             ("Confluence API Error: " +:+ pretty status +:+ " " +:+ statusText)),
           w))
  /\ (forall message w,
        Tools.handleError (A:=unit) (PlainError message) w
        = (Throw (UserError ("An unexpected error occurred: " +:+ message)), w))
  /\ (forall message w,
        Tools.handleError (A:=unit) (UserError message) w
        = (Throw (UserError message), w)).
Proof.
  split; [exact confluence_handleError_run |].
  split; [exact jira_handleError_run |].
  split; [intros; split; reflexivity |].
  repeat split; try reflexivity.
  intros status statusText w H1 H2 H3. unfold Tools.handleError.
  apply Z.eqb_neq in H1, H2, H3. now rewrite H1, H2, H3.
Qed.

(** A status 500 is reported with its number and text. *)
Lemma C9_clients_log_and_tools_classify_witness :
  Tools.handleError (A:=unit) (HttpError 500 "Internal Server Error") start_world
  = (Throw (UserError "Confluence API Error: 500 Internal Server Error"), start_world).
Proof.
  apply (proj1 (proj2 (proj2 (proj2 (proj2 (proj2 (proj2
           C9_clients_log_and_tools_classify))))))
           500 "Internal Server Error" start_world); discriminate.
Defined.

(** ** Sprint issues *)

Lemma typeListed_spec (issueTypes : list string) (i : Jira.Issue) :
  Jira.typeListed issueTypes i = true
  <-> exists ty, Jira.issuetype (Jira.fields i) = Some ty /\ In (Jira.name ty) issueTypes.
Proof.
  unfold Jira.typeListed. destruct (Jira.issuetype (Jira.fields i)) as [ty |].
  - rewrite existsb_exists. split.
    + intros (x & Hin & Heq). apply String.eqb_eq in Heq. subst x. eauto.
    + intros (ty' & [= <-] & Hin). exists (Jira.name ty). split; [exact Hin |].
      apply String.eqb_refl.
  - split; [discriminate |]. intros (ty & Hty & _). discriminate.
Qed.

Lemma filter_sublist {X} (f : X -> bool) (l : list X) : sublist (List.filter f l) l.
Proof.
  induction l as [|x l IH]; cbn; [constructor |].
  destruct (f x); now constructor.
Qed.

(** The run of [getSprintIssues] on a reply whose [issues] is an array. *)
Lemma getSprintIssues_run remote c sprintId startAt maxResults issueTypes w data l :
  settle (Jira.sprint_issue remote
            (Jira.sprintRequest c sprintId (default 0 startAt) (default 50 maxResults)))
  = Return data ->
  data !! "issues" = Some (Jira.JIssues l) ->
  Jira.getSprintIssues remote c sprintId startAt maxResults issueTypes w
  = (Return
       (<["issues" :=
            Jira.JIssues
              match issueTypes with
              | Some (t :: ts) => List.filter (Jira.typeListed (t :: ts)) l
              | _ => l
              end]> data),
     extend w
       [Jira.sprintRequest c sprintId (default 0 startAt) (default 50 maxResults)] []).
Proof.
  intros Hreply Hissues. unfold Jira.getSprintIssues. cbv zeta.
  rewrite try_catch_run, bind_run, http_get_run, Hreply, Hissues. cbn [default].
  destruct issueTypes as [[|t ts] |]; reflexivity.
Qed.

(** C10 ([getSprintIssues]): with a non-empty [issueTypes] the returned
    issues are those of the fetched page whose issue type name is listed,
    in their order, and every other member of the reply is returned as
    it is; without [issueTypes], or with an empty list, the reply is
    returned as it is. *)
Theorem C10_getSprintIssues_filters_by_type
    remote c sprintId startAt maxResults w data l :
  settle (Jira.sprint_issue remote
            (Jira.sprintRequest c sprintId (default 0 startAt) (default 50 maxResults)))
  = Return data ->
  data !! "issues" = Some (Jira.JIssues l) ->
  (forall t ts,
     exists result,
       fst (Jira.getSprintIssues remote c sprintId startAt maxResults (Some (t :: ts)) w)
       = Return result
       /\ result !! "issues"
          = Some (Jira.JIssues (List.filter (Jira.typeListed (t :: ts)) l))
       /\ (forall k, k <> "issues" -> result !! k = data !! k)
       /\ sublist (List.filter (Jira.typeListed (t :: ts)) l) l
       /\ (forall i,
             In i (List.filter (Jira.typeListed (t :: ts)) l)
             <-> In i l
                 /\ exists ty, Jira.issuetype (Jira.fields i) = Some ty
                               /\ In (Jira.name ty) (t :: ts)))
  /\ fst (Jira.getSprintIssues remote c sprintId startAt maxResults None w) = Return data
  /\ fst (Jira.getSprintIssues remote c sprintId startAt maxResults (Some []) w)
     = Return data.
Proof.
  intros Hreply Hissues. split; [| split].
  - intros t ts. eexists. split; [| split; [| split; [| split]]].
    + rewrite (getSprintIssues_run _ _ _ _ _ _ _ _ _ Hreply Hissues). reflexivity.
    + apply lookup_insert_eq.
    + intros k Hk. apply lookup_insert_ne. congruence.
    + apply filter_sublist.
    + intros i. rewrite filter_In, typeListed_spec. reflexivity.
  - rewrite (getSprintIssues_run _ _ _ _ _ _ _ _ _ Hreply Hissues). cbn [fst].
    f_equal. now apply insert_id.
  - rewrite (getSprintIssues_run _ _ _ _ _ _ _ _ _ Hreply Hissues). cbn [fst].
    f_equal. now apply insert_id.
Qed.

(** The bugs of the demo sprint, and its untouched [total]. *)
Lemma C10_getSprintIssues_filters_by_type_witness :
  exists result,
    fst (Jira.getSprintIssues Demo.tracker Demo.jiraClient 42 None (Some 10)
           (Some ["Bug"]) start_world)
    = Return result
    /\ result !! "issues"
       = Some (Jira.JIssues
                 [Demo.loginIssue; Demo.mkIssue "PROJ-3" "Logout link" [] "Bug"])
    /\ result !! "total" = Some (Jira.JNum 4).
Proof.
  destruct (proj1 (C10_getSprintIssues_filters_by_type
                     Demo.tracker Demo.jiraClient 42 None (Some 10) start_world
                     Demo.sprintBody
                     [Demo.loginIssue; Demo.mkIssue "PROJ-2" "Signup form" [] "Story";
                      Demo.untypedIssue; Demo.mkIssue "PROJ-3" "Logout link" [] "Bug"]
                     eq_refl eq_refl) "Bug" [])
    as (result & Hrun & Hissues & Hrest & _).
  exists result. split; [exact Hrun |]. split; [exact Hissues |].
  rewrite Hrest by discriminate. reflexivity.
Defined.

(** * Further properties of the clients and the tools *)

(** A method that sends one request inside its [try] block. *)
Lemma single_get_run {A} (logLines : Error -> list string)
    (handler : Error -> Async A) (endpoint : Request -> Reply A) req w :
  (forall e w, handler e w = (Throw e, extend w [] (logLines e))) ->
  try_catch (http_get endpoint req) handler w
  = match settle (endpoint req) with
    | Return a => (Return a, extend w [req] [])
    | Throw e => (Throw e, extend w [req] (logLines e))
    end.
Proof.
  intros Hh. rewrite try_catch_run, http_get_run.
  destruct (settle (endpoint req)); [reflexivity |].
  now rewrite Hh, extend_extend.
Qed.

(** X1 ([getPagesByTitle], [getRecentlyUpdated], [getContentByLabel]):
    a space key that is absent or empty adds nothing to the request; a
    non-empty one adds [AND space = "key"] to the title query and the
    parameter [spaceKey] to the two listings.  Each method sends this
    one request, returns the body of a 2xx reply and otherwise throws
    the error of the reply after logging it once. *)
Theorem X1_space_key_is_optional remote c w :
  (forall title spaceKey expand,
     let req :=
       {| baseURL := Confluence.clientBaseURL c;
          url := "/content/search";
          params :=
            [("cql",
              PStr ("title ~ " +:+ Js.quote title
                    +:+ match spaceKey with
                        | Some (String ch rest) =>
                            " AND space = " +:+ Js.quote (String ch rest)
                        | _ => ""
                        end));
             ("expand", PStr (Js.join "," (default ["body.storage"] expand)))] |} in
     ConfluenceExt.getPagesByTitle remote c title spaceKey expand w
     = match settle (Confluence.content_search (ConfluenceExt.wiki remote) req) with
       | Return r => (Return r, extend w [req] [])
       | Throw e => (Throw e, extend w [req] (Confluence.logLines e))
       end)
  /\ (forall spaceKey type limit start expand,
        let req :=
          {| baseURL := Confluence.clientBaseURL c;
             url := "/content";
             params :=
               [("type", PStr (default "page" type));
                ("limit", PNum (default 25 limit));
                ("start", PNum (default 0 start));
                ("expand", PStr (Js.join "," (default [] expand)));
                ("orderby", PStr "modified")]
               ++ match spaceKey with
                  | Some (String ch rest) => [("spaceKey", PStr (String ch rest))]
                  | _ => []
                  end |} in
        ConfluenceExt.getRecentlyUpdated remote c spaceKey type limit start expand w
        = match settle (ConfluenceExt.content_list remote req) with
          | Return r => (Return r, extend w [req] [])
          | Throw e => (Throw e, extend w [req] (Confluence.logLines e))
          end)
  /\ (forall labelName spaceKey limit start,
        let req :=
          {| baseURL := Confluence.clientBaseURL c;
             url := "/content/search";
             params :=
               [("labelName", PStr labelName);
                ("limit", PNum (default 25 limit));
                ("start", PNum (default 0 start))]
               ++ match spaceKey with
                  | Some (String ch rest) => [("spaceKey", PStr (String ch rest))]
                  | _ => []
                  end |} in
        ConfluenceExt.getContentByLabel remote c labelName spaceKey limit start w
        = match settle (Confluence.content_search (ConfluenceExt.wiki remote) req) with
          | Return r => (Return r, extend w [req] [])
          | Throw e => (Throw e, extend w [req] (Confluence.logLines e))
          end).
Proof.
  split; [| split].
  - intros title spaceKey expand. cbv zeta.
    unfold ConfluenceExt.getPagesByTitle. cbv zeta.
    rewrite (single_get_run Confluence.logLines)
      by (intros; apply confluence_handleError_run).
    unfold ConfluenceExt.titleQuery.
    destruct spaceKey as [[|ch rest] |]; cbn [ConfluenceExt.givenKey];
      rewrite ?app_assoc_s, ?app_nil_r_s; reflexivity.
  - intros spaceKey type limit start expand. cbv zeta.
    unfold ConfluenceExt.getRecentlyUpdated. cbv zeta.
    rewrite (single_get_run Confluence.logLines)
      by (intros; apply confluence_handleError_run).
    destruct spaceKey as [[|ch rest] |]; reflexivity.
  - intros labelName spaceKey limit start. cbv zeta.
    unfold ConfluenceExt.getContentByLabel. cbv zeta.
    rewrite (single_get_run Confluence.logLines)
      by (intros; apply confluence_handleError_run).
    destruct spaceKey as [[|ch rest] |]; reflexivity.
Qed.

Lemma getAttachment_run remote c attachmentId w :
  ConfluenceExt.getAttachment remote c attachmentId w
  = let req := ConfluenceExt.attachmentRequest c attachmentId in
    match settle (ConfluenceExt.attachment remote req) with
    | Return a => (Return a, extend w [req] [])
    | Throw e => (Throw e, extend w [req] (Confluence.logLines e))
    end.
Proof.
  unfold ConfluenceExt.getAttachment. cbv zeta.
  apply single_get_run. intros; apply confluence_handleError_run.
Qed.

(** The whole run of [downloadAttachment]. *)
Lemma downloadAttachment_run remote c attachmentId w :
  ConfluenceExt.downloadAttachment remote c attachmentId w
  = let fetch := ConfluenceExt.attachmentRequest c attachmentId in
    match settle (ConfluenceExt.attachment remote fetch) with
    | Return a =>
        match ConfluenceExt.givenKey (ConfluenceExt.download a) with
        | None =>
            (Throw (PlainError "Download link not available"),
             extend w [fetch]
               ["An unexpected error occurred: Download link not available"])
        | Some downloadUrl =>
            let get := ConfluenceExt.downloadRequest c downloadUrl in
            match settle (ConfluenceExt.download_link remote get) with
            | Return r =>
                (Return
                   {| ConfluenceExt.downloaded_data := ConfluenceExt.data r;
                      ConfluenceExt.downloaded_contentType := ConfluenceExt.contentType r;
                      ConfluenceExt.downloaded_filename :=
                        ConfluenceExt.attachment_title a |},
                 extend w [fetch; get] [])
            | Throw e => (Throw e, extend w [fetch; get] (Confluence.logLines e))
            end
        end
    | Throw e =>
        (Throw e, extend w [fetch] (Confluence.logLines e ++ Confluence.logLines e))
    end.
Proof.
  unfold ConfluenceExt.downloadAttachment. cbv zeta.
  rewrite try_catch_run, bind_run, getAttachment_run. cbv zeta.
  destruct (settle (ConfluenceExt.attachment remote _)) as [a | e].
  - destruct (ConfluenceExt.givenKey (ConfluenceExt.download a)) as [downloadUrl |].
    + rewrite bind_run, http_get_run, extend_extend.
      destruct (settle (ConfluenceExt.download_link remote _)) as [r | e];
        [reflexivity |].
      now rewrite confluence_handleError_run, extend_extend.
    + rewrite throw_run, confluence_handleError_run, extend_extend. reflexivity.
  - now rewrite confluence_handleError_run, extend_extend.
Qed.

(** X2 ([downloadAttachment]): when the attachment has no download link,
    or an empty one, the operation throws "Download link not available"
    after the request for the attachment alone, and logs it once as an
    unexpected error; nothing is downloaded. *)
Theorem X2_download_without_link remote c attachmentId w a :
  settle (ConfluenceExt.attachment remote
            (ConfluenceExt.attachmentRequest c attachmentId)) = Return a ->
  ConfluenceExt.download a = None \/ ConfluenceExt.download a = Some "" ->
  ConfluenceExt.downloadAttachment remote c attachmentId w
  = (Throw (PlainError "Download link not available"),
     extend w [ConfluenceExt.attachmentRequest c attachmentId]
       ["An unexpected error occurred: Download link not available"]).
Proof.
  intros Hfetch Hlink. rewrite downloadAttachment_run. cbv zeta. rewrite Hfetch.
  destruct Hlink as [-> | ->]; reflexivity.
Qed.

(** X3 ([downloadAttachment]): with a download link the operation sends
    two requests, the second to the link of the first reply, and returns
    the downloaded data and content type under the title of the
    attachment; when the download fails it throws that error, logged
    once, and when the attachment cannot be fetched it throws that
    error, logged twice, without a second request. *)
Theorem X3_download_follows_link remote c attachmentId w :
  (forall a ch rest r,
     settle (ConfluenceExt.attachment remote
               (ConfluenceExt.attachmentRequest c attachmentId)) = Return a ->
     ConfluenceExt.download a = Some (String ch rest) ->
     settle (ConfluenceExt.download_link remote
               (ConfluenceExt.downloadRequest c (String ch rest))) = Return r ->
     ConfluenceExt.downloadAttachment remote c attachmentId w
     = (Return
          {| ConfluenceExt.downloaded_data := ConfluenceExt.data r;
             ConfluenceExt.downloaded_contentType := ConfluenceExt.contentType r;
             ConfluenceExt.downloaded_filename := ConfluenceExt.attachment_title a |},
        extend w
          [ConfluenceExt.attachmentRequest c attachmentId;
           ConfluenceExt.downloadRequest c (String ch rest)] []))
  /\ (forall a ch rest e,
        settle (ConfluenceExt.attachment remote
                  (ConfluenceExt.attachmentRequest c attachmentId)) = Return a ->
        ConfluenceExt.download a = Some (String ch rest) ->
        settle (ConfluenceExt.download_link remote
                  (ConfluenceExt.downloadRequest c (String ch rest))) = Throw e ->
        ConfluenceExt.downloadAttachment remote c attachmentId w
        = (Throw e,
           extend w
             [ConfluenceExt.attachmentRequest c attachmentId;
              ConfluenceExt.downloadRequest c (String ch rest)]
             (Confluence.logLines e)))
  /\ (forall e,
        settle (ConfluenceExt.attachment remote
                  (ConfluenceExt.attachmentRequest c attachmentId)) = Throw e ->
        ConfluenceExt.downloadAttachment remote c attachmentId w
        = (Throw e,
           extend w [ConfluenceExt.attachmentRequest c attachmentId]
             (Confluence.logLines e ++ Confluence.logLines e))).
Proof.
  split; [| split].
  - intros a ch rest r Hfetch Hlink Hget.
    rewrite downloadAttachment_run. cbv zeta. rewrite Hfetch, Hlink.
    cbn [ConfluenceExt.givenKey]. now rewrite Hget.
  - intros a ch rest e Hfetch Hlink Hget.
    rewrite downloadAttachment_run. cbv zeta. rewrite Hfetch, Hlink.
    cbn [ConfluenceExt.givenKey]. now rewrite Hget.
  - intros e Hfetch. rewrite downloadAttachment_run. cbv zeta. now rewrite Hfetch.
Qed.

(** X4 (console output of the related-item operations): a failed fetch
    of the source item is logged twice by both variants, once by the
    method that fetches and once by the operation; a failed search is
    logged twice by the issue variant, which searches through
    [searchIssues], and once by the document variant, which sends the
    search request itself. *)
Theorem X4_failures_logged_once_per_catch :
  (forall remote c pageId limit expand w e,
     fst (Confluence.getTopicallyRelatedPages remote c pageId limit expand w) = Throw e ->
     let w' := snd (Confluence.getTopicallyRelatedPages remote c pageId limit expand w) in
     (length (requests w') = S (length (requests w))
      /\ console w' = console w ++ Confluence.logLines e ++ Confluence.logLines e)
     \/ (length (requests w') = S (S (length (requests w)))
         /\ console w' = console w ++ Confluence.logLines e))
  /\ (forall remote c issueKey w e,
        fst (Jira.getRelatedIssues remote c issueKey w) = Throw e ->
        console (snd (Jira.getRelatedIssues remote c issueKey w))
        = console w ++ Jira.logLines e ++ Jira.logLines e)
  /\ (forall remote c pageId limit expand w r,
        fst (Confluence.getTopicallyRelatedPages remote c pageId limit expand w) = Return r ->
        console (snd (Confluence.getTopicallyRelatedPages remote c pageId limit expand w))
        = console w)
  /\ (forall remote c issueKey w l,
        fst (Jira.getRelatedIssues remote c issueKey w) = Return l ->
        console (snd (Jira.getRelatedIssues remote c issueKey w)) = console w).
Proof.
  split; [| split; [| split]].
  - intros remote c pageId limit expand w e. cbv zeta.
    rewrite getTopicallyRelatedPages_run. cbv zeta.
    destruct (settle (Confluence.content remote _)) as [p | e1].
    + destruct (settle (Confluence.content_search remote _)) as [r | e2];
        cbn [fst snd]; [discriminate |].
      intros [= ->]. right. cbn. rewrite !length_app. cbn. split; [lia | reflexivity].
    + cbn [fst snd]. intros [= ->]. left. cbn. rewrite !length_app. cbn.
      split; [lia | reflexivity].
  - intros remote c issueKey w e. rewrite getRelatedIssues_run. cbv zeta.
    destruct (settle (Jira.issue remote _)) as [s | e1].
    + destruct (settle (Jira.search remote _)) as [r | e2]; cbn [fst snd];
        [discriminate | now intros [= ->]].
    + cbn [fst snd]. now intros [= ->].
  - intros remote c pageId limit expand w r. rewrite getTopicallyRelatedPages_run. cbv zeta.
    destruct (settle (Confluence.content remote _)) as [p | e1].
    + destruct (settle (Confluence.content_search remote _)) as [r' | e2];
        cbn [fst snd]; [| discriminate].
      intros _. cbn. apply app_nil_r.
    + discriminate.
  - intros remote c issueKey w l. rewrite getRelatedIssues_run. cbv zeta.
    destruct (settle (Jira.issue remote _)) as [s | e1].
    + destruct (settle (Jira.search remote _)) as [r' | e2];
        cbn [fst snd]; [| discriminate].
      intros _. cbn. apply app_nil_r.
    + discriminate.
Qed.

(** X5 ([getSprintIssues]): when the [issues] member of the reply is no
    array (it is missing, or a number or a string), a non-empty
    [issueTypes] makes the operation throw a [TypeError], logged once as
    an unexpected error, after its one request; without [issueTypes], or
    with an empty list, the reply is returned with its [issues] member
    as it was, [undefined] when it was missing. *)
Theorem X5_sprint_reply_without_issue_array
    remote c sprintId startAt maxResults w data :
  settle (Jira.sprint_issue remote
            (Jira.sprintRequest c sprintId (default 0 startAt) (default 50 maxResults)))
  = Return data ->
  (forall l, data !! "issues" <> Some (Jira.JIssues l)) ->
  let req := Jira.sprintRequest c sprintId (default 0 startAt) (default 50 maxResults) in
  (forall t ts,
     exists message,
       Jira.getSprintIssues remote c sprintId startAt maxResults (Some (t :: ts)) w
       = (Throw (PlainError message),
          extend w [req] ["An unexpected error occurred: " +:+ message]))
  /\ (forall issueTypes,
        issueTypes = None \/ issueTypes = Some [] ->
        Jira.getSprintIssues remote c sprintId startAt maxResults issueTypes w
        = (Return (<["issues" := default Jira.JUndefined (data !! "issues")]> data),
           extend w [req] [])).
Proof.
  intros Hreply Hnot req. split.
  - intros t ts. unfold Jira.getSprintIssues. cbv zeta.
    rewrite try_catch_run, bind_run, http_get_run, Hreply.
    destruct (data !! "issues") as [[| n | s | l] |] eqn:Hissues;
      cbn [default from_option id];
      try (now exfalso; apply (Hnot l));
      eexists; rewrite bind_run, throw_run, jira_handleError_run, extend_extend;
      reflexivity.
  - intros issueTypes Hnone. unfold Jira.getSprintIssues. cbv zeta.
    rewrite try_catch_run, bind_run, http_get_run, Hreply.
    destruct Hnone as [-> | ->]; reflexivity.
Qed.

(** A tool body whose errors go through the [handleError] of the tool
    server. *)
Lemma tool_run {A} (body : Async A) (w : World) :
  try_catch body Tools.handleError w
  = match body w with
    | (Return a, w') => (Return a, w')
    | (Throw e, w') => (Throw (Tools.rethrown e), w')
    end.
Proof.
  rewrite try_catch_run. destruct (body w) as [[a | e] w']; [reflexivity |].
  apply tools_handleError_run.
Qed.

Lemma rethrown_is_user_error (e : Error) :
  exists message, Tools.rethrown e = UserError message.
Proof.
  destruct e as [status statusText | message | message]; cbn; eauto.
Qed.

Lemma tool_throws_user_error {A} (body : Async A) (w : World) (e : Error) :
  fst (try_catch body Tools.handleError w) = Throw e ->
  exists message, e = UserError message.
Proof.
  rewrite tool_run. destruct (body w) as [[a | e'] w']; cbn [fst]; [discriminate |].
  intros [= <-]. apply rethrown_is_user_error.
Qed.

(** X6 (tools): whatever fails inside the tools [getRelatedPages],
    [getRelatedIssues], [getSprintIssues] and [getActiveSprintIssues],
    the error that leaves the tool is a [UserError]. *)
Theorem X6_tools_throw_user_errors_only :
  (forall remote env pageId limit w e,
     fst (Tools.getRelatedPages remote env pageId limit w) = Throw e ->
     exists message, e = UserError message)
  /\ (forall remote env issueKey w e,
        fst (Tools.getRelatedIssues remote env issueKey w) = Throw e ->
        exists message, e = UserError message)
  /\ (forall remote env sprintId startAt maxResults issueTypes w e,
        fst (ToolsExt.getSprintIssues remote env sprintId startAt maxResults
               issueTypes w) = Throw e ->
        exists message, e = UserError message)
  /\ (forall remote env boardId issueTypes startAt maxResults w e,
        fst (ToolsExt.getActiveSprintIssues remote env boardId issueTypes startAt
               maxResults w) = Throw e ->
        exists message, e = UserError message).
Proof.
  split; [| split; [| split]]; intros; eapply tool_throws_user_error; eassumption.
Qed.

Lemma credentials_none (env : Tools.Env) :
  Tools.credentials env = None
  <-> (Tools.ATLASSIAN_DOMAIN env = None \/ Tools.ATLASSIAN_DOMAIN env = Some "")
      \/ (Tools.ATLASSIAN_USER env = None \/ Tools.ATLASSIAN_USER env = Some "")
      \/ (Tools.ATLASSIAN_TOKEN env = None \/ Tools.ATLASSIAN_TOKEN env = Some "").
Proof.
  unfold Tools.credentials.
  destruct (Tools.ATLASSIAN_DOMAIN env) as [[|c1 s1] |],
           (Tools.ATLASSIAN_USER env) as [[|c2 s2] |],
           (Tools.ATLASSIAN_TOKEN env) as [[|c3 s3] |]; cbn;
    split; intros H; try reflexivity; try discriminate; auto;
    destruct H as [[H | H] | [[H | H] | [H | H]]]; discriminate.
Qed.

Lemma init_without_credentials {A} (env : Tools.Env)
    (k : string * string * string -> Async A) (w : World) :
  Tools.credentials env = None ->
  try_catch (Tools.initAtlassianClient env ≫= k) Tools.handleError w
  = (Throw (UserError
       "Please set ATLASSIAN_DOMAIN, ATLASSIAN_USER, and ATLASSIAN_TOKEN in the .env file"),
     w).
Proof.
  intros Hnone. rewrite tool_run, bind_run. unfold Tools.initAtlassianClient.
  rewrite Hnone. reflexivity.
Qed.

(** X7 (tools): when one of [ATLASSIAN_DOMAIN], [ATLASSIAN_USER] and
    [ATLASSIAN_TOKEN] is unset or empty, each tool throws the
    [UserError] that asks to set them, sends no request and writes
    nothing to the console. *)
Theorem X7_no_request_without_credentials (env : Tools.Env) :
  (Tools.ATLASSIAN_DOMAIN env = None \/ Tools.ATLASSIAN_DOMAIN env = Some "")
  \/ (Tools.ATLASSIAN_USER env = None \/ Tools.ATLASSIAN_USER env = Some "")
  \/ (Tools.ATLASSIAN_TOKEN env = None \/ Tools.ATLASSIAN_TOKEN env = Some "") ->
  let refusal :=
    UserError
      "Please set ATLASSIAN_DOMAIN, ATLASSIAN_USER, and ATLASSIAN_TOKEN in the .env file" in
  (forall remote pageId limit w,
     Tools.getRelatedPages remote env pageId limit w = (Throw refusal, w))
  /\ (forall remote issueKey w,
        Tools.getRelatedIssues remote env issueKey w = (Throw refusal, w))
  /\ (forall remote sprintId startAt maxResults issueTypes w,
        ToolsExt.getSprintIssues remote env sprintId startAt maxResults issueTypes w
        = (Throw refusal, w))
  /\ (forall remote boardId issueTypes startAt maxResults w,
        ToolsExt.getActiveSprintIssues remote env boardId issueTypes startAt
          maxResults w = (Throw refusal, w)).
Proof.
  intros Hmissing%credentials_none. cbv zeta.
  split; [| split; [| split]]; intros.
  - unfold Tools.getRelatedPages. now apply init_without_credentials.
  - unfold Tools.getRelatedIssues. now apply init_without_credentials.
  - unfold ToolsExt.getSprintIssues. now apply init_without_credentials.
  - unfold ToolsExt.getActiveSprintIssues. now apply init_without_credentials.
Qed.

Lemma getSprints_run remote c boardId state startAt maxResults w :
  JiraExt.getSprints remote c boardId state startAt maxResults w
  = let req :=
      JiraExt.sprintsRequest c boardId state (default 0 startAt) (default 50 maxResults) in
    match settle (JiraExt.board_sprint remote req) with
    | Return r => (Return r, extend w [req] [])
    | Throw e => (Throw e, extend w [req] (Jira.logLines e))
    end.
Proof.
  unfold JiraExt.getSprints. cbv zeta.
  apply single_get_run. intros; apply jira_handleError_run.
Qed.

(** The run of the [getActiveSprintIssues] tool once the client is
    there and the sprints of the board are fetched. *)
Lemma getActiveSprintIssues_run remote env d u t boardId issueTypes startAt maxResults w
    sprintsResp :
  Tools.credentials env = Some (d, u, t) ->
  let c := {| Jira.domain := d; Jira.user := u; Jira.token := t |} in
  let req := JiraExt.sprintsRequest c boardId (Some "active") 0 1 in
  settle (JiraExt.board_sprint remote req) = Return sprintsResp ->
  ToolsExt.getActiveSprintIssues remote env boardId issueTypes startAt maxResults w
  = match JiraExt.values sprintsResp with
    | Some (activeSprint :: _) =>
        match Jira.getSprintIssues (JiraExt.tracker remote) c
                (JiraExt.sprint_id activeSprint)
                (Some (ToolsExt.numberOr 0 startAt))
                (Some (ToolsExt.numberOr 50 maxResults))
                (Some (ToolsExt.issueTypesOrDefault issueTypes))
                (extend w [req] []) with
        | (Return issues, w') => (Return (ToolsExt.ActiveSprint activeSprint issues), w')
        | (Throw e, w') => (Throw (Tools.rethrown e), w')
        end
    | _ =>
        (Return (ToolsExt.NoActiveSprint "No active sprint found for this board."),
         extend w [req] [])
    end.
Proof.
  intros Henv c req Hsprints. subst req c.
  unfold ToolsExt.getActiveSprintIssues.
  rewrite tool_run, bind_run. unfold Tools.initAtlassianClient. rewrite Henv.
  cbv beta iota delta [mret async_ret].
  rewrite bind_run, getSprints_run. cbv zeta. cbn [default from_option id].
  rewrite Hsprints.
  destruct (JiraExt.values sprintsResp) as [[|activeSprint rest] |]; try reflexivity.
  rewrite bind_run.
  destruct (Jira.getSprintIssues _ _ _ _ _ _ _) as [[issues | e] w']; reflexivity.
Qed.

(** X8 ([getActiveSprintIssues] tool): when the board has no active
    sprint (the reply has no [values] or an empty array) the tool does
    not throw: it returns the object with the error text, after the one
    request for the sprints, which asks for one active sprint from
    index 0. *)
Theorem X8_no_active_sprint_is_a_result
    remote env d u t boardId issueTypes startAt maxResults w sprintsResp :
  Tools.credentials env = Some (d, u, t) ->
  let c := {| Jira.domain := d; Jira.user := u; Jira.token := t |} in
  let req := JiraExt.sprintsRequest c boardId (Some "active") 0 1 in
  settle (JiraExt.board_sprint remote req) = Return sprintsResp ->
  JiraExt.values sprintsResp = None \/ JiraExt.values sprintsResp = Some [] ->
  ToolsExt.getActiveSprintIssues remote env boardId issueTypes startAt maxResults w
  = (Return (ToolsExt.NoActiveSprint "No active sprint found for this board."),
     extend w [req] [])
  /\ params req
     = [("startAt", PNum 0); ("maxResults", PNum 1); ("state", PStr "active")].
Proof.
  intros Henv c req Hsprints Hnone. split; [| reflexivity].
  rewrite (getActiveSprintIssues_run _ _ _ _ _ _ _ _ _ _ _ Henv Hsprints).
  destruct Hnone as [-> | ->]; reflexivity.
Qed.

(** X9 ([getActiveSprintIssues] tool): with an active sprint the tool
    asks for the issues of the first sprint of the reply and always
    filters them: by the given issue types, and by Story and Bug when
    none is given or the list is empty; a start index that is absent or
    0 is sent as 0 and a maximum that is absent or 0 is sent as 50. *)
Theorem X9_active_sprint_issues_always_filtered
    remote env d u t boardId issueTypes startAt maxResults w sprintsResp
    activeSprint rest data l :
  Tools.credentials env = Some (d, u, t) ->
  let c := {| Jira.domain := d; Jira.user := u; Jira.token := t |} in
  let req := JiraExt.sprintsRequest c boardId (Some "active") 0 1 in
  let req' :=
    Jira.sprintRequest c (JiraExt.sprint_id activeSprint)
      (ToolsExt.numberOr 0 startAt) (ToolsExt.numberOr 50 maxResults) in
  settle (JiraExt.board_sprint remote req) = Return sprintsResp ->
  JiraExt.values sprintsResp = Some (activeSprint :: rest) ->
  settle (Jira.sprint_issue (JiraExt.tracker remote) req') = Return data ->
  data !! "issues" = Some (Jira.JIssues l) ->
  let types :=
    match issueTypes with
    | Some (ty :: tys) => ty :: tys
    | _ => ["Story"; "Bug"]
    end in
  ToolsExt.getActiveSprintIssues remote env boardId issueTypes startAt maxResults w
  = (Return
       (ToolsExt.ActiveSprint activeSprint
          (<["issues" := Jira.JIssues (List.filter (Jira.typeListed types) l)]> data)),
     extend w [req; req'] [])
  /\ (forall i,
        In i (List.filter (Jira.typeListed types) l) ->
        exists ty, Jira.issuetype (Jira.fields i) = Some ty /\ In (Jira.name ty) types)
  /\ params req'
     = [("startAt",
         PNum match startAt with
              | Some n => if n =? 0 then 0 else n
              | None => 0
              end);
        ("maxResults",
         PNum match maxResults with
              | Some n => if n =? 0 then 50 else n
              | None => 50
              end)].
Proof.
  intros Henv c req req' Hsprints Hvalues Hreply Hissues types.
  split; [| split; [| reflexivity]].
  - rewrite (getActiveSprintIssues_run _ _ _ _ _ _ _ _ _ _ _ Henv Hsprints), Hvalues.
    fold c.
    rewrite (getSprintIssues_run (JiraExt.tracker remote) c
               (JiraExt.sprint_id activeSprint)
               (Some (ToolsExt.numberOr 0 startAt))
               (Some (ToolsExt.numberOr 50 maxResults)) _ _ data l Hreply Hissues),
      extend_extend.
    unfold types, ToolsExt.issueTypesOrDefault.
    destruct issueTypes as [[|ty tys] |]; reflexivity.
  - intros i Hin. apply filter_In in Hin as [_ Hlisted].
    now apply typeListed_spec.
Qed.

(** * Properties of the issue extractor *)

Lemma nonempty_app_l (a b : string) : nonempty a = true -> nonempty (a +:+ b) = true.
Proof. destruct a; [discriminate | reflexivity]. Qed.

Lemma nonempty_app_r (a b : string) : nonempty b = true -> nonempty (a +:+ b) = true.
Proof. destruct a; [now rewrite app_nil_l_s | reflexivity]. Qed.

Lemma nonempty_true (s : string) : nonempty s = true <-> s <> "".
Proof. destruct s; cbn; split; congruence. Qed.

Lemma join_nonempty (sep x : string) (l : list string) :
  nonempty x = true -> nonempty (Js.join sep (x :: l)) = true.
Proof.
  intros Hx. destruct l as [|y l]; [exact Hx |].
  rewrite join_cons2. now apply nonempty_app_l.
Qed.

Lemma pushed_nonempty (text block : string) :
  (nonempty text = true -> nonempty block = true) ->
  Forall (fun b => nonempty b = true) (Extractor.pushed text block).
Proof.
  intros H. destruct text; cbn; [constructor |].
  constructor; [now apply H | constructor].
Qed.

Lemma blockOf_nonempty bullet (node : Extractor.Node) :
  Forall (fun b => nonempty b = true) (Extractor.blockOf bullet node).
Proof.
  unfold Extractor.blockOf. cbv zeta.
  repeat match goal with
         | |- context [if ?b then _ else _] => destruct b
         end;
    try (apply pushed_nonempty; intros H; solve [auto using nonempty_app_r]).
  - destruct (Extractor.node_content node) as [medias |]; [| constructor].
    apply Forall_flat_map, Forall_forall. intros media _.
    destruct (String.eqb _ _), (Extractor.node_attrs media); try constructor;
      [| constructor].
    now apply nonempty_app_l.
  - constructor.
Qed.

(** X10 ([extractADFContent]): no block of the output is empty, and the
    output is empty exactly when no top-level node yields a block, in
    particular for a document without [content]. *)
Theorem X10_adf_output_has_no_empty_block bullet (adf : Extractor.Node) :
  let blocks :=
    match Extractor.node_content adf with
    | Some content => Extractor.adfBlocks bullet content
    | None => []
    end in
  Extractor.extractADFContent bullet adf
  = Js.join (Extractor.nl +:+ Extractor.nl) blocks
  /\ Forall (fun b => nonempty b = true) blocks
  /\ (Extractor.extractADFContent bullet adf = "" <-> blocks = []).
Proof.
  cbv zeta. unfold Extractor.extractADFContent.
  destruct (Extractor.node_content adf) as [content |].
  - assert (Hall : Forall (fun b => nonempty b = true)
                     (Extractor.adfBlocks bullet content)).
    { unfold Extractor.adfBlocks. apply Forall_flat_map, Forall_forall.
      intros node _. apply blockOf_nonempty. }
    split; [reflexivity |]. split; [exact Hall |].
    destruct (Extractor.adfBlocks bullet content) as [|b bs]; [easy |].
    split; [| discriminate]. intros Hempty. exfalso.
    apply Forall_cons_1 in Hall as [Hb _].
    pose proof (join_nonempty (Extractor.nl +:+ Extractor.nl) b bs Hb) as Hne.
    rewrite Hempty in Hne. discriminate.
  - repeat split; constructor.
Qed.

(** X11 ([extractTextFromNode]): a child without text and without
    content (a hard break, a mention, an emoji, a text node whose text
    is empty) adds nothing to the text of its parent, not even a
    separating space. *)
Theorem X11_childless_nodes_leave_no_text
    type text marks attrs (before after : list Extractor.Node)
    ctype ctext cmarks cattrs :
  Extractor.truthy ctext = None ->
  Extractor.extractTextFromNode
    (Extractor.MkNode type text marks attrs
       (Some (before ++ Extractor.MkNode ctype ctext cmarks cattrs None :: after)))
  = Extractor.extractTextFromNode
      (Extractor.MkNode type text marks attrs (Some (before ++ after))).
Proof.
  intros Hno. cbn [Extractor.extractTextFromNode].
  rewrite !map_app, !List.filter_app. cbn [map]. rewrite Hno.
  destruct (String.eqb ctype "text"); reflexivity.
Qed.

Lemma X11_childless_nodes_leave_no_text_witness :
  Extractor.extractTextFromNode
    (Extractor.MkNode "paragraph" None None None
       (Some ([Extractor.MkNode "text" (Some "line one") None None None]
              ++ Extractor.MkNode "hardBreak" None None None None
              :: [Extractor.MkNode "text" (Some "line two") None None None])))
  = "line one line two".
Proof.
  rewrite (X11_childless_nodes_leave_no_text "paragraph" None None None
             [Extractor.MkNode "text" (Some "line one") None None None]
             [Extractor.MkNode "text" (Some "line two") None None None]
             "hardBreak" None None None eq_refl).
  reflexivity.
Defined.

Lemma tableLines_later (index : nat) (rows : list (list string)) :
  Extractor.tableLines (S index) rows = map Extractor.rowLine rows.
Proof.
  revert index. induction rows as [|row rows IH]; intros index; [reflexivity |].
  cbn [Extractor.tableLines map app]. now rewrite IH.
Qed.

Lemma tableRows_no_empty_row (content : list Extractor.Node) :
  Forall (fun row => row <> []) (Extractor.tableRows content).
Proof.
  unfold Extractor.tableRows. apply Forall_flat_map, Forall_forall. intros row _.
  destruct (String.eqb _ _), (Extractor.node_content row) as [cells |];
    try constructor.
  destruct (Extractor.rowCells cells); constructor; [discriminate | constructor].
Qed.

(** X12 ([extractTableContent]): a table with at least one row that has
    a cell is printed as its first row, a separator line with one
    [---] per cell of the first row, and its other rows; rows without a
    cell are left out, and a table without any such row gives the empty
    string. *)
Theorem X12_table_lines (tableNode : Extractor.Node) (content : list Extractor.Node) :
  Extractor.node_content tableNode = Some content ->
  let rows := Extractor.tableRows content in
  Forall (fun row => row <> []) rows
  /\ match rows with
     | [] => Extractor.extractTableContent tableNode = ""
     | first :: others =>
         Extractor.extractTableContent tableNode
         = Js.join Extractor.nl
             (Extractor.rowLine first
              :: Extractor.rowLine (repeat "---" (length first))
              :: map Extractor.rowLine others)
     end.
Proof.
  intros Hcontent. cbv zeta. split; [apply tableRows_no_empty_row |].
  unfold Extractor.extractTableContent. rewrite Hcontent.
  destruct (Extractor.tableRows content) as [|first others]; [reflexivity |].
  cbn [Extractor.tableLines app]. rewrite tableLines_later.
  assert (Hsep : map (fun _ : string => "---") first = repeat "---" (length first)).
  { clear. induction first as [|x first IH]; [reflexivity |].
    cbn [map length repeat]. now rewrite IH. }
  now rewrite Hsep.
Qed.

Lemma listLines_app bullet isOrdered index (l1 l2 : list Extractor.Node) :
  Extractor.listLines bullet isOrdered index (l1 ++ l2)
  = Extractor.listLines bullet isOrdered index l1
    ++ Extractor.listLines bullet isOrdered (index + length l1) l2.
Proof.
  revert index. induction l1 as [|x l1 IH]; intros index.
  - cbn. now rewrite Nat.add_0_r.
  - cbn [app Extractor.listLines length]. rewrite IH, <- List.app_assoc.
    now replace (S index + length l1)%nat with (index + S (length l1))%nat by lia.
Qed.

Lemma listLines_length bullet isOrdered index (items : list Extractor.Node) :
  (length (Extractor.listLines bullet isOrdered index items) <= length items)%nat.
Proof.
  revert index. induction items as [|x items IH]; intros index; [cbn; lia |].
  cbn [Extractor.listLines]. rewrite length_app. specialize (IH (S index)).
  destruct (String.eqb _ _), (Extractor.node_content x); cbn [length];
    try destruct (Extractor.extractTextFromNode x); cbn [length]; lia.
Qed.

(** X13 ([extractListContent]): an item of an ordered list is numbered
    by its position in the list, whether or not the items before it are
    printed; items without text are left out, so the numbers that are
    printed can have gaps. *)
Theorem X13_ordered_items_numbered_by_position
    bullet (before after : list Extractor.Node) (item : Extractor.Node) children :
  Extractor.node_type item = "listItem" ->
  Extractor.node_content item = Some children ->
  Extractor.extractTextFromNode item <> "" ->
  Extractor.listLines bullet true 0 (before ++ item :: after)
  = Extractor.listLines bullet true 0 before
    ++ [pretty (S (length before)) +:+ ". " +:+ Extractor.extractTextFromNode item]
    ++ Extractor.listLines bullet true (S (length before)) after
  /\ (length (Extractor.listLines bullet true 0 before) <= length before)%nat.
Proof.
  intros Htype Hcontent Htext. split; [| apply listLines_length].
  rewrite listLines_app. cbn [Extractor.listLines Nat.add]. f_equal.
  rewrite Htype, Hcontent, String.eqb_refl.
  replace (length before + 1)%nat with (S (length before)) by lia.
  destruct (Extractor.extractTextFromNode item); [contradiction |].
  now rewrite app_assoc_s.
Qed.

Lemma quoteLines_after_newline (q a b : string) :
  Extractor.quoteLines q = a +:+ String "010"%char b ->
  exists b', b = "> " +:+ b'.
Proof.
  revert a. induction q as [|c r IH]; intros a Heq.
  - destruct a; discriminate.
  - cbn [Extractor.quoteLines] in Heq. destruct (Ascii.eqb c "010") eqn:Hc.
    + change (Extractor.nl +:+ "> " +:+ Extractor.quoteLines r)
        with (String "010"%char (String ">"%char (String " "%char
                (Extractor.quoteLines r)))) in Heq.
      destruct a as [|x [|y [|z a]]]; rewrite ?app_cons_s, ?app_nil_l_s in Heq.
      * injection Heq as <-. eexists. reflexivity.
      * discriminate.
      * discriminate.
      * injection Heq as _ _ _ Heq. now apply (IH a).
    + destruct a as [|x a]; rewrite ?app_cons_s, ?app_nil_l_s in Heq.
      * injection Heq as -> _. discriminate.
      * injection Heq as _ Heq. now apply (IH a).
Qed.

(** X14 (blockquote in [extractADFContent]): a quotation with text
    yields one block, which starts with ["> "] and in which every line
    feed is followed by ["> "], so that every line of the quotation is
    marked. *)
Theorem X14_every_quoted_line_is_marked bullet (node : Extractor.Node) block :
  Extractor.node_type node = "blockquote" ->
  In block (Extractor.blockOf bullet node) ->
  Extractor.blockOf bullet node = [block]
  /\ block = "> " +:+ Extractor.quoteLines (Extractor.extractTextFromNode node)
  /\ forall a b, block = a +:+ Extractor.nl +:+ b -> exists b', b = "> " +:+ b'.
Proof.
  intros Htype. unfold Extractor.blockOf. cbv zeta. rewrite Htype.
  change (String.eqb "blockquote" "paragraph") with false.
  change (String.eqb "blockquote" "heading") with false.
  change (String.eqb "blockquote" "bulletList") with false.
  change (String.eqb "blockquote" "orderedList") with false.
  change (String.eqb "blockquote" "panel") with false.
  change (String.eqb "blockquote" "codeBlock") with false.
  change (String.eqb "blockquote" "table") with false.
  change (String.eqb "blockquote" "blockquote") with true.
  cbv iota. cbn [orb].
  destruct (Extractor.extractTextFromNode node) as [|ch q] eqn:Htext;
    cbn [Extractor.pushed]; [intros [] |].
  intros [<- | []]. split; [reflexivity |]. split; [reflexivity |].
  intros a b Heq.
  change (Extractor.nl +:+ b) with (String "010"%char b) in Heq.
  change ("> " +:+ Extractor.quoteLines (String ch q))
    with (String ">"%char (String " "%char (Extractor.quoteLines (String ch q))))
    in Heq.
  destruct a as [|x [|y a]]; rewrite ?app_cons_s, ?app_nil_l_s in Heq;
    try discriminate.
  injection Heq as _ _ Heq.
  apply (quoteLines_after_newline (String ch q) a b). exact Heq.
Qed.

Lemma X14_every_quoted_line_is_marked_witness :
  Extractor.blockOf "- " DemoExt.quotation
  = ["> first" +:+ Extractor.nl +:+ "> second"].
Proof.
  destruct (X14_every_quoted_line_is_marked "- " DemoExt.quotation
              ("> first" +:+ Extractor.nl +:+ "> second") eq_refl
              (or_introl eq_refl)) as [Hblock _].
  exact Hblock.
Defined.

Lemma join_head (sep x : string) (l : list string) :
  exists tail, Js.join sep (x :: l) = x +:+ tail /\ (l = [] -> tail = "").
Proof.
  destruct l as [|y l].
  - exists "". split; [now rewrite app_nil_r_s | reflexivity].
  - exists (sep +:+ Js.join sep (y :: l)). split; [apply join_cons2 | discriminate].
Qed.

(** X15 ([extractIssueDetails]): without an issue or without its fields
    the result is "No issue data available"; otherwise the result
    starts with the six lines for key, summary, status, type, assignee
    and reporter, where a missing or empty value is printed as "No
    summary", "Unknown" or "Unassigned", and nothing follows them when
    the issue has no description and no custom field. *)
Theorem X15_issue_details_start_with_six_lines bullet :
  Extractor.extractIssueDetails bullet None = "No issue data available"
  /\ (forall key,
        Extractor.extractIssueDetails bullet
          (Some {| Extractor.key := key; Extractor.fields := None |})
        = "No issue data available")
  /\ (forall key f,
        exists tail,
          Extractor.extractIssueDetails bullet
            (Some {| Extractor.key := key; Extractor.fields := Some f |})
          = "Issue Key: " +:+ key +:+ Extractor.nl
            +:+ "Summary: "
            +:+ default "No summary" (Extractor.truthy (Extractor.summary f))
            +:+ Extractor.nl
            +:+ "Status: "
            +:+ default "Unknown" (Extractor.truthy (Extractor.status f))
            +:+ Extractor.nl
            +:+ "Type: "
            +:+ default "Unknown" (Extractor.truthy (Extractor.issuetype f))
            +:+ Extractor.nl
            +:+ "Assignee: "
            +:+ default "Unassigned" (Extractor.truthy (Extractor.assignee f))
            +:+ Extractor.nl
            +:+ "Reporter: "
            +:+ default "Unknown" (Extractor.truthy (Extractor.reporter f))
            +:+ tail
          /\ (Extractor.description f = None ->
              Extractor.customFields f = [] -> tail = "")).
Proof.
  split; [reflexivity |]. split; [reflexivity |].
  intros key f. cbn [Extractor.extractIssueDetails].
  unfold Extractor.detailLines. cbn [app].
  rewrite !join_cons2.
  match goal with
  | |- context [Js.join ?sep (?x :: ?l)] =>
      destruct (join_head sep x l) as (tail & Hjoin & Hnil)
  end.
  exists tail. split.
  - rewrite Hjoin, !app_assoc_s. reflexivity.
  - intros Hdesc Hcustom. apply Hnil. now rewrite Hdesc, Hcustom.
Qed.

Lemma customFields_idempotent (f : Extractor.Fields) :
  Extractor.customFields
    {| Extractor.summary := Extractor.summary f;
       Extractor.status := Extractor.status f;
       Extractor.issuetype := Extractor.issuetype f;
       Extractor.assignee := Extractor.assignee f;
       Extractor.reporter := Extractor.reporter f;
       Extractor.description := Extractor.description f;
       Extractor.others := Extractor.customFields f |}
  = Extractor.customFields f.
Proof.
  unfold Extractor.customFields. cbn [Extractor.others].
  induction (Extractor.others f) as [|kv l IH]; [reflexivity |].
  cbn [List.filter]. destruct (String.prefix _ _) eqn:Hp; [| exact IH].
  cbn [List.filter]. now rewrite Hp, IH.
Qed.

Lemma null_fields_print_nothing bullet (l : list (string * Extractor.FieldValue)) :
  Forall (fun kv => snd kv = Extractor.FNull) l ->
  flat_map (fun kv => Extractor.customFieldLines bullet (fst kv) (snd kv)) l = [].
Proof.
  induction 1 as [|kv l Hkv _ IH]; [reflexivity |].
  cbn [flat_map]. now rewrite Hkv, IH.
Qed.

(** X16 ([extractIssueDetails]): of the members of [fields] that are
    not read by name, only those whose key starts with [customfield_]
    reach the output; a custom field whose value is [null] prints
    nothing, and when all of them are [null] the heading "Custom
    Fields:" is still printed, as the last line. *)
Theorem X16_only_custom_fields_are_printed bullet key (f : Extractor.Fields) :
  Extractor.detailLines bullet key f
  = Extractor.detailLines bullet key
      {| Extractor.summary := Extractor.summary f;
         Extractor.status := Extractor.status f;
         Extractor.issuetype := Extractor.issuetype f;
         Extractor.assignee := Extractor.assignee f;
         Extractor.reporter := Extractor.reporter f;
         Extractor.description := Extractor.description f;
         Extractor.others := Extractor.customFields f |}
  /\ (Extractor.customFields f <> [] ->
      Forall (fun kv => snd kv = Extractor.FNull) (Extractor.customFields f) ->
      exists lines,
        Extractor.detailLines bullet key f = lines ++ [""; "Custom Fields:"]).
Proof.
  split.
  - unfold Extractor.detailLines. rewrite customFields_idempotent. reflexivity.
  - intros Hsome Hnull. unfold Extractor.detailLines.
    destruct (Extractor.customFields f) as [|cf cfs]; [contradiction |].
    rewrite (null_fields_print_nothing bullet _ Hnull), app_nil_r.
    eexists. rewrite List.app_assoc. reflexivity.
Qed.

Lemma X16_only_custom_fields_are_printed_witness :
  exists lines,
    Extractor.detailLines "- " "TEST-123"
      {| Extractor.summary := Some "Test Issue";
         Extractor.status := Some "Open";
         Extractor.issuetype := Some "Story";
         Extractor.assignee := Some "Test User";
         Extractor.reporter := Some "Test Reporter";
         Extractor.description := None;
         Extractor.others :=
           [("priority",
             Extractor.FObject (Extractor.MkNode "" None None None None)
               (Some "High") None None);
            ("customfield_10010", Extractor.FNull)] |}
    = lines ++ [""; "Custom Fields:"].
Proof.
  apply (proj2 (X16_only_custom_fields_are_printed "- " "TEST-123" _)).
  - discriminate.
  - repeat constructor.
Defined.

(** The attachment without a link cannot be downloaded. *)
Lemma X2_download_without_link_witness :
  ConfluenceExt.downloadAttachment DemoExt.wiki Demo.wikiClient "att2" start_world
  = (Throw (PlainError "Download link not available"),
     extend start_world [ConfluenceExt.attachmentRequest Demo.wikiClient "att2"]
       ["An unexpected error occurred: Download link not available"]).
Proof.
  apply (X2_download_without_link DemoExt.wiki Demo.wikiClient "att2" start_world
           DemoExt.unlinked).
  - reflexivity.
  - right. reflexivity.
Defined.

(** The report is downloaded from its link. *)
Lemma X3_download_follows_link_witness :
  ConfluenceExt.downloadAttachment DemoExt.wiki Demo.wikiClient "att1" start_world
  = (Return
       {| ConfluenceExt.downloaded_data := "%PDF-1.7";
          ConfluenceExt.downloaded_contentType := Some "application/pdf";
          ConfluenceExt.downloaded_filename := "report.pdf" |},
     extend start_world
       [ConfluenceExt.attachmentRequest Demo.wikiClient "att1";
        ConfluenceExt.downloadRequest Demo.wikiClient
          "/download/attachments/123/report.pdf"] []).
Proof.
  apply (proj1 (X3_download_follows_link DemoExt.wiki Demo.wikiClient "att1"
                  start_world)
           DemoExt.report "/"%char "download/attachments/123/report.pdf"
           {| ConfluenceExt.data := "%PDF-1.7";
              ConfluenceExt.contentType := Some "application/pdf" |});
    reflexivity.
Defined.

(** A missing issue is logged twice by the issue variant. *)
Lemma X4_failures_logged_once_per_catch_witness :
  console (snd (Jira.getRelatedIssues Demo.tracker Demo.jiraClient "PROJ-404"
                  start_world))
  = console start_world
    ++ Jira.logLines (HttpError 404 "Not Found")
    ++ Jira.logLines (HttpError 404 "Not Found").
Proof.
  apply (proj1 (proj2 X4_failures_logged_once_per_catch)
           Demo.tracker Demo.jiraClient "PROJ-404" start_world
           (HttpError 404 "Not Found")).
  reflexivity.
Defined.

(** A sprint reply without issues cannot be filtered. *)
Lemma X5_sprint_reply_without_issue_array_witness :
  exists message,
    Jira.getSprintIssues DemoExt.trackerWithoutIssues Demo.jiraClient 7 None None
      (Some ["Bug"]) start_world
    = (Throw (PlainError message),
       extend start_world [Jira.sprintRequest Demo.jiraClient 7 0 50]
         ["An unexpected error occurred: " +:+ message]).
Proof.
  apply (proj1 (X5_sprint_reply_without_issue_array DemoExt.trackerWithoutIssues
                  Demo.jiraClient 7 None None start_world
                  (<["total" := Jira.JNum 0]> ∅) eq_refl
                  ltac:(intros l; discriminate))).
Defined.

(** The 404 of a missing issue leaves the tool as a [UserError]. *)
Lemma X6_tools_throw_user_errors_only_witness :
  exists message,
    UserError
      "Not Found Error: The requested Confluence resource could not be found. Please check the provided ID or parameters."
    = UserError message.
Proof.
  apply (proj1 (proj2 X6_tools_throw_user_errors_only)
           Demo.tracker Demo.env "PROJ-404" start_world).
  reflexivity.
Defined.

(** Without a token the tools refuse before any request. *)
Lemma X7_no_request_without_credentials_witness :
  Tools.getRelatedIssues Demo.tracker DemoExt.envWithoutToken "PROJ-1" start_world
  = (Throw (UserError
       "Please set ATLASSIAN_DOMAIN, ATLASSIAN_USER, and ATLASSIAN_TOKEN in the .env file"),
     start_world).
Proof.
  apply (proj1 (proj2 (X7_no_request_without_credentials DemoExt.envWithoutToken
                         (or_intror (or_intror (or_intror eq_refl)))))).
Defined.

(** Board 2 has no active sprint. *)
Lemma X8_no_active_sprint_is_a_result_witness :
  ToolsExt.getActiveSprintIssues DemoExt.tracker Demo.env 2 None None None start_world
  = (Return (ToolsExt.NoActiveSprint "No active sprint found for this board."),
     extend start_world
       [JiraExt.sprintsRequest Demo.jiraClient 2 (Some "active") 0 1] []).
Proof.
  apply (X8_no_active_sprint_is_a_result DemoExt.tracker Demo.env
           "example.atlassian.net" "dev@example.com" "t0k3n" 2 None None None
           start_world
           {| JiraExt.values := Some []; JiraExt.sprints_total := 0 |}).
  - reflexivity.
  - reflexivity.
  - right. reflexivity.
Defined.

(** The active sprint of board 1, filtered by Story and Bug. *)
Lemma X9_active_sprint_issues_always_filtered_witness :
  ToolsExt.getActiveSprintIssues DemoExt.tracker Demo.env 1 (Some []) None (Some 0)
    start_world
  = (Return
       (ToolsExt.ActiveSprint DemoExt.sprint7
          (<["issues" :=
               Jira.JIssues
                 (List.filter (Jira.typeListed ["Story"; "Bug"])
                    [Demo.loginIssue; Demo.mkIssue "PROJ-2" "Signup form" [] "Story";
                     Demo.untypedIssue;
                     Demo.mkIssue "PROJ-3" "Logout link" [] "Bug"])]>
             Demo.sprintBody)),
     extend start_world
       [JiraExt.sprintsRequest Demo.jiraClient 1 (Some "active") 0 1;
        Jira.sprintRequest Demo.jiraClient 7 0 50] []).
Proof.
  apply (X9_active_sprint_issues_always_filtered DemoExt.tracker Demo.env
           "example.atlassian.net" "dev@example.com" "t0k3n" 1 (Some []) None (Some 0)
           start_world
           {| JiraExt.values := Some [DemoExt.sprint7]; JiraExt.sprints_total := 1 |}
           DemoExt.sprint7 [] Demo.sprintBody
           [Demo.loginIssue; Demo.mkIssue "PROJ-2" "Signup form" [] "Story";
            Demo.untypedIssue; Demo.mkIssue "PROJ-3" "Logout link" [] "Bug"]);
    reflexivity.
Defined.

(** The demo table: its empty row is left out. *)
Lemma X12_table_lines_witness :
  Extractor.extractTableContent DemoExt.table
  = Js.join Extractor.nl ["| Name | Role |"; "| --- | --- |"; "| Ada |  |"].
Proof.
  destruct (X12_table_lines DemoExt.table
              [DemoExt.block "tableRow"
                 [DemoExt.block "tableHeader"
                    [DemoExt.block "paragraph" [DemoExt.textNode "Name"]];
                  DemoExt.block "tableHeader"
                    [DemoExt.block "paragraph" [DemoExt.textNode "Role"]]];
               DemoExt.block "tableRow" [];
               DemoExt.block "tableRow"
                 [DemoExt.block "tableCell"
                    [DemoExt.block "paragraph" [DemoExt.textNode "Ada"]];
                  DemoExt.block "tableCell" []]] eq_refl) as [_ Hlines].
  exact Hlines.
Defined.

(** The third step keeps the number 3 though the second is left out. *)
Lemma X13_ordered_items_numbered_by_position_witness :
  Extractor.listLines "- " true 0 DemoExt.steps = ["1. build"; "3. deploy"].
Proof.
  destruct (X13_ordered_items_numbered_by_position "- "
              [DemoExt.block "listItem"
                 [DemoExt.block "paragraph" [DemoExt.textNode "build"]];
               DemoExt.block "listItem" []]
              []
              (DemoExt.block "listItem"
                 [DemoExt.block "paragraph" [DemoExt.textNode "deploy"]])
              [DemoExt.block "paragraph" [DemoExt.textNode "deploy"]]
              eq_refl eq_refl ltac:(discriminate)) as [Hlines _].
  exact Hlines.
Defined.

(** The issue of the test without description and custom field. *)
Lemma X15_issue_details_start_with_six_lines_witness :
  exists tail,
    Extractor.extractIssueDetails "- "
      (Some {| Extractor.key := "TEST-1";
               Extractor.fields :=
                 Some {| Extractor.summary := Some "";
                         Extractor.status := None;
                         Extractor.issuetype := Some "Story";
                         Extractor.assignee := None;
                         Extractor.reporter := None;
                         Extractor.description := None;
                         Extractor.others := [] |} |})
    = "Issue Key: TEST-1" +:+ Extractor.nl +:+ "Summary: No summary" +:+ Extractor.nl
      +:+ "Status: Unknown" +:+ Extractor.nl +:+ "Type: Story" +:+ Extractor.nl
      +:+ "Assignee: Unassigned" +:+ Extractor.nl +:+ "Reporter: Unknown" +:+ tail
    /\ tail = "".
Proof.
  destruct (proj2 (proj2 (X15_issue_details_start_with_six_lines "- ")) "TEST-1"
              {| Extractor.summary := Some "";
                 Extractor.status := None;
                 Extractor.issuetype := Some "Story";
                 Extractor.assignee := None;
                 Extractor.reporter := None;
                 Extractor.description := None;
                 Extractor.others := [] |}) as (tail & Hout & Htail).
  exists tail. split; [exact Hout | now apply Htail].
Defined.

Lemma tokens_go_separator (cur : option string) (s1 s2 : string) (c : ascii) :
  Js.is_space c = true ->
  KeywordSpec.tokens_go cur (s1 +:+ String c s2)
  = KeywordSpec.tokens_go cur s1 ++ KeywordSpec.tokens_go None s2.
Proof.
  intros Hc. revert cur. induction s1 as [|d r IH]; intros cur.
  - rewrite app_nil_l_s. cbn [KeywordSpec.tokens_go]. now rewrite Hc.
  - rewrite app_cons_s. cbn [KeywordSpec.tokens_go].
    destruct (Js.is_space d).
    + now rewrite IH, List.app_assoc.
    + apply IH.
Qed.

(** X19 (keyword extractor): the keywords of two texts joined by a
    white space character are the keywords of the first followed by the
    keywords of the second; white space at the joint never creates or
    merges keywords. *)
Theorem X19_keywords_of_joined_texts (s1 s2 : string) (c : ascii) :
  Js.is_space c = true ->
  extractKeywords (s1 +:+ String c s2) = extractKeywords s1 ++ extractKeywords s2.
Proof.
  intros Hc. rewrite !extractKeywords_spec.
  unfold KeywordSpec.keywords, KeywordSpec.tokens, KeywordSpec.discard_short.
  now rewrite (tokens_go_separator None s1 s2 c Hc), List.filter_app, List.map_app.
Qed.

Lemma X19_keywords_of_joined_texts_witness :
  extractKeywords ("Oncall tips " +:+ String " "%char "for on-call engineers")
  = extractKeywords "Oncall tips " ++ extractKeywords "for on-call engineers".
Proof.
  apply (X19_keywords_of_joined_texts "Oncall tips " "for on-call engineers" " "%char).
  reflexivity.
Defined.

(** * Reading back the queries *)

(** ** The tokens of a printed tree *)

Lemma lex_idle (c : ascii) (r : string) :
  QuerySyntax.lex QuerySyntax.Idle (String c r)
  = match QuerySyntax.classify c with
    | QuerySyntax.CSpace => QuerySyntax.lex QuerySyntax.Idle r
    | QuerySyntax.CLParen =>
        cons QuerySyntax.TLParen <$> QuerySyntax.lex QuerySyntax.Idle r
    | QuerySyntax.CRParen =>
        cons QuerySyntax.TRParen <$> QuerySyntax.lex QuerySyntax.Idle r
    | QuerySyntax.CQuote => QuerySyntax.lex (QuerySyntax.InQuote "") r
    | QuerySyntax.CEq =>
        cons (QuerySyntax.TOp Query.OpEq) <$> QuerySyntax.lex QuerySyntax.Idle r
    | QuerySyntax.CTilde =>
        cons (QuerySyntax.TOp Query.OpContains) <$> QuerySyntax.lex QuerySyntax.Idle r
    | QuerySyntax.CBang => QuerySyntax.lex QuerySyntax.AfterBang r
    | QuerySyntax.CWord => QuerySyntax.lex (QuerySyntax.InWord (String c "")) r
    end.
Proof. reflexivity. Qed.

Lemma lex_word_end (acc : string) (c : ascii) (r : string) :
  QuerySyntax.classify c <> QuerySyntax.CWord ->
  QuerySyntax.lex (QuerySyntax.InWord acc) (String c r)
  = cons (QuerySyntax.wordToken acc)
      <$> QuerySyntax.lex QuerySyntax.Idle (String c r).
Proof.
  intros Hc. rewrite lex_idle. cbn [QuerySyntax.lex].
  destruct (QuerySyntax.classify c); try reflexivity. contradiction.
Qed.

Lemma lex_word (w : string) :
  forall acc rest tr,
    QuerySyntax.all_plain w = true ->
    QuerySyntax.delimited rest = true ->
    QuerySyntax.lex QuerySyntax.Idle rest = Some tr ->
    QuerySyntax.lex (QuerySyntax.InWord acc) (w +:+ rest)
    = Some (QuerySyntax.wordToken (acc +:+ w) :: tr).
Proof.
  induction w as [|c w IH]; intros acc rest tr Hw Hrest Htr.
  - rewrite app_nil_l_s, app_nil_r_s. destruct rest as [|c r].
    + cbn in Htr. injection Htr as <-. reflexivity.
    + rewrite lex_word_end, Htr; [reflexivity |].
      cbn [QuerySyntax.delimited] in Hrest. intros Hc. now rewrite Hc in Hrest.
  - cbn [QuerySyntax.all_plain] in Hw. rewrite app_cons_s. cbn [QuerySyntax.lex].
    destruct (QuerySyntax.classify c); try discriminate.
    rewrite (IH _ rest tr Hw Hrest Htr). now rewrite app_assoc_s.
Qed.

Lemma lex_bare (w rest : string) (tr : list QuerySyntax.Token) :
  QuerySyntax.bare w = true ->
  QuerySyntax.delimited rest = true ->
  QuerySyntax.lex QuerySyntax.Idle rest = Some tr ->
  QuerySyntax.lex QuerySyntax.Idle (w +:+ rest) = Some (QuerySyntax.TWord w :: tr).
Proof.
  intros Hw Hrest Htr. destruct w as [|c w]; [discriminate |].
  unfold QuerySyntax.bare in Hw.
  apply andb_true_iff in Hw as [[Hplain Hand]%andb_true_iff Hor].
  assert (Hc : QuerySyntax.classify c = QuerySyntax.CWord).
  { cbn [QuerySyntax.all_plain] in Hplain.
    destruct (QuerySyntax.classify c); try discriminate. reflexivity. }
  assert (Hw : QuerySyntax.all_plain w = true).
  { cbn [QuerySyntax.all_plain] in Hplain. now rewrite Hc in Hplain. }
  rewrite app_cons_s, lex_idle, Hc, (lex_word w _ rest tr Hw Hrest Htr).
  rewrite app_cons_s, app_nil_l_s. unfold QuerySyntax.wordToken.
  apply negb_true_iff in Hand, Hor. now rewrite Hand, Hor.
Qed.

Lemma classify_quote (c : ascii) :
  QuerySyntax.classify c = QuerySyntax.CQuote -> Ascii.eqb c "034" = true.
Proof.
  unfold QuerySyntax.classify.
  destruct (Js.is_space c); [discriminate |].
  destruct (Ascii.eqb c "("); [discriminate |].
  destruct (Ascii.eqb c ")"); [discriminate |].
  destruct (Ascii.eqb c "034"); [reflexivity |].
  destruct (Ascii.eqb c "="); [discriminate |].
  destruct (Ascii.eqb c "~"); [discriminate |].
  destruct (Ascii.eqb c "!"); discriminate.
Qed.

Lemma lex_quoted (v : string) :
  forall acc rest tr,
    QuerySyntax.quotable v = true ->
    QuerySyntax.lex QuerySyntax.Idle rest = Some tr ->
    QuerySyntax.lex (QuerySyntax.InQuote acc) (v +:+ String "034" rest)
    = Some (QuerySyntax.TQuoted (acc +:+ v) :: tr).
Proof.
  induction v as [|c v IH]; intros acc rest tr Hv Htr.
  - rewrite app_nil_l_s, app_nil_r_s.
    change (QuerySyntax.lex (QuerySyntax.InQuote acc) (String "034" rest))
      with (cons (QuerySyntax.TQuoted acc) <$> QuerySyntax.lex QuerySyntax.Idle rest).
    now rewrite Htr.
  - cbn [QuerySyntax.quotable] in Hv.
    apply andb_true_iff in Hv as [[Hq Hb]%andb_true_iff Hv].
    apply negb_true_iff in Hq, Hb.
    rewrite app_cons_s. cbn [QuerySyntax.lex]. rewrite Hb.
    destruct (QuerySyntax.classify c) eqn:Hc;
      try (rewrite (IH _ rest tr Hv Htr); now rewrite app_assoc_s).
    apply classify_quote in Hc. congruence.
Qed.

Lemma lex_quote (v rest : string) (tr : list QuerySyntax.Token) :
  QuerySyntax.quotable v = true ->
  QuerySyntax.lex QuerySyntax.Idle rest = Some tr ->
  QuerySyntax.lex QuerySyntax.Idle (Js.quote v +:+ rest)
  = Some (QuerySyntax.TQuoted v :: tr).
Proof.
  intros Hv Htr. unfold Js.quote, Js.dquote.
  rewrite !app_assoc_s, !app_cons_s, !app_nil_l_s.
  change (QuerySyntax.lex QuerySyntax.Idle (String "034" ?s))
    with (QuerySyntax.lex (QuerySyntax.InQuote "") s).
  now rewrite (lex_quoted v "" rest tr Hv Htr).
Qed.

Lemma lex_op (o : Query.Op) (rest : string) :
  QuerySyntax.lex QuerySyntax.Idle (Query.print_op o +:+ rest)
  = cons (QuerySyntax.TOp o) <$> QuerySyntax.lex QuerySyntax.Idle rest.
Proof. destruct o; reflexivity. Qed.

Lemma lex_and (rest : string) :
  QuerySyntax.lex QuerySyntax.Idle (" AND " +:+ rest)
  = cons QuerySyntax.TAnd <$> QuerySyntax.lex QuerySyntax.Idle rest.
Proof. reflexivity. Qed.

Lemma lex_or (rest : string) :
  QuerySyntax.lex QuerySyntax.Idle (" OR " +:+ rest)
  = cons QuerySyntax.TOr <$> QuerySyntax.lex QuerySyntax.Idle rest.
Proof. reflexivity. Qed.

Lemma lex_atom (a : Query.Atom) (rest : string) (tr : list QuerySyntax.Token) :
  QuerySyntax.cleanAtom a = true ->
  QuerySyntax.delimited rest = true ->
  QuerySyntax.lex QuerySyntax.Idle rest = Some tr ->
  QuerySyntax.lex QuerySyntax.Idle (Query.print_atom a +:+ rest)
  = Some (QuerySyntax.atomTokens a ++ tr).
Proof.
  intros [Hf Hv]%andb_true_iff Hrest Htr.
  unfold Query.print_atom, QuerySyntax.atomTokens. rewrite !app_assoc_s.
  apply lex_bare; [exact Hf | now destruct (Query.op a) |].
  rewrite lex_op. destruct (Query.quoted a).
  - now rewrite (lex_quote _ rest tr Hv Htr).
  - now rewrite (lex_bare _ rest tr Hv Hrest Htr).
Qed.

Lemma lex_print (e : Query.Expr) :
  forall rest tr,
    QuerySyntax.clean e = true ->
    QuerySyntax.delimited rest = true ->
    QuerySyntax.lex QuerySyntax.Idle rest = Some tr ->
    QuerySyntax.lex QuerySyntax.Idle (Query.print e +:+ rest)
    = Some (QuerySyntax.tokensOf e ++ tr).
Proof.
  induction e as [a | l IHl r IHr | l IHl r IHr | e IH]; intros rest tr He Hrest Htr;
    cbn [Query.print QuerySyntax.tokensOf QuerySyntax.clean] in *.
  - now apply lex_atom.
  - apply andb_true_iff in He as [Hl Hr]. rewrite !app_assoc_s, <- List.app_assoc.
    apply IHl; [exact Hl | reflexivity |].
    now rewrite lex_and, (IHr rest tr Hr Hrest Htr).
  - apply andb_true_iff in He as [Hl Hr]. rewrite !app_assoc_s, <- List.app_assoc.
    apply IHl; [exact Hl | reflexivity |].
    now rewrite lex_or, (IHr rest tr Hr Hrest Htr).
  - rewrite !app_assoc_s, app_cons_s, app_nil_l_s.
    change (QuerySyntax.lex QuerySyntax.Idle (String "(" ?s))
      with (cons QuerySyntax.TLParen <$> QuerySyntax.lex QuerySyntax.Idle s).
    rewrite (IH (")" +:+ rest) (QuerySyntax.TRParen :: tr) He eq_refl).
    + cbn [fmap option_fmap option_map].
      now rewrite <- List.app_comm_cons, <- List.app_assoc.
    + change (QuerySyntax.lex QuerySyntax.Idle (")" +:+ rest))
        with (cons QuerySyntax.TRParen <$> QuerySyntax.lex QuerySyntax.Idle rest).
      now rewrite Htr.
Qed.

(** ** The tree of a sequence of tokens *)

Lemma tokens_length_ops (e : Query.Expr) :
  (QuerySyntax.ops e <= length (QuerySyntax.tokensOf e))%nat.
Proof.
  induction e as [a | l IHl r IHr | l IHl r IHr | e IH];
    cbn [QuerySyntax.ops QuerySyntax.tokensOf]; rewrite ?length_app; cbn [length]; lia.
Qed.

Lemma tokens_length_depth (e : Query.Expr) :
  (QuerySyntax.depth e <= length (QuerySyntax.tokensOf e))%nat.
Proof.
  induction e as [a | l IHl r IHr | l IHl r IHr | e IH];
    cbn [QuerySyntax.depth QuerySyntax.tokensOf length]; rewrite ?length_app;
    cbn [length]; try apply Nat.max_lub; lia.
Qed.

Lemma ands_le_ops (e : Query.Expr) : (QuerySyntax.ands e <= QuerySyntax.ops e)%nat.
Proof.
  induction e as [a | l IHl r IHr | l IHl r IHr | e IH];
    cbn [QuerySyntax.ands QuerySyntax.ops]; lia.
Qed.

Lemma ors_le_ops (e : Query.Expr) : (QuerySyntax.ors e <= QuerySyntax.ops e)%nat.
Proof.
  induction e as [a | l IHl r IHr | l IHl r IHr | e IH];
    cbn [QuerySyntax.ors QuerySyntax.ops]; lia.
Qed.

Section Loops.

Variable prim : list QuerySyntax.Token -> option (Query.Expr * list QuerySyntax.Token).

Lemma and_loop_stop (k : nat) (acc : Query.Expr) (ts : list QuerySyntax.Token) :
  QuerySyntax.startsWithAnd ts = false ->
  QuerySyntax.and_loop prim k acc ts = Some (acc, ts).
Proof. destruct ts as [|[] ts], k; cbn; congruence. Qed.

Lemma or_loop_stop (k : nat) (acc : Query.Expr) (ts : list QuerySyntax.Token) :
  QuerySyntax.startsWithOr ts = false ->
  QuerySyntax.or_loop prim k acc ts = Some (acc, ts).
Proof. destruct ts as [|[] ts], k; cbn; congruence. Qed.

Lemma chain_of_primary (e : Query.Expr) (k : nat) (ts rest : list QuerySyntax.Token) :
  prim ts = Some (e, rest) ->
  QuerySyntax.and_chain prim k ts = QuerySyntax.and_loop prim k e rest.
Proof. intros H. unfold QuerySyntax.and_chain. now rewrite H. Qed.

Lemma expr_of_chain (e : Query.Expr) (k j : nat) (ts rest : list QuerySyntax.Token) :
  QuerySyntax.and_chain prim k ts = QuerySyntax.and_loop prim j e rest ->
  QuerySyntax.startsWithAnd rest = false ->
  QuerySyntax.expr prim k ts = QuerySyntax.or_loop prim k e rest.
Proof.
  intros H Hrest. unfold QuerySyntax.expr. now rewrite H, and_loop_stop.
Qed.

End Loops.

(** The three parsers on the tokens of a tree that reads plainly:
    [primary] returns an atom or a parenthesis, [and_chain] goes on
    after a chain of [AND]s as [and_loop] does, [expr] goes on after a
    whole tree as [or_loop] does. *)
Lemma parse_tokens (e : Query.Expr) :
  Query.plain_reading e = true ->
  forall n, (QuerySyntax.depth e <= n)%nat ->
    (Query.is_primary e = true ->
     forall rest,
       QuerySyntax.primary n (QuerySyntax.tokensOf e ++ rest) = Some (e, rest))
    /\ (Query.is_or e = false ->
        forall k rest, (QuerySyntax.ands e <= k)%nat ->
          QuerySyntax.and_chain (QuerySyntax.primary n) k
            (QuerySyntax.tokensOf e ++ rest)
          = QuerySyntax.and_loop (QuerySyntax.primary n)
              (k - QuerySyntax.ands e) e rest)
    /\ (forall k rest, (QuerySyntax.ops e <= k)%nat ->
          QuerySyntax.startsWithAnd rest = false ->
          QuerySyntax.expr (QuerySyntax.primary n) k
            (QuerySyntax.tokensOf e ++ rest)
          = QuerySyntax.or_loop (QuerySyntax.primary n)
              (k - QuerySyntax.ors e) e rest).
Proof.
  induction e as [a | l IHl r IHr | l IHl r IHr | e IH]; intros Hplain n Hn;
    cbn [Query.plain_reading QuerySyntax.depth] in Hplain, Hn.
  - assert (Hprim : forall rest,
              QuerySyntax.primary n (QuerySyntax.tokensOf (Query.EAtom a) ++ rest)
              = Some (Query.EAtom a, rest)).
    { intros rest. destruct a as [f o v q], q, n; reflexivity. }
    split; [intros _; exact Hprim |].
    assert (Hchain : forall k rest,
              QuerySyntax.and_chain (QuerySyntax.primary n) k
                (QuerySyntax.tokensOf (Query.EAtom a) ++ rest)
              = QuerySyntax.and_loop (QuerySyntax.primary n) k (Query.EAtom a) rest).
    { intros k rest. now apply chain_of_primary. }
    split.
    + intros _ k rest _. cbn [QuerySyntax.ands]. now rewrite Nat.sub_0_r.
    + intros k rest _ Hrest. cbn [QuerySyntax.ors]. rewrite Nat.sub_0_r.
      now apply (expr_of_chain _ _ k k).
  - apply andb_true_iff in Hplain as [[[Hl Hnor]%andb_true_iff Hpr]%andb_true_iff Hr].
    apply negb_true_iff in Hnor.
    destruct (IHl Hl n ltac:(lia)) as (_ & Al & _).
    destruct (IHr Hr n ltac:(lia)) as (Pr & _ & _).
    assert (Hchain : forall k rest, (QuerySyntax.ands (Query.EAnd l r) <= k)%nat ->
              QuerySyntax.and_chain (QuerySyntax.primary n) k
                (QuerySyntax.tokensOf (Query.EAnd l r) ++ rest)
              = QuerySyntax.and_loop (QuerySyntax.primary n)
                  (k - QuerySyntax.ands (Query.EAnd l r)) (Query.EAnd l r) rest).
    { intros k rest Hk. cbn [QuerySyntax.ands QuerySyntax.tokensOf] in *.
      rewrite <- List.app_assoc, <- List.app_comm_cons.
      rewrite (Al Hnor k _ ltac:(lia)).
      replace (k - QuerySyntax.ands l)%nat with (S (k - S (QuerySyntax.ands l)))
        by lia.
      cbn [QuerySyntax.and_loop]. now rewrite (Pr Hpr rest). }
    split; [discriminate |]. split; [intros _; exact Hchain |].
    intros k rest Hk Hrest. cbn [QuerySyntax.ors]. rewrite Nat.sub_0_r.
    apply (expr_of_chain _ _ k (k - QuerySyntax.ands (Query.EAnd l r))); [| exact Hrest].
    apply Hchain. pose proof (ands_le_ops (Query.EAnd l r)). lia.
  - apply andb_true_iff in Hplain as [[Hl Hpr]%andb_true_iff Hr].
    destruct (IHl Hl n ltac:(lia)) as (_ & _ & El).
    destruct (IHr Hr n ltac:(lia)) as (Pr & _ & _).
    split; [discriminate |]. split; [discriminate |].
    intros k rest Hk Hrest. cbn [QuerySyntax.ors QuerySyntax.ops QuerySyntax.tokensOf] in *.
    rewrite <- List.app_assoc, <- List.app_comm_cons.
    rewrite El; [| lia | reflexivity].
    pose proof (ors_le_ops l).
    replace (k - QuerySyntax.ors l)%nat with (S (k - S (QuerySyntax.ors l))) by lia.
    cbn [QuerySyntax.or_loop].
    rewrite (chain_of_primary _ r _ _ rest (Pr Hpr rest)).
    now rewrite and_loop_stop.
  - assert (Hprim : forall rest,
              QuerySyntax.primary n (QuerySyntax.tokensOf (Query.EParen e) ++ rest)
              = Some (Query.EParen e, rest)).
    { intros rest. destruct n as [|n]; [lia |].
      destruct (IH Hplain n ltac:(lia)) as (_ & _ & E).
      cbn [QuerySyntax.tokensOf]. rewrite <- List.app_comm_cons, <- List.app_assoc.
      cbn [QuerySyntax.primary].
      rewrite E; [| rewrite length_app; pose proof (tokens_length_ops e); lia
                  | reflexivity].
      now rewrite or_loop_stop. }
    split; [intros _; exact Hprim |].
    assert (Hchain : forall k rest,
              QuerySyntax.and_chain (QuerySyntax.primary n) k
                (QuerySyntax.tokensOf (Query.EParen e) ++ rest)
              = QuerySyntax.and_loop (QuerySyntax.primary n) k (Query.EParen e) rest).
    { intros k rest. now apply chain_of_primary. }
    split.
    + intros _ k rest _. cbn [QuerySyntax.ands]. now rewrite Nat.sub_0_r.
    + intros k rest _ Hrest. cbn [QuerySyntax.ors]. rewrite Nat.sub_0_r.
      now apply (expr_of_chain _ _ k k).
Qed.

Lemma parse_print (e : Query.Expr) (rest : list QuerySyntax.Token) :
  Query.plain_reading e = true ->
  QuerySyntax.startsWithAnd rest = false ->
  QuerySyntax.startsWithOr rest = false ->
  QuerySyntax.parse (QuerySyntax.tokensOf e ++ rest) = Some (e, rest).
Proof.
  intros Hplain Hand Hor. unfold QuerySyntax.parse.
  pose proof (tokens_length_depth e). pose proof (tokens_length_ops e).
  destruct (parse_tokens e Hplain (length (QuerySyntax.tokensOf e ++ rest)))
    as (_ & _ & E); [rewrite length_app; lia |].
  rewrite E; [| rewrite length_app; lia | exact Hand].
  now apply or_loop_stop.
Qed.

(** A tree that reads plainly and whose values are clean is read back
    from its printed form, with or without an ordering after it. *)
Lemma read_print (e : Query.Expr) (suffix : string) (order : list QuerySyntax.Token) :
  Query.plain_reading e = true ->
  QuerySyntax.clean e = true ->
  QuerySyntax.delimited suffix = true ->
  QuerySyntax.lex QuerySyntax.Idle suffix = Some order ->
  QuerySyntax.ordering order = true ->
  QuerySyntax.read (Query.print e +:+ suffix) = Some e.
Proof.
  intros Hplain Hclean Hsuffix Hlex Horder. unfold QuerySyntax.read.
  rewrite (lex_print e suffix order Hclean Hsuffix Hlex).
  rewrite parse_print, Horder; try reflexivity; try exact Hplain;
    destruct order as [|[] order]; try reflexivity; discriminate.
Qed.

(** ** The queries of the clients, read back *)

Lemma clean_disjunction (first : Query.Expr) (rest : list Query.Expr) :
  QuerySyntax.clean (Query.disjunction first rest)
  = QuerySyntax.clean first && forallb QuerySyntax.clean rest.
Proof.
  unfold Query.disjunction. revert first.
  induction rest as [|r rest IH]; intros first; cbn [fold_left forallb].
  - now rewrite andb_true_r.
  - rewrite IH. cbn [QuerySyntax.clean]. now rewrite andb_assoc.
Qed.

Lemma clean_quoted_atoms {X} (f : string) (o : Query.Op) (v : X -> string)
    (l : list X) :
  QuerySyntax.bare f = true ->
  forallb QuerySyntax.clean (map (fun x => Query.atom f o (v x) true) l)
  = forallb QuerySyntax.quotable (map v l).
Proof.
  intros Hf. induction l as [|x l IH]; [reflexivity |].
  cbn [map forallb]. rewrite IH. unfold Query.atom at 1.
  cbn [QuerySyntax.clean]. unfold QuerySyntax.cleanAtom.
  cbn [Query.field Query.quoted Query.value]. now rewrite Hf.
Qed.

Lemma word_char_is_quotable (c : ascii) :
  Js.is_word c = true -> Ascii.eqb c "034" = false /\ Ascii.eqb c "092" = false.
Proof.
  destruct c as [[] [] [] [] [] [] [] []]; vm_compute; intros H;
    split; congruence.
Qed.

Lemma word_is_quotable (s : string) :
  Js.all_word s = true -> QuerySyntax.quotable s = true.
Proof.
  induction s as [|c s IH]; [reflexivity |].
  cbn [Js.all_word QuerySyntax.quotable]. intros [Hc Hs]%andb_true_iff.
  destruct (word_char_is_quotable c Hc) as [-> ->]. now apply IH.
Qed.

Lemma keywords_quotable (text : string) :
  forallb QuerySyntax.quotable (extractKeywords text) = true.
Proof.
  apply forallb_forall. intros kw Hin. apply word_is_quotable.
  unfold extractKeywords in Hin.
  apply in_map_iff in Hin as (token & <- & Htok).
  apply filter_In in Htok as [Hsplit _].
  apply strip_punct_all_word.
  pose proof (split_ws_go_no_space text "" false eq_refl) as Hall.
  rewrite List.Forall_forall in Hall. now apply Hall.
Qed.

Lemma clean_relatedPagesExpr pageId keywords labels :
  QuerySyntax.bare pageId = true ->
  forallb QuerySyntax.quotable keywords = true ->
  forallb QuerySyntax.quotable (map Confluence.name labels) = true ->
  QuerySyntax.clean (Query.relatedPagesExpr pageId keywords labels) = true.
Proof.
  intros Hid Hk Hl. unfold Query.relatedPagesExpr.
  assert (Hbase : QuerySyntax.clean
                    (Query.EAnd (Query.atom "type" Query.OpEq "page" false)
                       (Query.atom "id" Query.OpNe pageId false)) = true).
  { cbn [QuerySyntax.clean Query.atom]. unfold QuerySyntax.cleanAtom.
    cbn [Query.field Query.quoted Query.value]. now rewrite Hid. }
  assert (Htitled : forall k ks, forallb QuerySyntax.quotable (k :: ks) = true ->
            QuerySyntax.clean
              (Query.EParen
                 (Query.disjunction (Query.atom "title" Query.OpContains k true)
                    (map (fun word => Query.atom "title" Query.OpContains word true)
                       ks))) = true).
  { intros k ks H. cbn [QuerySyntax.clean]. rewrite clean_disjunction.
    rewrite (clean_quoted_atoms "title" Query.OpContains (fun word => word) ks eq_refl).
    rewrite map_id. exact H. }
  assert (Hlabelled : forall l ls,
            forallb QuerySyntax.quotable (map Confluence.name (l :: ls)) = true ->
            QuerySyntax.clean
              (Query.EParen
                 (Query.disjunction
                    (Query.atom "labelText" Query.OpEq (Confluence.name l) true)
                    (map (fun l => Query.atom "labelText" Query.OpEq
                                     (Confluence.name l) true) ls))) = true).
  { intros l ls H. cbn [QuerySyntax.clean]. rewrite clean_disjunction.
    rewrite (clean_quoted_atoms "labelText" Query.OpEq Confluence.name ls eq_refl).
    exact H. }
  destruct keywords as [|k ks], labels as [|l ls]; cbn [QuerySyntax.clean];
    cbn [QuerySyntax.clean] in Hbase, Htitled, Hlabelled;
    rewrite ?Hbase, ?andb_true_l; auto.
  now rewrite (Htitled k ks Hk), (Hlabelled l ls Hl).
Qed.

Lemma clean_relatedIssuesExpr issueKey source :
  QuerySyntax.bare issueKey = true ->
  QuerySyntax.bare (Jira.project_key (Jira.project (Jira.fields source))) = true ->
  forallb QuerySyntax.quotable (default [] (Jira.labels (Jira.fields source))) = true ->
  QuerySyntax.clean (Query.relatedIssuesExpr issueKey source) = true.
Proof.
  intros Hkey Hproject Hlabels. unfold Query.relatedIssuesExpr.
  cbn [QuerySyntax.clean]. rewrite clean_disjunction, forallb_app.
  apply andb_true_iff. split; [apply andb_true_iff; split;
                                [| apply andb_true_iff; split] |].
  - cbn [QuerySyntax.clean Query.atom]. unfold QuerySyntax.cleanAtom.
    cbn [Query.field Query.quoted Query.value]. now rewrite Hproject.
  - destruct (Jira.summary (Jira.fields source)) as [[|ch rest] |];
      try reflexivity.
    pose proof (keywords_quotable (String ch rest)) as Hk.
    destruct (extractKeywords (String ch rest)) as [|k ks]; [reflexivity |].
    cbn [forallb QuerySyntax.clean]. rewrite clean_disjunction, andb_true_r.
    rewrite (clean_quoted_atoms "summary" Query.OpContains (fun word => word) ks
               eq_refl).
    rewrite map_id. exact Hk.
  - destruct (Jira.labels (Jira.fields source)) as [[|l ls] |]; try reflexivity.
    cbn [forallb QuerySyntax.clean]. rewrite clean_disjunction, andb_true_r.
    rewrite (clean_quoted_atoms "labels" Query.OpEq (fun l => l) ls eq_refl).
    rewrite map_id. exact Hlabels.
  - cbn [QuerySyntax.clean Query.atom]. unfold QuerySyntax.cleanAtom.
    cbn [Query.field Query.quoted Query.value]. now rewrite Hkey.
Qed.

(** The query of the document variant is read back as its tree. *)
Lemma read_relatedQuery pageId keywords labels :
  QuerySyntax.bare pageId = true ->
  forallb QuerySyntax.quotable keywords = true ->
  forallb QuerySyntax.quotable (map Confluence.name labels) = true ->
  QuerySyntax.read (Confluence.relatedQuery pageId keywords labels)
  = Some (Query.relatedPagesExpr pageId keywords labels).
Proof.
  intros Hid Hk Hl. rewrite relatedQuery_print.
  rewrite <- (app_nil_r_s (Query.print _)).
  apply (read_print _ "" []); try reflexivity.
  - apply plain_reading_relatedPagesExpr.
  - now apply clean_relatedPagesExpr.
Qed.

(** The query of the issue variant is read back as its tree. *)
Lemma read_relatedJql issueKey source :
  QuerySyntax.bare issueKey = true ->
  QuerySyntax.bare (Jira.project_key (Jira.project (Jira.fields source))) = true ->
  forallb QuerySyntax.quotable (default [] (Jira.labels (Jira.fields source))) = true ->
  QuerySyntax.read (Jira.relatedJql issueKey source)
  = Some (Query.relatedIssuesExpr issueKey source).
Proof.
  intros Hkey Hproject Hlabels. rewrite relatedJql_print.
  apply (read_print _ " ORDER BY updated DESC"
           [QuerySyntax.TWord "ORDER"; QuerySyntax.TWord "BY";
            QuerySyntax.TWord "updated"; QuerySyntax.TWord "DESC"]);
    try reflexivity.
  - apply plain_reading_relatedIssuesExpr.
  - now apply clean_relatedIssuesExpr.
Qed.

Lemma skipn_sent (l l' : list Request) : skipn (length l) (l ++ l') = l'.
Proof. induction l as [|x l IH]; [reflexivity | exact IH]. Qed.

(** X17 ([getRelatedIssues]): when the issue key and the project key are
    plain words and no label of the fetched issue holds a double quote
    or a backslash, the [jql] string sent with the search request is one
    that no issue with the key of the source satisfies: read as the
    service reads it, the disjunction of the signals stands in
    parentheses before the exclusion is joined with [AND]. *)
Theorem X17_issue_query_excludes_source remote c issueKey w source :
  settle (Jira.issue remote
            (Jira.issueRequest c issueKey (Some ["summary"; "labels"; "project"])))
  = Return source ->
  QuerySyntax.bare issueKey = true ->
  QuerySyntax.bare (Jira.project_key (Jira.project (Jira.fields source))) = true ->
  forallb QuerySyntax.quotable (default [] (Jira.labels (Jira.fields source))) = true ->
  exists jql,
    map (param "jql") (skipn (length (requests w))
           (requests (snd (Jira.getRelatedIssues remote c issueKey w))))
    = [None; Some (PStr jql)]
    /\ forall matches (i : Jira.Issue),
         Jira.key i = issueKey ->
         QuerySyntax.satisfies matches jql (Query.issueItem i) = Some false.
Proof.
  intros Hfetch Hkey Hproject Hlabels. exists (Jira.relatedJql issueKey source).
  split.
  - rewrite getRelatedIssues_run. cbv zeta. rewrite Hfetch.
    destruct (settle (Jira.search remote _)); cbn [snd extend requests];
      rewrite skipn_sent; reflexivity.
  - intros matches i Hi. unfold QuerySyntax.satisfies.
    rewrite (read_relatedJql issueKey source Hkey Hproject Hlabels).
    now rewrite related_issues_exclude_source.
Qed.

Lemma X17_issue_query_excludes_source_witness :
  exists jql,
    map (param "jql") (skipn (length (requests start_world))
           (requests (snd (Jira.getRelatedIssues Demo.tracker Demo.jiraClient
                             "PROJ-1" start_world))))
    = [None; Some (PStr jql)]
    /\ forall matches (i : Jira.Issue),
         Jira.key i = "PROJ-1" ->
         QuerySyntax.satisfies matches jql (Query.issueItem i) = Some false.
Proof.
  apply (X17_issue_query_excludes_source Demo.tracker Demo.jiraClient "PROJ-1"
           start_world Demo.loginIssue); reflexivity.
Defined.

(** X18 ([getTopicallyRelatedPages]): when the source page yields no
    keyword, or has no label, and the page identifier is a plain word
    and no label holds a double quote or a backslash, the [cql] string
    sent with the search request is one that no page with the
    identifier of the source satisfies. *)
Theorem X18_page_query_with_one_signal_excludes_source
    remote c pageId limit expand w sourcePage :
  settle (Confluence.content remote
            (Confluence.pageRequest c pageId ["metadata.labels"]))
  = Return sourcePage ->
  extractKeywords (Confluence.title sourcePage) = []
  \/ Confluence.pageLabels sourcePage = [] ->
  QuerySyntax.bare pageId = true ->
  forallb QuerySyntax.quotable (map Confluence.name (Confluence.pageLabels sourcePage))
  = true ->
  exists cql,
    map (param "cql") (skipn (length (requests w))
           (requests (snd (Confluence.getTopicallyRelatedPages remote c pageId
                             limit expand w))))
    = [None; Some (PStr cql)]
    /\ forall matches (p : Confluence.Page),
         Confluence.id p = pageId ->
         QuerySyntax.satisfies matches cql (Query.pageItem p) = Some false.
Proof.
  intros Hfetch Hone Hid Hlabels.
  exists (Confluence.relatedQuery pageId
            (extractKeywords (Confluence.title sourcePage))
            (Confluence.pageLabels sourcePage)).
  split.
  - rewrite getTopicallyRelatedPages_run. cbv zeta. rewrite Hfetch.
    destruct (settle (Confluence.content_search remote _)); cbn [snd extend requests];
      rewrite skipn_sent; reflexivity.
  - intros matches p Hp. unfold QuerySyntax.satisfies.
    rewrite (read_relatedQuery pageId _ _ Hid (keywords_quotable _) Hlabels).
    now rewrite related_pages_exclude_source.
Qed.

Lemma X18_page_query_with_one_signal_excludes_source_witness :
  exists cql,
    map (param "cql") (skipn (length (requests start_world))
           (requests (snd (Confluence.getTopicallyRelatedPages Demo.wiki
                             Demo.wikiClient "7" None None start_world))))
    = [None; Some (PStr cql)]
    /\ forall matches (p : Confluence.Page),
         Confluence.id p = "7" ->
         QuerySyntax.satisfies matches cql (Query.pageItem p) = Some false.
Proof.
  apply (X18_page_query_with_one_signal_excludes_source Demo.wiki Demo.wikiClient
           "7" None None start_world Demo.blankPage).
  - reflexivity.
  - left. reflexivity.
  - reflexivity.
  - reflexivity.
Defined.

(** X20 (query synthesis): for every combination of keywords and labels
    the query string of either variant is well formed and is read, with
    [AND] binding tighter than [OR], as the tree of its variant, whose
    exclusion atom names the source item; this holds when the values put
    into the string are clean, that is when the identifiers are plain
    words and the quoted values hold neither a double quote nor a
    backslash.  Nothing is escaped by the clients: a label that holds a
    double quote can close the parentheses around the signals, and the
    source issue then satisfies its own query. *)
Theorem X20_queries_read_back_as_their_trees :
  (forall pageId keywords labels,
     QuerySyntax.bare pageId = true ->
     forallb QuerySyntax.quotable keywords = true ->
     forallb QuerySyntax.quotable (map Confluence.name labels) = true ->
     QuerySyntax.read (Confluence.relatedQuery pageId keywords labels)
     = Some (Query.relatedPagesExpr pageId keywords labels))
  /\ (forall issueKey source,
        QuerySyntax.bare issueKey = true ->
        QuerySyntax.bare (Jira.project_key (Jira.project (Jira.fields source))) = true ->
        forallb QuerySyntax.quotable (default [] (Jira.labels (Jira.fields source)))
        = true ->
        QuerySyntax.read (Jira.relatedJql issueKey source)
        = Some (Query.relatedIssuesExpr issueKey source))
  /\ (forall matches,
        QuerySyntax.satisfies matches
          (Jira.relatedJql (Jira.key craftedIssue) craftedIssue)
          (Query.issueItem craftedIssue)
        = Some true).
Proof.
  split; [exact read_relatedQuery |]. split; [exact read_relatedJql |].
  intros matches. reflexivity.
Qed.

Lemma X20_queries_read_back_as_their_trees_witness :
  QuerySyntax.read
    (Confluence.relatedQuery "123" ["meeting"; "notes"] [Demo.oncall])
  = Some (Query.relatedPagesExpr "123" ["meeting"; "notes"] [Demo.oncall])
  /\ QuerySyntax.read (Jira.relatedJql "PROJ-1" Demo.loginIssue)
     = Some (Query.relatedIssuesExpr "PROJ-1" Demo.loginIssue).
Proof.
  split.
  - apply (proj1 X20_queries_read_back_as_their_trees); reflexivity.
  - apply (proj1 (proj2 X20_queries_read_back_as_their_trees)); reflexivity.
Defined.
